(** * EESSI software-layer: EasyBuild hooks ([eb_hooks.py])

    A shallow embedding of the hook functions of [eb_hooks.py] and the
    properties of them that the specification states.

    Python objects that the hooks mutate (the easyconfig, the easyblock, the
    process environment, EasyBuild's build options, the install tree, the
    terminal) are threaded explicitly through a small state-and-exception
    monad.  Strings are [string], the bytes of the text in UTF-8;
    dictionaries are [gmap]; Python's [None] is [None] of an [option]. *)

From Stdlib Require Import ZArith Ascii String DecimalString.
From stdpp Require Import gmap strings list fin_maps.
From Equations Require Import Equations.

Local Open Scope string_scope.

(** ** Python string primitives used by the hooks *)

Module Py.

(** [s.startswith(p)], returning what follows the prefix. *)
Fixpoint strip_prefix (p s : string) : option string :=
  match p, s with
  | EmptyString, _ => Some s
  | String a p', String b s' => if decide (a = b) then strip_prefix p' s' else None
  | String _ _, EmptyString => None
  end.

Definition startswith (s p : string) : bool := bool_decide (is_Some (strip_prefix p s)).

(** [s.endswith("/")]. *)
Fixpoint ends_with_slash (s : string) : bool :=
  match s with
  | EmptyString => false
  | String c EmptyString => bool_decide (c = "/"%char)
  | String _ s' => ends_with_slash s'
  end.

(** [needle in hay] on strings. *)
Fixpoint contains (hay needle : string) : bool :=
  match strip_prefix needle hay with
  | Some _ => true
  | None => match hay with
            | EmptyString => false
            | String _ hay' => contains hay' needle
            end
  end.

(** [sep.join(l)]. *)
Fixpoint join (sep : string) (l : list string) : string :=
  match l with
  | [] => ""
  | [x] => x
  | x :: l' => x +:+ sep +:+ join sep l'
  end.

(** [s.replace(old, new, 1)]: only the leftmost occurrence. *)
Fixpoint replace_first (old new s : string) : string :=
  match strip_prefix old s with
  | Some rest => new +:+ rest
  | None => match s with
            | EmptyString => EmptyString
            | String c s' => String c (replace_first old new s')
            end
  end.

(** Scan for [s.replace(old, new)] with [old] non-empty: [skip] counts the
    characters of a match that are still to be dropped. *)
Fixpoint replace_scan (old new : string) (skip : nat) (s : string) : string :=
  match s with
  | EmptyString => EmptyString
  | String c s' =>
      match skip with
      | S k => replace_scan old new k s'
      | O => match strip_prefix old s with
             | Some _ => new +:+ replace_scan old new (String.length old - 1) s'
             | None => String c (replace_scan old new 0 s')
             end
      end
  end.

(** With an empty [old], Python puts [new] before every character and at the end. *)
Fixpoint intersperse (new s : string) : string :=
  match s with
  | EmptyString => new
  | String c s' => new +:+ String c (intersperse new s')
  end.

(** [s.replace(old, new)]. *)
Definition replace (old new s : string) : string :=
  match old with
  | EmptyString => intersperse new s
  | String _ _ => replace_scan old new 0 s
  end.

(** The regular expressions the hooks use: a sequence of literal characters
    and dots (any character but a newline). *)
Inductive re_atom :=
| Lit (c : ascii)
| Dot.

(** A string holds its text in UTF-8.  A character beyond ASCII takes a
    leading byte and one to three bytes of the form [10xxxxxx] behind it. *)
Definition is_continuation (c : ascii) : bool :=
  let n := nat_of_ascii c in
  Nat.leb 128 n && Nat.leb n 191.

(** What follows the bytes that still belong to the character just read. *)
Fixpoint drop_continuation (s : string) : string :=
  match s with
  | EmptyString => EmptyString
  | String c s' => if is_continuation c then drop_continuation s' else s
  end.

(** Does the pattern match at the start of [s]?  Gives what follows the
    match.  A dot takes one character: a byte other than the newline, with
    the continuation bytes behind it. *)
Fixpoint re_match (p : list re_atom) (s : string) : option string :=
  match p with
  | [] => Some s
  | Lit a :: p' =>
      match s with
      | String b s' => if decide (a = b) then re_match p' s' else None
      | EmptyString => None
      end
  | Dot :: p' =>
      match s with
      | String b s' =>
          if decide (b = "010"%char) then None else re_match p' (drop_continuation s')
      | EmptyString => None
      end
  end.

(** Scan for [re.sub] with a pattern that starts with a literal ASCII
    character, as those of the hooks do: leftmost matches, not overlapping.
    Such a pattern matches no empty string and never from the middle of a
    character.  [skip] counts the bytes of a match that are still to be
    dropped. *)
Fixpoint re_sub_scan (p : list re_atom) (repl : string) (skip : nat) (s : string) : string :=
  match s with
  | EmptyString => EmptyString
  | String c s' =>
      match skip with
      | S k => re_sub_scan p repl k s'
      | O => match re_match p s with
             | Some rest =>
                 repl +:+ re_sub_scan p repl (String.length s' - String.length rest) s'
             | None => String c (re_sub_scan p repl 0 s')
             end
      end
  end.

(** [re.compile(p).sub(repl, s)]. *)
Definition re_sub (p : list re_atom) (repl s : string) : string := re_sub_scan p repl 0 s.

(** The pattern that matches the string [s] literally. *)
Definition re_lit (s : string) : list re_atom := map Lit (list_ascii_of_string s).

(** [s.split(".")[0]]: what precedes the first dot. *)
Fixpoint before_dot (s : string) : string :=
  match s with
  | EmptyString => EmptyString
  | String c s' => if decide (c = "."%char) then EmptyString else String c (before_dot s')
  end.

(** The text is plain ASCII: every byte is below 128. *)
Definition is_ascii (s : string) : bool :=
  forallb (fun c => Nat.ltb (nat_of_ascii c) 128) (list_ascii_of_string s).

(** [c.isspace()] for the characters of an ASCII text. *)
Definition isspace (c : ascii) : bool :=
  let n := nat_of_ascii c in
  (Nat.leb 9 n && Nat.leb n 13) || (Nat.leb 28 n && Nat.leb n 32).

(** [s.split()]: the maximal runs of non-blank characters.  [cur] holds the
    run being read, last character first. *)
Fixpoint split_from (cur : list ascii) (s : string) : list string :=
  match s with
  | EmptyString =>
      match cur with [] => [] | _ => [string_of_list_ascii (rev cur)] end
  | String c s' =>
      if isspace c
      then match cur with
           | [] => split_from [] s'
           | _ => string_of_list_ascii (rev cur) :: split_from [] s'
           end
      else split_from (c :: cur) s'
  end.

Definition split (s : string) : list string := split_from [] s.

Fixpoint lstrip (s : string) : string :=
  match s with
  | EmptyString => EmptyString
  | String c s' => if isspace c then lstrip s' else s
  end.

Definition rstrip (s : string) : string :=
  string_of_list_ascii (rev (list_ascii_of_string
    (lstrip (string_of_list_ascii (rev (list_ascii_of_string s)))))).

(** [s.strip()]. *)
Definition strip (s : string) : string := rstrip (lstrip s).

(** Iterating over a text file: the lines, each with its newline.  The text
    is the one Python hands out, after newline translation.  [cur] holds the
    line being read, last character first. *)
Fixpoint lines_from (cur : list ascii) (s : string) : list string :=
  match s with
  | EmptyString =>
      match cur with [] => [] | _ => [string_of_list_ascii (rev cur)] end
  | String c s' =>
      if decide (c = "010"%char)
      then string_of_list_ascii (rev (c :: cur)) :: lines_from [] s'
      else lines_from (c :: cur) s'
  end.

Definition lines (s : string) : list string := lines_from [] s.

(** ['%s' % n] for an integer. *)
Definition str_of_Z (n : Z) : string := NilZero.string_of_int (Z.to_int n).

(** Truth value of an optional string: [None] and [""] are false. *)
Definition truthy (o : option string) : bool :=
  match o with
  | None | Some EmptyString => false
  | Some _ => true
  end.

(** [os.path.join(a, b)] on POSIX. *)
Definition path_join2 (a b : string) : string :=
  if startswith b "/" then b
  else if bool_decide (a = "") || ends_with_slash a then a +:+ b
  else a +:+ "/" +:+ b.

(** [os.path.join(a, *p)]. *)
Definition path_join (a : string) (p : list string) : string := foldl path_join2 a p.

End Py.

(** ** Messages, exceptions and the hook monad *)

(** A value handed to a ['%s'] of a message. *)
Inductive arg :=
| AStr (s : string)
| AList (l : list string)
| AOpts (o : gmap string bool)
| ANone.

(** A message template with the values for its placeholders. *)
Record message := Msg { fmt : string; args : list arg }.

(** The exceptions of the hooks.  [Unmodelled] is none of Python's: it marks
    a run that has left what this development describes, at the operation
    named ([what]); nothing is stated about such a run. *)
Inductive exn :=
| EasyBuildError (m : message)
| FileNotFoundError (path : string)
| IsADirectoryError (path : string)
| AttributeError (attr : string)
| Unmodelled (what : string).

Inductive result (A : Type) :=
| Ok (a : A)
| Raise (e : exn).
Arguments Ok {A} a.
Arguments Raise {A} e.

(** A computation over a state [St] that returns an [A] or raises; the
    state reached when an exception is raised is kept. *)
Definition M (St A : Type) : Type := St -> result A * St.

Definition ret {St A} (a : A) : M St A := fun s => (Ok a, s).

Definition bind {St A B} (m : M St A) (k : A -> M St B) : M St B :=
  fun s => match m s with
           | (Ok a, s') => k a s'
           | (Raise e, s') => (Raise e, s')
           end.

Definition raise {St A} (e : exn) : M St A := fun s => (Raise e, s).

Definition get {St} : M St St := fun s => (Ok s, s).

Definition modify {St} (f : St -> St) : M St unit := fun s => (Ok tt, f s).

Notation "'let*' x ':=' m 'in' k" := (bind m (fun x => k))
  (at level 10, x name, m at level 100, k at level 200).

(** Run a computation on the second component of the state. *)
Definition on_world {X W A} (m : M W A) : M (X * W) A :=
  fun s => match m (snd s) with (r, w') => (r, (fst s, w')) end.

(** Run a computation on the first component of the state. *)
Definition on_self {X W A} (m : M X A) : M (X * W) A :=
  fun s => match m (fst s) with (r, x') => (r, (x', snd s)) end.

(** ** Data model *)

(** An entry [(name, version, ...)] of a dependency list. *)
Record dependency := Dep {
  dep_name : string;
  dep_version : string;
  dep_rest : list string
}.

#[global] Instance dependency_eq_dec : EqDecision dependency.
Proof. solve_decision. Defined.

(** Modelled from the spec: the easyconfig object of the EasyBuild framework
    (section 3, "Build Configuration": a mapping of option names to string or
    list values, mutated in place), with the parameters that the hooks read
    or write.  [modluafooter] is [None] when the key is absent from
    [ec.asdict()]; [log] is what went to [ec.log]. *)
Record EasyConfig := {
  name : string;
  toolchain_name : string;
  toolchainopts : gmap string bool;
  configopts : string;
  preconfigopts : string;
  dependencies : list dependency;
  builddependencies : list dependency;
  modluafooter : option string;
  log : list message
}.

Definition set_toolchainopts (v : gmap string bool) (ec : EasyConfig) : EasyConfig :=
  {| name := name ec; toolchain_name := toolchain_name ec; toolchainopts := v;
     configopts := configopts ec; preconfigopts := preconfigopts ec;
     dependencies := dependencies ec; builddependencies := builddependencies ec;
     modluafooter := modluafooter ec; log := log ec |}.

Definition set_configopts (v : string) (ec : EasyConfig) : EasyConfig :=
  {| name := name ec; toolchain_name := toolchain_name ec; toolchainopts := toolchainopts ec;
     configopts := v; preconfigopts := preconfigopts ec;
     dependencies := dependencies ec; builddependencies := builddependencies ec;
     modluafooter := modluafooter ec; log := log ec |}.

Definition set_preconfigopts (v : string) (ec : EasyConfig) : EasyConfig :=
  {| name := name ec; toolchain_name := toolchain_name ec; toolchainopts := toolchainopts ec;
     configopts := configopts ec; preconfigopts := v;
     dependencies := dependencies ec; builddependencies := builddependencies ec;
     modluafooter := modluafooter ec; log := log ec |}.

Definition set_dependencies (v : list dependency) (ec : EasyConfig) : EasyConfig :=
  {| name := name ec; toolchain_name := toolchain_name ec; toolchainopts := toolchainopts ec;
     configopts := configopts ec; preconfigopts := preconfigopts ec;
     dependencies := v; builddependencies := builddependencies ec;
     modluafooter := modluafooter ec; log := log ec |}.

Definition set_builddependencies (v : list dependency) (ec : EasyConfig) : EasyConfig :=
  {| name := name ec; toolchain_name := toolchain_name ec; toolchainopts := toolchainopts ec;
     configopts := configopts ec; preconfigopts := preconfigopts ec;
     dependencies := dependencies ec; builddependencies := v;
     modluafooter := modluafooter ec; log := log ec |}.

Definition set_modluafooter (v : option string) (ec : EasyConfig) : EasyConfig :=
  {| name := name ec; toolchain_name := toolchain_name ec; toolchainopts := toolchainopts ec;
     configopts := configopts ec; preconfigopts := preconfigopts ec;
     dependencies := dependencies ec; builddependencies := builddependencies ec;
     modluafooter := v; log := log ec |}.

Definition set_log (v : list message) (ec : EasyConfig) : EasyConfig :=
  {| name := name ec; toolchain_name := toolchain_name ec; toolchainopts := toolchainopts ec;
     configopts := configopts ec; preconfigopts := preconfigopts ec;
     dependencies := dependencies ec; builddependencies := builddependencies ec;
     modluafooter := modluafooter ec; log := v |}.

(** Modelled from the spec: the build-step object ([self]) of the EasyBuild
    framework: its easyconfig [self.cfg] (whose name is [self.name]), the
    answer of [self.toolchain.mpi_family()], [self.installdir], and the
    attributes set on the object at run time (section 3, "Transient
    Build-Option Override"). *)
Record EasyBlock := {
  cfg : EasyConfig;
  mpi_family : option string;
  installdir : string;
  attrs : gmap string (option string)
}.

Definition set_cfg (v : EasyConfig) (self : EasyBlock) : EasyBlock :=
  {| cfg := v; mpi_family := mpi_family self; installdir := installdir self;
     attrs := attrs self |}.

Definition set_attrs (v : gmap string (option string)) (self : EasyBlock) : EasyBlock :=
  {| cfg := cfg self; mpi_family := mpi_family self; installdir := installdir self;
     attrs := v |}.

(** A directory entry that is not a directory. *)
Inductive leaf :=
| File (content : string)
| Symlink (target : string).

#[local] Set Warnings "-register-all".

(** A directory as [os.walk] lists it: the entries that are not
    directories, then the subdirectories, each list in listing order.  A
    symbolic link is a leaf whatever it points to: [os.walk] does not descend
    into it and the filter skips it. *)
Inductive dir :=
| Dir (files : list (string * leaf)) (subdirs : list (string * dir)).

(** What the hooks see of the machine: the process environment, EasyBuild's
    build options, the CPU, the directory trees by the path of their root,
    the exit status of a shell command, and what was printed. *)
Record World := {
  environ : gmap string string;
  build_options : gmap string (option string);
  cpu_architecture : string;
  cpu_features : list string;
  filesystem : gmap string dir;
  os_system : string -> Z;
  stdout : list message
}.

Definition set_environ (v : gmap string string) (w : World) : World :=
  {| environ := v; build_options := build_options w;
     cpu_architecture := cpu_architecture w; cpu_features := cpu_features w;
     filesystem := filesystem w; os_system := os_system w; stdout := stdout w |}.

Definition set_build_options (v : gmap string (option string)) (w : World) : World :=
  {| environ := environ w; build_options := v; cpu_architecture := cpu_architecture w;
     cpu_features := cpu_features w; filesystem := filesystem w;
     os_system := os_system w; stdout := stdout w |}.

Definition set_filesystem (v : gmap string dir) (w : World) : World :=
  {| environ := environ w; build_options := build_options w;
     cpu_architecture := cpu_architecture w; cpu_features := cpu_features w;
     filesystem := v; os_system := os_system w; stdout := stdout w |}.

Definition set_stdout (v : list message) (w : World) : World :=
  {| environ := environ w; build_options := build_options w;
     cpu_architecture := cpu_architecture w; cpu_features := cpu_features w;
     filesystem := filesystem w; os_system := os_system w; stdout := v |}.

(** ** Framework primitives *)

(** [print_msg(fmt, *args)]. *)
Definition print_msg (f : string) (a : list arg) : M World unit :=
  modify (fun w => set_stdout (stdout w ++ [Msg f a]) w).

(** [build_option(key)]; an option that was never set is [None]. *)
Definition build_option (key : string) : M World (option string) :=
  fun w => (Ok (default None (build_options w !! key)), w).

(** [update_build_option(key, value)]. *)
Definition update_build_option (key : string) (v : option string) : M World unit :=
  modify (fun w => set_build_options (<[key := v]> (build_options w)) w).

(** [get_cpu_architecture()]. *)
Definition get_cpu_architecture : M World string :=
  fun w => (Ok (cpu_architecture w), w).

(** [get_cpu_features()]. *)
Definition get_cpu_features : M World (list string) :=
  fun w => (Ok (cpu_features w), w).

(** [os.getenv(key)]. *)
Definition os_getenv (key : string) : M World (option string) :=
  fun w => (Ok (environ w !! key), w).

(** [hasattr], [setattr], [getattr] and [delattr] on the build step, for the
    attributes set at run time. *)
Definition hasattr (a : string) : M EasyBlock bool :=
  fun self => (Ok (bool_decide (is_Some (attrs self !! a))), self).

Definition setattr (a : string) (v : option string) : M EasyBlock unit :=
  modify (fun self => set_attrs (<[a := v]> (attrs self)) self).

Definition getattr (a : string) : M EasyBlock (option string) :=
  fun self => match attrs self !! a with
              | Some v => (Ok v, self)
              | None => (Raise (AttributeError a), self)
              end.

Definition delattr (a : string) : M EasyBlock unit :=
  fun self => match attrs self !! a with
              | Some _ => (Ok tt, set_attrs (delete a (attrs self)) self)
              | None => (Raise (AttributeError a), self)
              end.

(** An optional string as the value for a placeholder. *)
Definition arg_of_opt (o : option string) : arg :=
  match o with Some s => AStr s | None => ANone end.

(** Constants of [easybuild.tools.systemtools] and
    [easybuild.tools.toolchain.compiler]. *)
Definition AARCH64 : string := "AArch64".
Definition POWER : string := "POWER".
Definition X86_64 : string := "x86_64".
Definition OPTARCH_GENERIC : string := "GENERIC".

(** ** The hooks *)

Definition EESSI_RPATH_OVERRIDE_ATTR : string := "orig_rpath_override_dirs".

Definition CUDA_ENABLED_TOOLCHAINS : list string :=
  [ "fosscuda"; "gcccuda"; "gimpic"; "giolfc"; "gmklc"; "golfc"; "gomklc";
    "gompic"; "goolfc"; "iccifortcuda"; "iimklc"; "iimpic"; "intelcuda";
    "iomklc"; "iompic"; "nvompic"; "nvpsmpic" ].

Definition get_eessi_envvar (eessi_envvar : string) : M World string :=
  let* eessi_envvar_value := os_getenv eessi_envvar in
  match eessi_envvar_value with
  | None => raise (EasyBuildError (Msg "$%s is not defined!" [AStr eessi_envvar]))
  | Some v => ret v
  end.

Definition get_rpath_override_dirs (software_name : string) : M World (list string) :=
  let* eessi_software_path := get_eessi_envvar "EESSI_SOFTWARE_PATH" in
  let* eessi_pilot_version := get_eessi_envvar "EESSI_PILOT_VERSION" in
  let rpath_injection_stub :=
    Py.path_join
      (Py.replace_first eessi_pilot_version
         (Py.path_join "host_injections" [eessi_pilot_version]) eessi_software_path)
      ["rpath_overrides"; software_name; "system"] in
  let rpath_injection_dirs :=
    map (fun x => Py.path_join rpath_injection_stub [x]) ["lib"; "lib64"] in
  ret rpath_injection_dirs.

Definition pre_prepare_hook : M (EasyBlock * World) unit :=
  let* st := get in
  let family := mpi_family (fst st) in
  match family with
  | Some fam =>
      if Py.truthy family then
        let* mpi_rpath_override_dirs := on_world (get_rpath_override_dirs fam) in
        let* already := on_self (hasattr EESSI_RPATH_OVERRIDE_ATTR) in
        if (already : bool) then
          raise (EasyBuildError
                   (Msg "'self' already has attribute %s! Can't use pre_prepare hook."
                        [AStr EESSI_RPATH_OVERRIDE_ATTR]))
        else
          let* current := on_world (build_option "rpath_override_dirs") in
          let* _ := on_self (setattr EESSI_RPATH_OVERRIDE_ATTR current) in
          let* saved := on_self (getattr EESSI_RPATH_OVERRIDE_ATTR) in
          let rpath_override_dirs :=
            match saved with
            | Some orig =>
                if Py.truthy saved
                then Py.join ":" ([orig] ++ mpi_rpath_override_dirs)
                else Py.join ":" mpi_rpath_override_dirs
            | None => Py.join ":" mpi_rpath_override_dirs
            end in
          let* _ := on_world (update_build_option "rpath_override_dirs"
                                (Some rpath_override_dirs)) in
          on_world (print_msg
            "Updated rpath_override_dirs (to allow overriding MPI family %s): %s"
            [AStr fam; AStr rpath_override_dirs])
      else ret tt
  | None => ret tt
  end.

Definition post_prepare_hook : M (EasyBlock * World) unit :=
  let* present := on_self (hasattr EESSI_RPATH_OVERRIDE_ATTR) in
  if (present : bool) then
    let* saved := on_self (getattr EESSI_RPATH_OVERRIDE_ATTR) in
    let* _ := on_world (update_build_option "rpath_override_dirs" saved) in
    let* shown := on_self (getattr EESSI_RPATH_OVERRIDE_ATTR) in
    let* _ := on_world (print_msg "Resetting rpath_override_dirs to original value: %s"
                          [arg_of_opt shown]) in
    on_self (delattr EESSI_RPATH_OVERRIDE_ATTR)
  else ret tt.

(** The double-quote character and a newline. *)
Definition dq : string := String "034"%char EmptyString.
Definition nl : string := String "010"%char EmptyString.

(** The object the hook was called on. *)
Definition self_ {X W} : M (X * W) X := fun s => (Ok (fst s), s).

(** Run a computation on [self.cfg]. *)
Definition on_cfg {A} (m : M EasyConfig A) : M EasyBlock A :=
  fun self => match m (cfg self) with (r, c') => (r, set_cfg c' self) end.

(** Modelled from the spec: [EasyConfig.update(key, value)] of the EasyBuild
    framework, which appends [value] to a string-valued parameter (section 3:
    "The patchers append to ... specific string fields"); EasyBuild puts a
    blank before and after the appended value. *)
Definition appended (prev value : string) : string := prev +:+ " " +:+ value +:+ " ".

Definition update (key value : string) : M EasyConfig unit :=
  if decide (key = "configopts") then
    modify (fun ec => set_configopts (appended (configopts ec) value) ec)
  else if decide (key = "preconfigopts") then
    modify (fun ec => set_preconfigopts (appended (preconfigopts ec) value) ec)
  else raise (EasyBuildError (Msg "Can't update configuration value for %s" [AStr key])).

Definition cgal_toolchainopts_precise (eprefix : string) : M (EasyConfig * World) unit :=
  let* ec := self_ in
  if decide (name ec = "CGAL") then
    let* arch := on_world get_cpu_architecture in
    if decide (arch = POWER) then
      let* _ := on_self (modify (fun ec =>
                  set_toolchainopts (<["strict" := false]> (toolchainopts ec)) ec)) in
      let* _ := on_self (modify (fun ec =>
                  set_toolchainopts (<["precise" := true]> (toolchainopts ec)) ec)) in
      let* ec := self_ in
      on_world (print_msg "Tweaked toochainopts for %s: %s"
                  [AStr (name ec); AOpts (toolchainopts ec)])
    else ret tt
  else
    raise (EasyBuildError (Msg "CGAL-specific hook triggered for non-CGAL easyconfig?!" [])).

Definition fontconfig_add_fonts (eprefix : string) : M (EasyConfig * World) unit :=
  let* ec := self_ in
  if decide (name ec = "fontconfig") then
    let with_add_fonts :=
      "--with-add-fonts=" +:+ Py.path_join eprefix ["usr"; "share"; "fonts"] in
    let* _ := on_self (update "configopts" with_add_fonts) in
    on_world (print_msg "Added '%s' configure option for %s"
                [AStr with_add_fonts; AStr (name ec)])
  else
    raise (EasyBuildError
             (Msg "fontconfig-specific hook triggered for non-fontconfig easyconfig?!" [])).

Definition ucx_eprefix (eprefix : string) : M (EasyConfig * World) unit :=
  let* ec := self_ in
  if decide (name ec = "UCX") then
    let* _ := on_self (update "configopts" ("--with-sysroot=" +:+ eprefix)) in
    let* _ := on_self (update "configopts"
                         ("--with-rdmacm=" +:+ Py.path_join eprefix ["usr"])) in
    let* ec := self_ in
    on_world (print_msg "Using custom configure options for %s: %s"
                [AStr (name ec); AStr (configopts ec)])
  else
    raise (EasyBuildError (Msg "UCX-specific hook triggered for non-UCX easyconfig?!" [])).

Definition libfabric_disable_psm3_x86_64_generic : M (EasyBlock * World) unit :=
  let* self := self_ in
  if decide (name (cfg self) = "libfabric") then
    let* arch := on_world get_cpu_architecture in
    if decide (arch = X86_64) then
      let* optarch := on_world (build_option "optarch") in
      let generic := bool_decide (optarch = Some OPTARCH_GENERIC) in
      let* features := on_world get_cpu_features in
      let no_avx := negb (bool_decide ("avx" ∈ features)) in
      if generic || no_avx then
        let* _ := on_self (on_cfg (update "configopts" "--disable-psm3")) in
        let* self := self_ in
        on_world (print_msg "Using custom configure options for %s: %s"
                    [AStr (name (cfg self)); AStr (configopts (cfg self))])
      else ret tt
    else ret tt
  else
    raise (EasyBuildError
             (Msg "libfabric-specific hook triggered for non-libfabric easyconfig?!" [])).

Definition metabat_preconfigure : M (EasyBlock * World) unit :=
  let* self := self_ in
  if decide (name (cfg self) = "MetaBAT") then
    let configopts0 := configopts (cfg self) in
    let regex := (Py.re_lit "$EBROOTZLIB/lib/libz" ++ [Py.Dot; Py.Lit "a"%char])%list in
    on_self (on_cfg (modify
      (set_configopts (Py.re_sub regex "$EPREFIX/usr/lib64/libz.so" configopts0))))
  else
    raise (EasyBuildError
             (Msg "MetaBAT-specific hook triggered for non-MetaBAT easyconfig?!" [])).

Definition wrf_preconfigure : M (EasyBlock * World) unit :=
  let* self := self_ in
  if decide (name (cfg self) = "WRF") then
    let* arch := on_world get_cpu_architecture in
    if decide (arch = AARCH64) then
      let pattern := "Linux x86_64 ppc64le, gfortran" in
      let repl := "Linux x86_64 aarch64 ppc64le, gfortran" in
      let* _ := on_self (on_cfg (update "preconfigopts"
                  ("sed -i 's/" +:+ pattern +:+ "/" +:+ repl
                     +:+ "/g' arch/configure_new.defaults && "))) in
      let* self := self_ in
      on_world (print_msg "Using custom preconfigopts for %s: %s"
                  [AStr (name (cfg self)); AStr (preconfigopts (cfg self))])
    else ret tt
  else
    raise (EasyBuildError (Msg "WRF-specific hook triggered for non-WRF easyconfig?!" [])).

(** *** The GPU property injector *)

(** The value of [cuda_version]: the integer it starts with, or the version
    string of a dependency. *)
Inductive version :=
| VInt (n : Z)
| VStr (s : string).

(** ['%s' % cuda_version]. *)
Definition str_of_version (v : version) : string :=
  match v with
  | VInt n => Py.str_of_Z n
  | VStr s => s
  end.

(** [l.remove(x)]: drops the first element equal to [x].  The injector only
    removes the element it has just read from the list, so the [ValueError]
    of an absent element cannot arise. *)
Fixpoint list_remove (x : dependency) (l : list dependency) : list dependency :=
  match l with
  | [] => []
  | y :: l' => if decide (x = y) then l' else y :: list_remove x l'
  end.

Lemma list_remove_length x l : length (list_remove x l) <= length l.
Proof.
  induction l as [|y l IH]; simpl; [lia|].
  destruct (decide (x = y)); simpl; lia.
Qed.

(** Modelled from the spec: [ec.asdict()] of the EasyBuild framework gives
    the easyconfig's own lists (section 3: the entities are "mutated in
    place"; the injector "removes entries ... from the runtime-dependency
    list and appends them to the build-dependency list"), so the two list
    operations of the loop body act on the easyconfig. *)
Definition move_to_builddependencies (dep : dependency) (ec : EasyConfig) : EasyConfig :=
  let ec := set_dependencies (list_remove dep (dependencies ec)) ec in
  if bool_decide (dep ∈ builddependencies ec)
  then ec
  else set_builddependencies (builddependencies ec ++ [dep]) ec.

Definition inspect {A} (a : A) : {b | a = b} := exist _ a eq_refl.

(** The loop [for dep in iter(ec_dict["dependencies"])]: the iterator holds a
    position [i] in the list, which the body shortens while the loop runs; the
    loop ends when the position is past the end of the list as it is then. *)
Equations? dependencies_loop (i : nat) (cuda_version : version) (ec : EasyConfig)
  : version * EasyConfig by wf (length (dependencies ec) - i) lt :=
dependencies_loop i cuda_version ec with inspect (dependencies ec !! i) := {
  | exist _ (Some dep) _ =>
      if Py.contains (dep_name dep) "CUDA"
      then dependencies_loop (S i) (VStr (dep_version dep)) (move_to_builddependencies dep ec)
      else dependencies_loop (S i) cuda_version ec
  | exist _ None _ => (cuda_version, ec) }.
Proof.
  - apply lookup_lt_Some in e.
    assert (length (dependencies (move_to_builddependencies dep ec))
            <= length (dependencies ec)); [|lia].
    unfold move_to_builddependencies. case_bool_decide; simpl; apply list_remove_length.
  - apply lookup_lt_Some in e. lia.
Qed.

Definition inject_gpu_property (ec : EasyConfig) : EasyConfig :=
  let ec_dict_modluafooter := modluafooter ec in
  if bool_decide ("CUDA" ∈ map dep_name (dependencies ec))
     || bool_decide (toolchain_name ec ∈ CUDA_ENABLED_TOOLCHAINS)
  then
    let ec := set_log (log ec ++
      [Msg "[parse hook] Injecting gpu as Lmod arch property and envvar with CUDA version" []])
      ec in
    let value := "add_property(" +:+ dq +:+ "arch" +:+ dq +:+ "," +:+ dq +:+ "gpu" +:+ dq +:+ ")" in
    let '(cuda_version, ec) := dependencies_loop 0 (VInt 0) ec in
    let value :=
      Py.join nl [value;
                  "setenv(" +:+ dq +:+ "EESSICUDAVERSION" +:+ dq +:+ "," +:+ dq
                    +:+ str_of_version cuda_version +:+ dq +:+ ")"] in
    match ec_dict_modluafooter with
    | Some footer =>
        if negb (Py.contains footer value)
        then set_modluafooter (Some (Py.join nl [footer; value])) ec
        else ec
    | None => set_modluafooter (Some value) ec
    end
  else ec.

(** *** The CUDA redistribution filter *)

(** The entry called [k] of a listing. *)
Fixpoint entry {A} (k : string) (l : list (string * A)) : option A :=
  match l with
  | [] => None
  | (k', a) :: l' => if decide (k = k') then Some a else entry k l'
  end.

(** [open(os.path.join(top, filename))] and reading the text, for an entry
    of the directory [top].  Without the directory or without an entry of
    that name [open] raises [FileNotFoundError]; on a subdirectory of that
    name it raises [IsADirectoryError]; a link it follows, out of the tree
    that is described here. *)
Definition read_text (top filename : string) : M World string :=
  fun w =>
    let path := Py.path_join top [filename] in
    match filesystem w !! top with
    | Some (Dir files subdirs) =>
        match entry filename files with
        | Some (File content) => (Ok content, w)
        | Some (Symlink _) => (Raise (Unmodelled ("open " +:+ path)), w)
        | None =>
            match entry filename subdirs with
            | Some _ => (Raise (IsADirectoryError path), w)
            | None => (Raise (FileNotFoundError path), w)
            end
        end
    | None => (Raise (FileNotFoundError path), w)
    end.

(** The first loop of [cuda_postpackage]: the lines between the two
    markers ([tmp_buffer]). *)
Fixpoint attachment_lines (copy : bool) (infile : list string) : list string :=
  match infile with
  | [] => []
  | line :: rest =>
      if decide (Py.strip line = "2.6. Attachment A") then attachment_lines true rest
      else if decide (Py.strip line = "2.7. Attachment B") then attachment_lines false rest
      else if copy then line :: attachment_lines copy rest
      else attachment_lines copy rest
  end.

Definition file_extensions : list string := [".so"; ".a"; ".h"; ".bc"].

(** The second loop: the stems of the words that carry one of the
    extensions, in the order they are appended. *)
Definition harvested (tmp_buffer : list string) : list string :=
  flat_map (fun tmp =>
    flat_map (fun word =>
      if existsb (fun ext => Py.contains word ext) file_extensions
      then [Py.before_dot word]
      else []) (Py.split tmp)) tmp_buffer.

(** [whitelist] after [list(set(whitelist))].  Python leaves the order of
    the result open; here it is the order of first appearance. *)
Definition whitelist_of (eula : string) : list string :=
  remove_dups ("EULA" :: harvested (attachment_lines false (Py.lines eula))).

(** A character that the shell takes for itself wherever it stands in a
    word: no blank, no quote, and none of the characters of its syntax. *)
Definition shell_plain_char (c : ascii) : bool :=
  let n := nat_of_ascii c in
  (Nat.leb 48 n && Nat.leb n 57) || (Nat.leb 65 n && Nat.leb n 90)
  || (Nat.leb 97 n && Nat.leb n 122)
  || bool_decide (c ∈ ["/"; "."; "_"; "-"; "+"; ","; ":"; "@"; "%"]%char).

(** A word that reaches a command as it is written: it is not empty, has
    only such characters, and does not look like an option. *)
Definition shell_plain (s : string) : bool :=
  match s with
  | EmptyString => false
  | String c _ =>
      negb (bool_decide (c = "-"%char))
      && forallb shell_plain_char (list_ascii_of_string s)
  end.

(** The body of the walk for the files of one directory [root], in listing
    order.  Returns the listing as it is afterwards.  When the command
    fails, the file is gone and the rest of the listing has not been
    visited.

    The two paths go into the command line without quotes.  When both are
    plain words, the shell runs the [ln] utility with the arguments [-s],
    [target] and [source], and status 0 means that the link now stands at
    [source], where the file was.  With any other path the shell reads the line differently
    (more words, redirections, other commands), and what status 0 then means
    for the tree is not described here. *)
Fixpoint visit_files (system : string -> Z) (whitelist : list string) (root : string)
    (files : list (string * leaf)) : result unit * list (string * leaf) :=
  match files with
  | [] => (Ok tt, [])
  | (filename, Symlink t) :: rest =>
      let '(r, rest') := visit_files system whitelist root rest in
      (r, (filename, Symlink t) :: rest')
  | (filename, File content) :: rest =>
      let basename := Py.before_dot filename in
      if bool_decide (basename ∈ whitelist) then
        let '(r, rest') := visit_files system whitelist root rest in
        (r, (filename, File content) :: rest')
      else
        let source := Py.path_join root [filename] in
        let target := Py.replace "versions" "host_injections" source in
        let system_command := "ln -s " +:+ target +:+ " " +:+ source in
        if decide (system system_command ≠ 0%Z) then
          (Raise (EasyBuildError
                    (Msg "Failed to create symbolic link: %s" [AStr system_command])),
           rest)
        else if shell_plain target && shell_plain source then
          let '(r, rest') := visit_files system whitelist root rest in
          (r, (filename, Symlink target) :: rest')
        else
          (Raise (Unmodelled system_command), rest)
  end.

(** The subdirectories of a directory in listing order, until one of them
    raises. *)
Fixpoint each_subdir (visit : string -> dir -> result unit * dir)
    (subdirs : list (string * dir)) : result unit * list (string * dir) :=
  match subdirs with
  | [] => (Ok tt, [])
  | (dirname, sub) :: rest =>
      match visit dirname sub with
      | (Raise e, sub') => (Raise e, (dirname, sub') :: rest)
      | (Ok _, sub') =>
          let '(r, rest') := each_subdir visit rest in
          (r, (dirname, sub') :: rest')
      end
  end.

(** [for root, dirs, files in os.walk(top)] with the body above: the files
    of a directory first, then its subdirectories in listing order.  Returns
    the directory as it is afterwards. *)
Fixpoint walk (system : string -> Z) (whitelist : list string) (root : string) (d : dir)
    : result unit * dir :=
  match d with
  | Dir files subdirs =>
      match visit_files system whitelist root files with
      | (Raise e, files') => (Raise e, Dir files' subdirs)
      | (Ok _, files') =>
          let '(r, subdirs') :=
            each_subdir
              (fun dirname sub => walk system whitelist (Py.path_join root [dirname]) sub)
              subdirs in
          (r, Dir files' subdirs')
      end
  end.

(** The walk over the tree rooted at [top]; [os.walk] yields nothing when
    there is no such directory. *)
Definition walk_installdir (whitelist : list string) (top : string) : M World unit :=
  fun w =>
    match filesystem w !! top with
    | Some d =>
        let '(r, d') := walk (os_system w) whitelist top d in
        (r, set_filesystem (<[top := d']> (filesystem w)) w)
    | None => (Ok tt, w)
    end.

Definition cuda_postpackage : M (EasyBlock * World) unit :=
  let* _ := on_world (print_msg "Replacing CUDA stuff we cannot ship with symlinks..." []) in
  let* self := self_ in
  let* eula := on_world (read_text (installdir self) "EULA.txt") in
  let whitelist := whitelist_of eula in
  if bool_decide ("nvcc" ∈ whitelist) then
    raise (EasyBuildError (Msg "Found 'nvcc' in whitelist: %s" [AList whitelist]))
  else if negb (bool_decide ("libcudart" ∈ whitelist)) then
    raise (EasyBuildError (Msg "Did not find 'libcudart' in whitelist: %s" [AList whitelist]))
  else
    on_world (walk_installdir whitelist (installdir self)).

(** *** The dispatcher *)

Definition PARSE_HOOKS : gmap string (string -> M (EasyConfig * World) unit) :=
  <["CGAL" := cgal_toolchainopts_precise]>
    (<["fontconfig" := fontconfig_add_fonts]>
       (<["UCX" := ucx_eprefix]> ∅)).

Definition PRE_CONFIGURE_HOOKS : gmap string (M (EasyBlock * World) unit) :=
  <["libfabric" := libfabric_disable_psm3_x86_64_generic]>
    (<["MetaBAT" := metabat_preconfigure]>
       (<["WRF" := wrf_preconfigure]> ∅)).

Definition parse_hook : M (EasyConfig * World) unit :=
  let* eprefix := on_world (get_eessi_envvar "EPREFIX") in
  let* ec := self_ in
  let* _ := match PARSE_HOOKS !! name ec with
            | Some hook => hook eprefix
            | None => ret tt
            end in
  on_self (modify inject_gpu_property).

(** The source defines [pre_configure_hook] twice, with the same body. *)
Definition pre_configure_hook : M (EasyBlock * World) unit :=
  let* self := self_ in
  match PRE_CONFIGURE_HOOKS !! name (cfg self) with
  | Some hook => hook
  | None => ret tt
  end.

Definition POST_PACKAGE_HOOKS : gmap string (M (EasyBlock * World) unit) :=
  <["CUDA" := cuda_postpackage]> ∅.

Definition post_package_hook : M (EasyBlock * World) unit :=
  let* self := self_ in
  match POST_PACKAGE_HOOKS !! name (cfg self) with
  | Some hook => hook
  | None => ret tt
  end.

(** * Vocabulary of the specification *)

(** The entry [filename] of kind [l] lies at [path] in the tree [d] rooted
    at [root]. *)
Inductive file_at : string -> dir -> string -> string -> leaf -> Prop :=
| file_here root files subdirs filename l :
    (filename, l) ∈ files ->
    file_at root (Dir files subdirs) (Py.path_join root [filename]) filename l
| file_below root files subdirs dirname sub path filename l :
    (dirname, sub) ∈ subdirs ->
    file_at (Py.path_join root [dirname]) sub path filename l ->
    file_at root (Dir files subdirs) path filename l.

(** What the specification asks of one entry: a regular file whose stem is
    not in the whitelist becomes a link into [host_injections]. *)
Definition filtered_entry (whitelist : list string) (root : string) (e : string * leaf)
    : string * leaf :=
  match e with
  | (filename, File content) =>
      if bool_decide (Py.before_dot filename ∈ whitelist) then e
      else (filename,
            Symlink (Py.replace "versions" "host_injections" (Py.path_join root [filename])))
  | (_, Symlink _) => e
  end.

(** What the specification asks of the tree. *)
Fixpoint filtered (whitelist : list string) (root : string) (d : dir) : dir :=
  match d with
  | Dir files subdirs =>
      Dir (map (filtered_entry whitelist root) files)
          (map (fun e => (fst e, filtered whitelist (Py.path_join root [fst e]) (snd e)))
               subdirs)
  end.

(** The two section markers of the EULA text. *)
Definition marker_A (line : string) : Prop := Py.strip line = "2.6. Attachment A".
Definition marker_B (line : string) : Prop := Py.strip line = "2.7. Attachment B".

(** In the specification's words the whitelist is harvested "between two
    fixed section markers".  The line [line] of the text [infile] lies
    between them: a line before it is the marker [Attachment A], no line
    from there to [line] is the marker [Attachment B], and [line] is no
    marker itself. *)
Definition between_markers (infile : list string) (line : string) : Prop :=
  exists before a inside after,
    infile = (before ++ a :: inside ++ line :: after)%list
    /\ marker_A a
    /\ Forall (fun l => ~ marker_B l) inside
    /\ ~ marker_A line /\ ~ marker_B line.

(** In the specification's words the harvested stems are the "tokens
    containing one of a fixed set of binary/library extensions, extension
    stripped": [stem] is what precedes the first dot of a word, of a line
    between the markers, that contains one of the extensions. *)
Definition redistributable (eula stem : string) : Prop :=
  exists line word ext,
    between_markers (Py.lines eula) line
    /\ word ∈ Py.split line
    /\ ext ∈ file_extensions
    /\ Py.contains word ext = true
    /\ stem = Py.before_dot word.

(** The stems the specification names: those harvested from the EULA text
    between the two markers, and [EULA], with which the code seeds the list. *)
Definition whitelisted (eula stem : string) : Prop :=
  stem = "EULA" \/ redistributable eula stem.

(** The build steps that runs of the hooks lead to.  EasyBuild creates a
    build step without the attribute [EESSI_RPATH_OVERRIDE_ATTR]: only
    [pre_prepare_hook] sets it and only [post_prepare_hook] deletes it.
    Between two hooks EasyBuild works on the machine and on the build step;
    the toolchain of the step, and with it the MPI family, stays, and so
    does the attribute, which nothing but the two hooks knows. *)
Inductive reachable : EasyBlock -> Prop :=
| reachable_new self :
    attrs self !! EESSI_RPATH_OVERRIDE_ATTR = None -> reachable self
| reachable_pre_prepare self w :
    reachable self -> reachable (fst (snd (pre_prepare_hook (self, w))))
| reachable_post_prepare self w :
    reachable self -> reachable (fst (snd (post_prepare_hook (self, w))))
| reachable_pre_configure self w :
    reachable self -> reachable (fst (snd (pre_configure_hook (self, w))))
| reachable_post_package self w :
    reachable self -> reachable (fst (snd (post_package_hook (self, w))))
| reachable_easybuild self self' :
    reachable self ->
    mpi_family self' = mpi_family self ->
    attrs self' = attrs self ->
    reachable self'.

(** Every regular file of the tree that the filter replaces has a path, and
    a link target, that the shell reads as one plain word. *)
Definition plain_paths (whitelist : list string) (root : string) (d : dir) : Prop :=
  forall path filename content,
    file_at root d path filename (File content) ->
    Py.before_dot filename ∉ whitelist ->
    shell_plain path = true
    /\ shell_plain (Py.replace "versions" "host_injections" path) = true.

(** The world once [cuda_postpackage] has printed its first message. *)
Definition announced (w : World) : World :=
  set_stdout (stdout w ++ [Msg "Replacing CUDA stuff we cannot ship with symlinks..." []]) w.

(** The two lines of the module footer. *)
Definition arch_gpu_line : string :=
  "add_property(" +:+ dq +:+ "arch" +:+ dq +:+ "," +:+ dq +:+ "gpu" +:+ dq +:+ ")".

Definition cuda_version_line (v : string) : string :=
  "setenv(" +:+ dq +:+ "EESSICUDAVERSION" +:+ dq +:+ "," +:+ dq +:+ v +:+ dq +:+ ")".

(** A dependency that the loop passes over: its name does not contain
    [CUDA]. *)
Definition plain (dep : dependency) : Prop := Py.contains (dep_name dep) "CUDA" = false.

(** * Sample data *)

(** Concrete machines and packages. *)

Module Sample.

Definition world : World :=
  {| environ := <["EPREFIX" := "/cvmfs/pilot/versions/2021.12/compat"]>
                  (<["EESSI_SOFTWARE_PATH" := "/cvmfs/pilot/versions/2021.12/software"]>
                     (<["EESSI_PILOT_VERSION" := "2021.12"]> ∅));
     build_options := <["rpath_override_dirs" := Some "/opt/override"]> ∅;
     cpu_architecture := X86_64;
     cpu_features := ["sse2"; "avx"];
     filesystem := ∅;
     os_system := fun _ => 0%Z;
     stdout := [] |}.

Definition power_world : World :=
  {| environ := environ world; build_options := build_options world;
     cpu_architecture := POWER; cpu_features := [];
     filesystem := ∅; os_system := fun _ => 0%Z; stdout := [] |}.

Definition easyconfig (n toolchain : string) (deps : list dependency) : EasyConfig :=
  {| name := n; toolchain_name := toolchain; toolchainopts := <["strict" := true]> ∅;
     configopts := "--enable-shared"; preconfigopts := "";
     dependencies := deps; builddependencies := [];
     modluafooter := Some ""; log := [] |}.

Definition easyblock (n : string) (family : option string) : EasyBlock :=
  {| cfg := easyconfig n "foss" []; mpi_family := family;
     installdir := "/cvmfs/pilot/versions/2021.12/software/" +:+ n; attrs := ∅ |}.

End Sample.

(** A build step that carries the attribute [orig_rpath_override_dirs]. *)
Definition stale_block (family : option string) : EasyBlock :=
  {| cfg := Sample.easyconfig "zlib" "GCCcore" []; mpi_family := family;
     installdir := "/cvmfs/pilot/versions/2021.12/software/zlib";
     attrs := <[EESSI_RPATH_OVERRIDE_ATTR := Some "/stale"]> ∅ |}.

(** A CUDA installation. *)
Module CudaSample.

Definition top : string := "/cvmfs/pilot/versions/2021.12/software/CUDA/11.4.1".

Definition eula_text (attachment : string) : string :=
  "End User License Agreement" +:+ nl
  +:+ "2.6. Attachment A" +:+ nl
  +:+ attachment +:+ nl
  +:+ "2.7. Attachment B" +:+ nl
  +:+ "Additional Licensing Obligations, see license.h" +:+ nl.

Definition good_eula : string := eula_text "Linux: libcudart.so, libcudart_static.a".
Definition nvcc_eula : string := eula_text "Linux: libcudart.so, nvcc.bc".
Definition empty_eula : string := eula_text "Linux: libcublas.so".

Definition files (eula : string) : list (string * leaf) :=
  [("EULA.txt", File eula); ("version.json", File "{}")].

Definition bin : list (string * leaf) :=
  [("nvcc", File "ELF"); ("nvcc.profile", File "TOP")].

Definition lib64 : list (string * leaf) :=
  [("libcudart.so.11.4.108", File "ELF");
   ("libcudart.so", Symlink "libcudart.so.11.4.108");
   ("libcublas.so.11.5.4", File "ELF")].

Definition subdirs : list (string * dir) :=
  [("bin", Dir bin []); ("lib64", Dir lib64 [])].

Definition world (eula : string) (ln_status : Z) : World :=
  {| environ := ∅; build_options := ∅; cpu_architecture := X86_64; cpu_features := [];
     filesystem := <[top := Dir (files eula) subdirs]> ∅;
     os_system := fun _ => ln_status;
     stdout := [] |}.

Definition block : EasyBlock :=
  {| cfg := Sample.easyconfig "CUDA" "system" []; mpi_family := None;
     installdir := top; attrs := ∅ |}.

End CudaSample.

(** * Properties *)

(** Unfolds the plumbing of the monad. *)
Ltac unfold_monad :=
  unfold print_msg, build_option, update_build_option, get_cpu_architecture,
    get_cpu_features, os_getenv, hasattr, setattr, getattr, delattr in *;
  unfold bind, ret, raise, get, modify, on_world, on_self, on_cfg, self_ in *.

(** ** Environment accessor *)

(** C8.  [get_eessi_envvar] returns the value of the variable when it is set
    (also when that value is the empty string) and raises the "not defined"
    error when it is unset.  It leaves the machine as it found it, so it
    keeps nothing from one call to the next: after any change of the
    environment a second call answers from the environment as it is then. *)
Theorem get_eessi_envvar_value_or_error (var : string) (w : World) :
  (forall v, environ w !! var = Some v -> get_eessi_envvar var w = (Ok v, w))
  /\ (environ w !! var = None ->
      get_eessi_envvar var w
      = (Raise (EasyBuildError (Msg "$%s is not defined!" [AStr var])), w))
  /\ (forall env',
        let w1 := snd (get_eessi_envvar var w) in
        fst (get_eessi_envvar var (set_environ env' w1))
        = match env' !! var with
          | Some v => Ok v
          | None => Raise (EasyBuildError (Msg "$%s is not defined!" [AStr var]))
          end).
Proof.
  unfold get_eessi_envvar. unfold_monad. repeat split.
  - intros v Hv. by rewrite Hv.
  - intros Hv. by rewrite Hv.
  - intros env'. simpl. destruct (environ w !! var); simpl; by destruct (env' !! var).
Qed.

Lemma get_eessi_envvar_value_or_error_witness :
  get_eessi_envvar "EPREFIX" Sample.world
  = (Ok "/cvmfs/pilot/versions/2021.12/compat", Sample.world)
  /\ get_eessi_envvar "EESSI_SITE" Sample.world
     = (Raise (EasyBuildError (Msg "$%s is not defined!" [AStr "EESSI_SITE"])), Sample.world).
Proof.
  split.
  - apply (proj1 (get_eessi_envvar_value_or_error "EPREFIX" Sample.world)). reflexivity.
  - apply (proj1 (proj2 (get_eessi_envvar_value_or_error "EESSI_SITE" Sample.world))).
    reflexivity.
Defined.

(** ** The prepare hooks *)

Lemma set_attrs_same (self : EasyBlock) : set_attrs (attrs self) self = self.
Proof. by destruct self. Qed.

(** [post_prepare_hook] on a build step without the attribute does nothing. *)
Lemma post_prepare_hook_without_attribute (self : EasyBlock) (w : World) :
  attrs self !! EESSI_RPATH_OVERRIDE_ATTR = None ->
  post_prepare_hook (self, w) = (Ok tt, (self, w)).
Proof.
  intros Hattr. unfold post_prepare_hook. unfold_monad. simpl.
  rewrite Hattr. rewrite bool_decide_eq_false_2; [done|].
  by intros [? ?].
Qed.

(** [pre_prepare_hook] without an MPI family does nothing. *)
Lemma pre_prepare_hook_falsy (self : EasyBlock) (w : World) :
  Py.truthy (mpi_family self) = false ->
  pre_prepare_hook (self, w) = (Ok tt, (self, w)).
Proof.
  intros Hfam. unfold pre_prepare_hook. unfold_monad. simpl.
  destruct (mpi_family self) as [fam|]; [|done].
  by rewrite Hfam.
Qed.

(** With an MPI family, [pre_prepare_hook] succeeds when the two environment
    variables are defined and the build step does not carry the attribute;
    the attribute then holds the former value of the build option. *)
Lemma pre_prepare_hook_with_mpi_family (self : EasyBlock) (w : World) (fam : string) :
  mpi_family self = Some fam -> fam <> "" ->
  is_Some (environ w !! "EESSI_SOFTWARE_PATH") ->
  is_Some (environ w !! "EESSI_PILOT_VERSION") ->
  attrs self !! EESSI_RPATH_OVERRIDE_ATTR = None ->
  fst (pre_prepare_hook (self, w)) = Ok tt
  /\ attrs (fst (snd (pre_prepare_hook (self, w)))) !! EESSI_RPATH_OVERRIDE_ATTR
     = Some (default None (build_options w !! "rpath_override_dirs")).
Proof.
  intros Hfam Hne [sw Hsw] [pv Hpv] Hattr.
  unfold pre_prepare_hook, get_rpath_override_dirs, get_eessi_envvar. unfold_monad.
  simpl. rewrite Hfam.
  assert (Py.truthy (Some fam) = true) as -> by (by destruct fam).
  simpl. rewrite Hsw. simpl. rewrite Hpv. simpl. rewrite Hattr.
  rewrite bool_decide_eq_false_2 by (by intros [? ?]).
  simpl. repeat (rewrite lookup_insert_eq; simpl). done.
Qed.

(** For a build step whose toolchain has an MPI family, or that does not
    carry the attribute [orig_rpath_override_dirs], and on which
    [pre_prepare_hook] succeeds, the [post_prepare_hook] that follows
    succeeds, the build step is then as it was before [pre_prepare_hook] and
    without the attribute, and the build option [rpath_override_dirs] has
    the value it had before [pre_prepare_hook]. *)
Lemma prepare_hooks_round_trip_from (self self1 : EasyBlock) (w w1 : World) :
  Py.truthy (mpi_family self) = true \/ attrs self !! EESSI_RPATH_OVERRIDE_ATTR = None ->
  pre_prepare_hook (self, w) = (Ok tt, (self1, w1)) ->
  exists self2 w2,
    post_prepare_hook (self1, w1) = (Ok tt, (self2, w2))
    /\ attrs self2 !! EESSI_RPATH_OVERRIDE_ATTR = None
    /\ self2 = self
    /\ fst (build_option "rpath_override_dirs" w2)
       = fst (build_option "rpath_override_dirs" w).
Proof.
  intros Hstate Hpre.
  destruct (Py.truthy (mpi_family self)) eqn:Hfam.
  - unfold pre_prepare_hook, get_rpath_override_dirs, get_eessi_envvar in Hpre.
    unfold_monad. simpl in Hpre.
    destruct (mpi_family self) as [fam|]; [|done].
    rewrite Hfam in Hpre. simpl in Hpre.
    destruct (environ w !! "EESSI_SOFTWARE_PATH") as [sw|]; simpl in Hpre; [|done].
    destruct (environ w !! "EESSI_PILOT_VERSION") as [pv|]; simpl in Hpre; [|done].
    destruct (attrs self !! EESSI_RPATH_OVERRIDE_ATTR) as [stale|] eqn:Hattr.
    { by rewrite bool_decide_eq_true_2 in Hpre by eauto. }
    rewrite bool_decide_eq_false_2 in Hpre by (by intros [? ?]).
    simpl in Hpre. rewrite lookup_insert_eq in Hpre. simpl in Hpre.
    injection Hpre as <- <-.
    unfold post_prepare_hook. unfold_monad. simpl.
    repeat (rewrite lookup_insert_eq; simpl).
    do 2 eexists. split; [reflexivity|]. simpl.
    rewrite delete_insert_eq, delete_id by done.
    split; [done|]. split.
    + by destruct self.
    + by rewrite lookup_insert_eq.
  - destruct Hstate as [|Hattr]; [done|].
    rewrite pre_prepare_hook_falsy in Hpre by done.
    injection Hpre as <- <-.
    exists self, w. rewrite post_prepare_hook_without_attribute by done. done.
Qed.

(** What [pre_prepare_hook] leaves in the build option on the sample machine. *)
Example pre_prepare_hook_sample :
  fst (build_option "rpath_override_dirs"
         (snd (snd (pre_prepare_hook
                      (Sample.easyblock "OSU-Micro-Benchmarks" (Some "OpenMPI"),
                       Sample.world)))))
  = Ok (Some ("/opt/override"
              +:+ ":/cvmfs/pilot/versions/host_injections/2021.12/software/rpath_overrides/OpenMPI/system/lib"
              +:+ ":/cvmfs/pilot/versions/host_injections/2021.12/software/rpath_overrides/OpenMPI/system/lib64")).
Proof. vm_compute. reflexivity. Qed.

(** ** The package patchers *)

(** C6, as amended.  For an easyconfig named CGAL, on POWER the patcher sets
    [toolchainopts['strict']] to [False] and [toolchainopts['precise']] to
    [True], touches nothing else of the easyconfig, and prints one message;
    on any other architecture it returns without changing anything: the
    function has an architecture guard. *)
Theorem cgal_toolchainopts_precise_on_power_only
    (ec : EasyConfig) (eprefix : string) (w : World) :
  name ec = "CGAL" ->
  (cpu_architecture w = POWER ->
     let opts := <["precise" := true]> (<["strict" := false]> (toolchainopts ec)) in
     cgal_toolchainopts_precise eprefix (ec, w)
     = (Ok tt,
        (set_toolchainopts opts ec,
         set_stdout (stdout w ++ [Msg "Tweaked toochainopts for %s: %s"
                                      [AStr "CGAL"; AOpts opts]]) w))
     /\ opts !! "strict" = Some false
     /\ opts !! "precise" = Some true)
  /\ (cpu_architecture w <> POWER ->
      cgal_toolchainopts_precise eprefix (ec, w) = (Ok tt, (ec, w))).
Proof.
  intros Hname. unfold cgal_toolchainopts_precise. unfold_monad. simpl.
  rewrite decide_True by done. split.
  - intros Harch. simpl. rewrite decide_True by done. simpl.
    rewrite Hname. split; [reflexivity|]. split; by simplify_map_eq.
  - intros Harch. rewrite decide_False by done. reflexivity.
Qed.

Lemma cgal_toolchainopts_precise_on_power_only_witness :
  toolchainopts
    (fst (snd (cgal_toolchainopts_precise "/compat"
                 (Sample.easyconfig "CGAL" "foss" [], Sample.power_world))))
  = <["precise" := true]> (<["strict" := false]> (<["strict" := true]> ∅))
  /\ cgal_toolchainopts_precise "/compat" (Sample.easyconfig "CGAL" "foss" [], Sample.world)
     = (Ok tt, (Sample.easyconfig "CGAL" "foss" [], Sample.world)).
Proof.
  pose proof (cgal_toolchainopts_precise_on_power_only
                (Sample.easyconfig "CGAL" "foss" []) "/compat" Sample.power_world
                eq_refl) as [Hpower _].
  pose proof (cgal_toolchainopts_precise_on_power_only
                (Sample.easyconfig "CGAL" "foss" []) "/compat" Sample.world
                eq_refl) as [_ Hother].
  split.
  - destruct (Hpower eq_refl) as [-> _]. reflexivity.
  - apply Hother. discriminate.
Defined.

(** C6, as stated, fails: on x86_64 the patcher leaves the toolchain options
    of a CGAL easyconfig as they are, with [strict] still [True] and no
    [precise]. *)
Lemma cgal_toolchainopts_precise_not_on_x86_64 :
  let ec := Sample.easyconfig "CGAL" "foss" [] in
  let ec' := fst (snd (cgal_toolchainopts_precise "/compat" (ec, Sample.world))) in
  cpu_architecture Sample.world <> POWER
  /\ toolchainopts ec' !! "strict" = Some true
  /\ toolchainopts ec' !! "precise" = None.
Proof. intros ec ec'. split; [discriminate|]. split; reflexivity. Qed.

(** *** Facts about strings and paths *)

Section StringFacts.

Implicit Types a b c s : string.

Lemma app_cons x a b : String x a +:+ b = String x (a +:+ b).
Proof. reflexivity. Qed.

Lemma app_nil_l a : "" +:+ a = a.
Proof. reflexivity. Qed.

Lemma app_nil_r a : a +:+ "" = a.
Proof. induction a as [|x a IH]; [done|]. by rewrite app_cons, IH. Qed.

Lemma app_assoc a b c : (a +:+ b) +:+ c = a +:+ (b +:+ c).
Proof. induction a as [|x a IH]; [done|]. by rewrite !app_cons, IH. Qed.

Lemma app_not_nil_r a b : b <> "" -> a +:+ b <> "".
Proof. destruct a; [done|]. by rewrite app_cons. Qed.

Lemma ends_with_slash_app a b :
  b <> "" -> Py.ends_with_slash (a +:+ b) = Py.ends_with_slash b.
Proof.
  intros Hb. induction a as [|x a IH]; [done|].
  rewrite app_cons. simpl. rewrite IH.
  destruct (a +:+ b) eqn:E; [|done].
  by apply app_not_nil_r in E.
Qed.

Lemma path_join2_plain a b :
  Py.startswith b "/" = false -> a <> "" -> Py.ends_with_slash a = false ->
  Py.path_join2 a b = a +:+ "/" +:+ b.
Proof.
  intros Hb Ha Hslash. unfold Py.path_join2.
  rewrite Hb, Hslash, bool_decide_eq_false_2 by done. reflexivity.
Qed.

(** Below a prefix that is not empty and has no slash at its end,
    [os.path.join] puts one slash before each component. *)
Lemma path_join_under_prefix a :
  a <> "" -> Py.ends_with_slash a = false ->
  Py.path_join a ["usr"] = a +:+ "/usr"
  /\ Py.path_join a ["usr"; "share"; "fonts"] = a +:+ "/usr/share/fonts".
Proof.
  intros Ha Hslash. unfold Py.path_join. simpl.
  rewrite (path_join2_plain a "usr") by done.
  split; [done|].
  rewrite (path_join2_plain _ "share");
    [| done | by apply app_not_nil_r | by rewrite ends_with_slash_app].
  rewrite (path_join2_plain _ "fonts");
    [| done | by apply app_not_nil_r | by rewrite ends_with_slash_app].
  by rewrite !app_assoc.
Qed.

End StringFacts.

(** C7, as amended.  For an easyconfig named fontconfig the patcher appends
    to [configopts], through [EasyConfig.update], exactly the flag
    [--with-add-fonts=] followed by [os.path.join(eprefix, "usr", "share",
    "fonts")]; for one named UCX the patcher appends exactly
    [--with-sysroot=<eprefix>] and then [--with-rdmacm=] followed by
    [os.path.join(eprefix, "usr")].  The joined paths are
    [<eprefix>/usr/share/fonts] and [<eprefix>/usr] whenever the prefix is
    not empty and does not end in a slash.  On an easyconfig with another
    name either patcher raises its mismatch error and changes nothing. *)
Theorem fontconfig_and_ucx_patchers (ec : EasyConfig) (eprefix : string) (w : World) :
  (name ec = "fontconfig" ->
     let flag := "--with-add-fonts=" +:+ Py.path_join eprefix ["usr"; "share"; "fonts"] in
     fontconfig_add_fonts eprefix (ec, w)
     = (Ok tt,
        (set_configopts (appended (configopts ec) flag) ec,
         set_stdout (stdout w ++ [Msg "Added '%s' configure option for %s"
                                      [AStr flag; AStr "fontconfig"]]) w)))
  /\ (name ec = "UCX" ->
      let opts := appended (appended (configopts ec) ("--with-sysroot=" +:+ eprefix))
                    ("--with-rdmacm=" +:+ Py.path_join eprefix ["usr"]) in
      ucx_eprefix eprefix (ec, w)
      = (Ok tt,
         (set_configopts opts ec,
          set_stdout (stdout w ++ [Msg "Using custom configure options for %s: %s"
                                       [AStr "UCX"; AStr opts]]) w)))
  /\ (eprefix <> "" -> Py.ends_with_slash eprefix = false ->
      Py.path_join eprefix ["usr"; "share"; "fonts"] = eprefix +:+ "/usr/share/fonts"
      /\ Py.path_join eprefix ["usr"] = eprefix +:+ "/usr")
  /\ (name ec <> "fontconfig" ->
      fontconfig_add_fonts eprefix (ec, w)
      = (Raise (EasyBuildError
                  (Msg "fontconfig-specific hook triggered for non-fontconfig easyconfig?!" [])),
         (ec, w)))
  /\ (name ec <> "UCX" ->
      ucx_eprefix eprefix (ec, w)
      = (Raise (EasyBuildError
                  (Msg "UCX-specific hook triggered for non-UCX easyconfig?!" [])),
         (ec, w))).
Proof.
  unfold fontconfig_add_fonts, ucx_eprefix, update. unfold_monad.
  repeat split.
  - intros Hname. simpl. rewrite decide_True by done. simpl. by rewrite Hname.
  - intros Hname. simpl. rewrite decide_True by done. simpl. by rewrite Hname.
  - by apply path_join_under_prefix.
  - by apply path_join_under_prefix.
  - intros Hname. simpl. by rewrite decide_False by done.
  - intros Hname. simpl. by rewrite decide_False by done.
Qed.

Lemma fontconfig_and_ucx_patchers_witness :
  configopts (fst (snd (fontconfig_add_fonts "/compat"
                          (Sample.easyconfig "fontconfig" "GCCcore" [], Sample.world))))
  = "--enable-shared --with-add-fonts=/compat/usr/share/fonts "
  /\ configopts (fst (snd (ucx_eprefix "/compat"
                             (Sample.easyconfig "UCX" "GCCcore" [], Sample.world))))
     = "--enable-shared --with-sysroot=/compat  --with-rdmacm=/compat/usr "
  /\ fst (fontconfig_add_fonts "/compat" (Sample.easyconfig "UCX" "GCCcore" [], Sample.world))
     = Raise (EasyBuildError
                (Msg "fontconfig-specific hook triggered for non-fontconfig easyconfig?!" []))
  /\ fst (ucx_eprefix "/compat" (Sample.easyconfig "zlib" "GCCcore" [], Sample.world))
     = Raise (EasyBuildError (Msg "UCX-specific hook triggered for non-UCX easyconfig?!" [])).
Proof.
  destruct (fontconfig_and_ucx_patchers
              (Sample.easyconfig "fontconfig" "GCCcore" []) "/compat" Sample.world)
    as (Hfont & _).
  destruct (fontconfig_and_ucx_patchers
              (Sample.easyconfig "UCX" "GCCcore" []) "/compat" Sample.world)
    as (_ & Hucx & Hpath & Hnotfont & _).
  destruct (fontconfig_and_ucx_patchers
              (Sample.easyconfig "zlib" "GCCcore" []) "/compat" Sample.world)
    as (_ & _ & _ & _ & Hnotucx).
  destruct (Hpath ltac:(discriminate) eq_refl) as [Hfonts Husr].
  split; [|split; [|split]].
  - rewrite (Hfont eq_refl). reflexivity.
  - rewrite (Hucx eq_refl). reflexivity.
  - rewrite Hnotfont by discriminate. reflexivity.
  - rewrite Hnotucx by discriminate. reflexivity.
Defined.

(** C7, as stated, fails: with an empty prefix the fontconfig patcher appends
    [--with-add-fonts=usr/share/fonts], and with a prefix that ends in a
    slash the UCX patcher appends [--with-rdmacm=/compat/usr]; neither is the
    prefix followed by [/usr/share/fonts] or [/usr]. *)
Lemma patchers_flag_not_prefix_concatenation :
  configopts (fst (snd (fontconfig_add_fonts ""
                          (Sample.easyconfig "fontconfig" "GCCcore" [], Sample.world))))
  = appended "--enable-shared" "--with-add-fonts=usr/share/fonts"
  /\ configopts (fst (snd (fontconfig_add_fonts ""
                             (Sample.easyconfig "fontconfig" "GCCcore" [], Sample.world))))
     <> appended "--enable-shared" ("--with-add-fonts=" +:+ "" +:+ "/usr/share/fonts")
  /\ configopts (fst (snd (ucx_eprefix "/compat/"
                             (Sample.easyconfig "UCX" "GCCcore" [], Sample.world))))
     <> appended (appended "--enable-shared" ("--with-sysroot=" +:+ "/compat/"))
          ("--with-rdmacm=" +:+ "/compat/" +:+ "/usr").
Proof. split; [reflexivity|]. split; vm_compute; discriminate. Qed.

(** ** The dispatcher *)

(** The injector leaves alone an easyconfig without a dependency named CUDA
    and with a toolchain outside the CUDA-enabled list. *)
Lemma inject_gpu_property_not_gpu (ec : EasyConfig) :
  "CUDA" ∉ map dep_name (dependencies ec) ->
  toolchain_name ec ∉ CUDA_ENABLED_TOOLCHAINS ->
  inject_gpu_property ec = ec.
Proof.
  intros Hdep Htc. unfold inject_gpu_property.
  by rewrite !bool_decide_eq_false_2 by done.
Qed.

(** C1, as amended.  For the pre-configure and the post-package hook, a
    package whose name is not a key of the hook's dispatch table is left
    untouched: the hook returns and nothing has changed.  For the parse
    hook, which runs the GPU property injector on every package, a package
    whose name is not a key of [PARSE_HOOKS] is left untouched if, besides,
    it has no dependency named CUDA and its toolchain is not in the
    CUDA-enabled list (whether or not [EPREFIX] is defined). *)
Theorem hooks_leave_unmatched_packages :
  (forall (self : EasyBlock) (w : World),
     PRE_CONFIGURE_HOOKS !! name (cfg self) = None ->
     pre_configure_hook (self, w) = (Ok tt, (self, w)))
  /\ (forall (self : EasyBlock) (w : World),
        POST_PACKAGE_HOOKS !! name (cfg self) = None ->
        post_package_hook (self, w) = (Ok tt, (self, w)))
  /\ (forall (ec : EasyConfig) (w : World),
        PARSE_HOOKS !! name ec = None ->
        "CUDA" ∉ map dep_name (dependencies ec) ->
        toolchain_name ec ∉ CUDA_ENABLED_TOOLCHAINS ->
        snd (parse_hook (ec, w)) = (ec, w)).
Proof.
  split; [|split].
  - intros self w Hkey. unfold pre_configure_hook. unfold_monad. simpl.
    by rewrite Hkey.
  - intros self w Hkey. unfold post_package_hook. unfold_monad. simpl.
    by rewrite Hkey.
  - intros ec w Hkey Hdep Htc. unfold parse_hook, get_eessi_envvar. unfold_monad. simpl.
    destruct (environ w !! "EPREFIX") as [eprefix|]; simpl; [|done].
    rewrite Hkey. simpl. by rewrite inject_gpu_property_not_gpu.
Qed.

Lemma hooks_leave_unmatched_packages_witness :
  pre_configure_hook (Sample.easyblock "zlib" None, Sample.world)
  = (Ok tt, (Sample.easyblock "zlib" None, Sample.world))
  /\ post_package_hook (Sample.easyblock "zlib" None, Sample.world)
     = (Ok tt, (Sample.easyblock "zlib" None, Sample.world))
  /\ snd (parse_hook (Sample.easyconfig "zlib" "GCCcore" [Dep "binutils" "2.37" []],
                      Sample.world))
     = (Sample.easyconfig "zlib" "GCCcore" [Dep "binutils" "2.37" []], Sample.world).
Proof.
  destruct hooks_leave_unmatched_packages as (Hconf & Hpack & Hparse).
  split; [|split].
  - apply Hconf. reflexivity.
  - apply Hpack. reflexivity.
  - apply Hparse; [reflexivity | compute_done | compute_done].
Defined.

(** C1, as stated, fails for the parse hook: the package [foo] is not a key
    of [PARSE_HOOKS], yet the hook moves its CUDA dependency to the build
    dependencies and writes the module footer. *)
Lemma parse_hook_changes_unmatched_gpu_package :
  let ec := Sample.easyconfig "foo" "foss" [Dep "CUDA" "11.4" []] in
  let ec' := fst (snd (parse_hook (ec, Sample.world))) in
  PARSE_HOOKS !! name ec = None
  /\ fst (parse_hook (ec, Sample.world)) = Ok tt
  /\ ec' <> ec
  /\ dependencies ec' = []
  /\ builddependencies ec' = [Dep "CUDA" "11.4" []]
  /\ modluafooter ec'
     = Some (nl +:+ "add_property(" +:+ dq +:+ "arch" +:+ dq +:+ "," +:+ dq +:+ "gpu" +:+ dq
               +:+ ")" +:+ nl +:+ "setenv(" +:+ dq +:+ "EESSICUDAVERSION" +:+ dq +:+ ","
               +:+ dq +:+ "11.4" +:+ dq +:+ ")").
Proof.
  intros ec ec'.
  split; [reflexivity|]. split; [reflexivity|]. split.
  - intros H. apply (f_equal dependencies) in H. vm_compute in H. discriminate.
  - split; [|split]; vm_compute; reflexivity.
Qed.

(** ** The CUDA redistribution filter *)

(** Induction on directory trees. *)
Fixpoint dir_tree_ind (P : dir -> Prop)
    (step : forall files subdirs, Forall (fun e => P (snd e)) subdirs -> P (Dir files subdirs))
    (d : dir) : P d :=
  match d with
  | Dir files subdirs =>
      step files subdirs
        ((fix all (l : list (string * dir)) : Forall (fun e => P (snd e)) l :=
            match l with
            | [] => List.Forall_nil _
            | (dirname, sub) :: l' =>
                List.Forall_cons _ (dirname, sub) l' (dir_tree_ind P step sub) (all l')
            end) subdirs)
  end.

Section Walk.

Variable system : string -> Z.
Variable whitelist : list string.

Lemma visit_files_ok root files files' :
  visit_files system whitelist root files = (Ok tt, files') ->
  files' = map (filtered_entry whitelist root) files.
Proof.
  revert files'. induction files as [|[filename [content|target]] rest IH];
    intros files' Hrun; simpl in Hrun.
  - by injection Hrun as <-.
  - simpl. case_bool_decide.
    + destruct (visit_files system whitelist root rest) as [r rest'].
      injection Hrun as -> <-. by rewrite (IH rest').
    + case_decide; [done|].
      destruct (shell_plain _ && shell_plain _); [|done].
      destruct (visit_files system whitelist root rest) as [r rest'].
      injection Hrun as -> <-. by rewrite (IH rest').
  - destruct (visit_files system whitelist root rest) as [r rest'].
    injection Hrun as -> <-. simpl. by rewrite (IH rest').
Qed.

Lemma visit_files_succeeds root files :
  (forall cmd, system cmd = 0%Z) ->
  (forall filename content,
     (filename, File content) ∈ files ->
     Py.before_dot filename ∉ whitelist ->
     shell_plain (Py.path_join root [filename]) = true
     /\ shell_plain (Py.replace "versions" "host_injections" (Py.path_join root [filename]))
        = true) ->
  visit_files system whitelist root files = (Ok tt, map (filtered_entry whitelist root) files).
Proof.
  intros Hsys. induction files as [|[filename [content|target]] rest IH]; intros Hplain; simpl.
  - done.
  - case_bool_decide as Hstem.
    + rewrite IH; [done|]. intros fn c Hin. apply (Hplain fn c). by right.
    + destruct (decide _) as [Hne|_]; [by rewrite Hsys in Hne|].
      destruct (Hplain filename content) as [Hsource Htarget]; [by left|done|].
      simpl in Hsource, Htarget. rewrite Hsource, Htarget. simpl.
      rewrite IH; [done|]. intros fn c Hin. apply (Hplain fn c). by right.
  - rewrite IH; [done|]. intros fn c Hin. apply (Hplain fn c). by right.
Qed.

Lemma walk_ok root d d' :
  walk system whitelist root d = (Ok tt, d') -> d' = filtered whitelist root d.
Proof.
  revert root d'. induction d as [files subdirs IH] using dir_tree_ind.
  intros root d' Hrun. simpl in Hrun.
  destruct (visit_files system whitelist root files) as [[[]|e] files'] eqn:Hfiles; [|done].
  apply visit_files_ok in Hfiles as ->.
  destruct (each_subdir _ subdirs) as [r ds] eqn:Hsub.
  injection Hrun as -> <-. simpl. f_equal.
  clear files. revert ds Hsub.
  induction subdirs as [|[dirname sub] rest IHrest]; intros ds Hsub; simpl in Hsub.
  - by injection Hsub as <-.
  - apply Forall_cons in IH as [Hhead Htail]. simpl in Hhead.
    destruct (walk system whitelist (Py.path_join2 root dirname) sub)
      as [[[]|e] sub'] eqn:Hwalk; [|done].
    destruct (each_subdir _ rest) as [r' rest'] eqn:Hrest.
    injection Hsub as -> <-. simpl.
    rewrite (Hhead _ _ Hwalk). by rewrite (IHrest Htail rest').
Qed.

Lemma walk_succeeds root d :
  (forall cmd, system cmd = 0%Z) ->
  plain_paths whitelist root d ->
  walk system whitelist root d = (Ok tt, filtered whitelist root d).
Proof.
  intros Hsys. revert root. induction d as [files subdirs IH] using dir_tree_ind.
  intros root Hplain. simpl. rewrite visit_files_succeeds; [|done|]; cycle 1.
  { intros filename content Hin Hstem.
    apply (Hplain _ filename content); [by apply file_here | done]. }
  match goal with
  | |- (let '(_, _) := ?run in _) = _ =>
      assert (run
              = (Ok tt,
                 map (fun e => (fst e, filtered whitelist (Py.path_join root [fst e]) (snd e)))
                     subdirs)) as ->; [|done]
  end.
  assert (forall dirname sub, (dirname, sub) ∈ subdirs ->
            plain_paths whitelist (Py.path_join root [dirname]) sub) as Hsubs.
  { intros dirname sub Hin path filename content Hat Hstem.
    apply (Hplain path filename content); [|done]. by eapply file_below. }
  clear Hplain.
  induction subdirs as [|[dirname sub] rest IHrest]; [done|].
  apply Forall_cons in IH as [Hhead Htail]. simpl in *.
  rewrite Hhead by (apply Hsubs; by left).
  rewrite (IHrest Htail); [done|].
  intros dn sb Hin. apply Hsubs. by right.
Qed.

(** A walk that returns has handed only plain words to the shell. *)
Lemma visit_files_ok_plain root files files' filename content :
  visit_files system whitelist root files = (Ok tt, files') ->
  (filename, File content) ∈ files ->
  Py.before_dot filename ∉ whitelist ->
  shell_plain (Py.path_join root [filename]) = true
  /\ shell_plain (Py.replace "versions" "host_injections" (Py.path_join root [filename]))
     = true.
Proof.
  revert files'. induction files as [|[fn [c|t]] rest IH]; intros files' Hrun Hin Hstem.
  - by apply elem_of_nil in Hin.
  - simpl in Hrun. case_bool_decide as Hfn.
    + destruct (visit_files system whitelist root rest) as [r rest'].
      injection Hrun as -> <-.
      apply elem_of_cons in Hin as [Heq|Hin]; [by injection Heq as -> _|].
      by apply (IH rest').
    + case_decide; [done|].
      match type of Hrun with
      | (if ?b then _ else _) = _ => destruct b eqn:Hplain; [|done]
      end.
      apply andb_true_iff in Hplain as [Htarget Hsource].
      destruct (visit_files system whitelist root rest) as [r rest'].
      injection Hrun as -> <-.
      apply elem_of_cons in Hin as [Heq|Hin]; [by injection Heq as -> _|].
      by apply (IH rest').
  - simpl in Hrun. destruct (visit_files system whitelist root rest) as [r rest'].
    injection Hrun as -> <-.
    apply elem_of_cons in Hin as [Heq|Hin]; [done|]. by apply (IH rest').
Qed.

Lemma walk_ok_plain root d d' :
  walk system whitelist root d = (Ok tt, d') -> plain_paths whitelist root d.
Proof.
  intros Hrun path filename content Hat. revert d' Hrun.
  remember (File content) as l eqn:Hl.
  induction Hat as [root files subdirs filename l Hin
                   |root files subdirs dirname sub path filename l Hin Hat IH];
    intros d' Hrun Hstem; subst l; simpl in Hrun;
    destruct (visit_files system whitelist root files) as [[[]|e] files'] eqn:Hfiles;
    try done.
  - by eapply visit_files_ok_plain.
  - destruct (each_subdir _ subdirs) as [r ds] eqn:Hsub.
    injection Hrun as -> _. clear Hfiles.
    revert ds Hsub. induction subdirs as [|[dn sb] rest IHrest]; intros ds Hsub.
    { by apply elem_of_nil in Hin. }
    simpl in Hsub.
    destruct (walk system whitelist (Py.path_join2 root dn) sb) as [[[]|e] sb'] eqn:Hwalk;
      [|done].
    destruct (each_subdir _ rest) as [r' rest'] eqn:Hrest.
    injection Hsub as -> _.
    apply elem_of_cons in Hin as [Heq|Hin].
    + injection Heq as -> ->. by apply (IH eq_refl sb').
    + by apply (IHrest Hin rest').
Qed.

(** A regular file of the tree, after filtering. *)
Lemma filtered_keeps_or_links root d path filename content :
  file_at root d path filename (File content) ->
  (Py.before_dot filename ∈ whitelist ->
   file_at root (filtered whitelist root d) path filename (File content))
  /\ (Py.before_dot filename ∉ whitelist ->
      file_at root (filtered whitelist root d) path filename
        (Symlink (Py.replace "versions" "host_injections" path))).
Proof.
  intros Hat. remember (File content) as l eqn:Hl.
  induction Hat as [root files subdirs filename l Hin
                   |root files subdirs dirname sub path filename l Hin Hat IH]; subst l.
  - split; intros Hstem; simpl; apply file_here.
    + apply (list_elem_of_fmap_2 (filtered_entry whitelist root)) in Hin.
      simpl in Hin. by rewrite bool_decide_eq_true_2 in Hin.
    + apply (list_elem_of_fmap_2 (filtered_entry whitelist root)) in Hin.
      simpl in Hin. by rewrite bool_decide_eq_false_2 in Hin.
  - destruct (IH eq_refl) as [Hkeep Hlink].
    split; intros Hstem; simpl;
      (eapply file_below; [| by (apply Hkeep || apply Hlink)]);
      apply (list_elem_of_fmap_2
               (fun e => (fst e, filtered whitelist (Py.path_join root [fst e]) (snd e)))
               _ (dirname, sub) Hin).
Qed.

(** The regular files of the filtered tree have their stem in the whitelist. *)
Lemma filtered_regular_file root d path filename content :
  file_at root (filtered whitelist root d) path filename (File content) ->
  Py.before_dot filename ∈ whitelist.
Proof.
  intros Hat. remember (filtered whitelist root d) as d' eqn:Hd'.
  remember (File content) as l eqn:Hl.
  revert d Hd'.
  induction Hat as [root files' subdirs' filename l Hin
                   |root files' subdirs' dirname sub' path filename l Hin Hat IH];
    intros [files subdirs] Hd'; subst l; simpl in Hd'; injection Hd' as -> ->.
  - apply list_elem_of_fmap in Hin as ([fn [c|t]] & Heq & _); simpl in Heq.
    + destruct (bool_decide (Py.before_dot fn ∈ whitelist)) eqn:Hstem; [|done].
      injection Heq as -> _. by apply bool_decide_eq_true in Hstem.
    + done.
  - apply list_elem_of_fmap in Hin as ([dn sub] & Heq & _). simpl in Heq.
    injection Heq as -> ->. by eapply (IH eq_refl).
Qed.

End Walk.

(** The first loop copies the lines between the markers.  [copy] is the
    flag of the loop when it starts on [infile]. *)
Lemma elem_of_attachment_lines (copy : bool) (infile : list string) (line : string) :
  line ∈ attachment_lines copy infile
  <-> (copy = true
       /\ exists inside after,
            infile = (inside ++ line :: after)%list
            /\ Forall (fun l => ~ marker_B l) inside
            /\ ~ marker_A line /\ ~ marker_B line)
      \/ between_markers infile line.
Proof.
  revert copy. induction infile as [|x rest IH]; intros copy.
  { simpl. split.
    - intros Hin. by apply elem_of_nil in Hin.
    - intros [(_ & inside & after & Heq & _)|(before & a & inside & after & Heq & _)].
      + by destruct inside.
      + by destruct before. }
  assert (forall l, between_markers rest l -> between_markers (x :: rest) l) as Hlater.
  { intros l (before & a & inside & after & -> & Hrest).
    by exists (x :: before), a, inside, after. }
  assert (forall l, between_markers (x :: rest) l ->
            (marker_A x
             /\ exists inside after,
                  rest = (inside ++ l :: after)%list
                  /\ Forall (fun l => ~ marker_B l) inside
                  /\ ~ marker_A l /\ ~ marker_B l)
            \/ between_markers rest l) as Hsplit.
  { intros l (before & a & inside & after & Heq & Ha & Hrest).
    destruct before as [|y before]; simpl in Heq; injection Heq as -> ->.
    - left. split; [done|]. by exists inside, after.
    - right. by exists before, a, inside, after. }
  assert (forall l inside after,
            x :: rest = (inside ++ l :: after)%list ->
            Forall (fun l => ~ marker_B l) inside ->
            (x = l /\ rest = after)
            \/ (~ marker_B x
                /\ exists inside', rest = (inside' ++ l :: after)%list
                                   /\ Forall (fun l => ~ marker_B l) inside')) as Hhead.
  { intros l inside after Heq Hall.
    destruct inside as [|y inside]; simpl in Heq; injection Heq as -> ->.
    - by left.
    - apply Forall_cons in Hall as [Hy Hall]. right. split; [done|]. by exists inside. }
  cbn [attachment_lines].
  destruct (decide (Py.strip x = "2.6. Attachment A")) as [HA|HA].
  { rewrite (IH true). split.
    - intros [(_ & inside & after & -> & Hall & Hline)|Hbetween]; [|by right; apply Hlater].
      right. by exists [], x, inside, after.
    - intros [(_ & inside & after & Heq & Hall & HlA & HlB)|Hbetween].
      + destruct (Hhead _ _ _ Heq Hall) as [[-> _]|(_ & inside' & -> & Hall')]; [done|].
        left. split; [done|]. by exists inside', after.
      + destruct (Hsplit _ Hbetween) as [[_ Hin]|Hin]; [by left|by right]. }
  destruct (decide (Py.strip x = "2.7. Attachment B")) as [HB|HB].
  { rewrite (IH false). split.
    - intros [[? _]|Hbetween]; [done|]. by right; apply Hlater.
    - intros [(_ & inside & after & Heq & Hall & HlA & HlB)|Hbetween].
      + by destruct (Hhead _ _ _ Heq Hall) as [[-> _]|(Hx & _)].
      + destruct (Hsplit _ Hbetween) as [[Hx _]|Hin]; [done|by right]. }
  destruct copy.
  - rewrite elem_of_cons, (IH true). split.
    + intros [->|[(_ & inside & after & -> & Hall & Hline)|Hbetween]].
      * left. split; [done|]. by exists [], rest.
      * left. split; [done|]. exists (x :: inside), after.
        split; [done|]. split; [|done]. by apply Forall_cons.
      * by right; apply Hlater.
    + intros [(_ & inside & after & Heq & Hall & HlA & HlB)|Hbetween].
      * destruct (Hhead _ _ _ Heq Hall) as [[-> _]|(_ & inside' & -> & Hall')]; [by left|].
        right. left. split; [done|]. by exists inside', after.
      * destruct (Hsplit _ Hbetween) as [[Hx _]|Hin]; [done|]. by right; right.
  - rewrite (IH false). split.
    + intros [[? _]|Hbetween]; [done|]. by right; apply Hlater.
    + intros [[? _]|Hbetween]; [done|].
      destruct (Hsplit _ Hbetween) as [[Hx _]|Hin]; [done|by right].
Qed.

(** The second loop takes the stem of every word, of the lines it is given,
    that contains one of the extensions. *)
Lemma elem_of_harvested (tmp_buffer : list string) (stem : string) :
  stem ∈ harvested tmp_buffer
  <-> exists line word ext,
        line ∈ tmp_buffer
        /\ word ∈ Py.split line
        /\ ext ∈ file_extensions
        /\ Py.contains word ext = true
        /\ stem = Py.before_dot word.
Proof.
  unfold harvested. rewrite list_elem_of_In, in_flat_map. split.
  - intros (line & Hline & Hstem). apply in_flat_map in Hstem as (word & Hword & Hstem).
    destruct (existsb _ file_extensions) eqn:Hext; [|done].
    apply existsb_exists in Hext as (ext & Hext & Hcontains).
    destruct Hstem as [<-|[]].
    exists line, word, ext. by rewrite !list_elem_of_In.
  - intros (line & word & ext & Hline & Hword & Hext & Hcontains & ->).
    exists line. split; [by apply list_elem_of_In|].
    apply in_flat_map. exists word. split; [by apply list_elem_of_In|].
    assert (existsb (fun ext => Py.contains word ext) file_extensions = true) as ->.
    { apply existsb_exists. exists ext. split; [by apply list_elem_of_In|done]. }
    by left.
Qed.

(** The whitelist of the code holds the stems the specification names:
    those of the words, between the two markers, that contain one of the
    extensions; and [EULA]. *)
Lemma elem_of_harvested_attachment eula stem :
  stem ∈ harvested (attachment_lines false (Py.lines eula)) <-> redistributable eula stem.
Proof.
  unfold redistributable. rewrite elem_of_harvested.
  split; intros (line & word & ext & Hline & Hrest); exists line, word, ext; (split; [|done]).
  - apply elem_of_attachment_lines in Hline as [[? _]|Hline]; done.
  - apply elem_of_attachment_lines. by right.
Qed.

Lemma elem_of_whitelist_of eula stem :
  stem ∈ whitelist_of eula <-> whitelisted eula stem.
Proof.
  unfold whitelist_of, whitelisted.
  by rewrite elem_of_remove_dups, elem_of_cons, elem_of_harvested_attachment.
Qed.

(** [cuda_postpackage] once both checks on the whitelist have passed. *)
Lemma cuda_postpackage_checked (self : EasyBlock) (w : World) files subdirs eula :
  filesystem w !! installdir self = Some (Dir files subdirs) ->
  entry "EULA.txt" files = Some (File eula) ->
  "nvcc" ∉ whitelist_of eula ->
  "libcudart" ∈ whitelist_of eula ->
  cuda_postpackage (self, w)
  = (fst (walk (os_system w) (whitelist_of eula) (installdir self) (Dir files subdirs)),
     (self,
      set_filesystem
        (<[installdir self :=
             snd (walk (os_system w) (whitelist_of eula) (installdir self) (Dir files subdirs))]>
           (filesystem w))
        (announced w))).
Proof.
  intros Hfs Heula Hnvcc Hcudart.
  unfold cuda_postpackage, read_text, walk_installdir. unfold_monad. cbn [fst snd].
  cbn [filesystem set_stdout]. rewrite Hfs, Heula. cbn [fst snd].
  rewrite bool_decide_eq_false_2 by done.
  rewrite bool_decide_eq_true_2 by done.
  cbn [negb fst snd filesystem set_stdout os_system]. rewrite Hfs.
  by destruct (walk _ _ _ _).
Qed.

(** The first check of [cuda_postpackage]. *)
Lemma cuda_postpackage_nvcc_listed (self : EasyBlock) (w : World) files subdirs eula :
  filesystem w !! installdir self = Some (Dir files subdirs) ->
  entry "EULA.txt" files = Some (File eula) ->
  "nvcc" ∈ whitelist_of eula ->
  cuda_postpackage (self, w)
  = (Raise (EasyBuildError
              (Msg "Found 'nvcc' in whitelist: %s" [AList (whitelist_of eula)])),
     (self, announced w)).
Proof.
  intros Hfs Heula Hin. unfold cuda_postpackage, read_text. unfold_monad. cbn [fst snd].
  cbn [filesystem set_stdout]. rewrite Hfs, Heula. cbn [fst snd].
  by rewrite bool_decide_eq_true_2 by done.
Qed.

(** The second check of [cuda_postpackage]. *)
Lemma cuda_postpackage_libcudart_missing (self : EasyBlock) (w : World) files subdirs eula :
  filesystem w !! installdir self = Some (Dir files subdirs) ->
  entry "EULA.txt" files = Some (File eula) ->
  "nvcc" ∉ whitelist_of eula ->
  "libcudart" ∉ whitelist_of eula ->
  cuda_postpackage (self, w)
  = (Raise (EasyBuildError
              (Msg "Did not find 'libcudart' in whitelist: %s" [AList (whitelist_of eula)])),
     (self, announced w)).
Proof.
  intros Hfs Heula Hnot Hmissing. unfold cuda_postpackage, read_text. unfold_monad.
  cbn [fst snd]. cbn [filesystem set_stdout]. rewrite Hfs, Heula. cbn [fst snd].
  by rewrite !bool_decide_eq_false_2 by done.
Qed.

(** C2.  When the install directory holds a regular file [EULA.txt] whose
    whitelist contains [nvcc], or does not contain [libcudart],
    [cuda_postpackage] raises the fatal error of that check; it has then
    printed its first message and has changed nothing else: the directory
    trees are as they were, no file removed and no link made. *)
Theorem cuda_postpackage_sanity_checks (self : EasyBlock) (w : World) files subdirs eula :
  filesystem w !! installdir self = Some (Dir files subdirs) ->
  entry "EULA.txt" files = Some (File eula) ->
  ("nvcc" ∈ whitelist_of eula ->
     cuda_postpackage (self, w)
     = (Raise (EasyBuildError
                 (Msg "Found 'nvcc' in whitelist: %s" [AList (whitelist_of eula)])),
        (self, announced w)))
  /\ ("nvcc" ∉ whitelist_of eula -> "libcudart" ∉ whitelist_of eula ->
      cuda_postpackage (self, w)
      = (Raise (EasyBuildError
                  (Msg "Did not find 'libcudart' in whitelist: %s" [AList (whitelist_of eula)])),
         (self, announced w)))
  /\ ("nvcc" ∈ whitelist_of eula \/ "libcudart" ∉ whitelist_of eula ->
      exists m, cuda_postpackage (self, w) = (Raise (EasyBuildError m), (self, announced w)))
  /\ filesystem (announced w) = filesystem w.
Proof.
  intros Hfs Heula.
  split; [by apply (cuda_postpackage_nvcc_listed self w files subdirs)|].
  split; [by apply (cuda_postpackage_libcudart_missing self w files subdirs)|].
  split; [|reflexivity].
  intros Hbad. destruct (decide ("nvcc" ∈ whitelist_of eula)) as [Hin|Hnot].
  - eexists. by eapply cuda_postpackage_nvcc_listed.
  - destruct Hbad as [Hin|Hmissing]; [done|].
    eexists. by eapply cuda_postpackage_libcudart_missing.
Qed.

Example whitelist_of_good_eula :
  whitelist_of CudaSample.good_eula = ["EULA"; "libcudart"; "libcudart_static"].
Proof. vm_compute. reflexivity. Qed.

Lemma cuda_postpackage_sanity_checks_witness :
  cuda_postpackage (CudaSample.block, CudaSample.world CudaSample.nvcc_eula 0)
  = (Raise (EasyBuildError
              (Msg "Found 'nvcc' in whitelist: %s" [AList ["EULA"; "libcudart"; "nvcc"]])),
     (CudaSample.block, announced (CudaSample.world CudaSample.nvcc_eula 0)))
  /\ cuda_postpackage (CudaSample.block, CudaSample.world CudaSample.empty_eula 0)
     = (Raise (EasyBuildError
                 (Msg "Did not find 'libcudart' in whitelist: %s" [AList ["EULA"; "libcublas"]])),
        (CudaSample.block, announced (CudaSample.world CudaSample.empty_eula 0))).
Proof.
  split.
  - destruct (cuda_postpackage_sanity_checks
                CudaSample.block (CudaSample.world CudaSample.nvcc_eula 0)
                (CudaSample.files CudaSample.nvcc_eula) CudaSample.subdirs
                CudaSample.nvcc_eula eq_refl eq_refl) as (Hnvcc & _).
    rewrite Hnvcc by compute_done. reflexivity.
  - destruct (cuda_postpackage_sanity_checks
                CudaSample.block (CudaSample.world CudaSample.empty_eula 0)
                (CudaSample.files CudaSample.empty_eula) CudaSample.subdirs
                CudaSample.empty_eula eq_refl eq_refl) as (_ & Hcudart & _).
    rewrite Hcudart by compute_done. reflexivity.
Defined.

(** C3, as amended.  Take as whitelist the stems harvested from the EULA text
    between the two markers together with the stem [EULA], which is always in
    it.  The EULA text is plain ASCII, and the path and the link target of
    every regular file outside the whitelist are plain words for the shell,
    which gets them without quotes.  When [cuda_postpackage] returns, every
    regular file of the install tree whose stem (the name up to its first
    dot) is in the whitelist is still there as the same regular file, and
    every regular file whose stem is not in the whitelist is no longer a
    regular file: in its place is a link whose target is the path of the
    file with [versions] replaced by [host_injections].  The function does
    return when both checks on the whitelist pass and every [ln] command
    succeeds. *)
Theorem cuda_postpackage_filters_install_tree
    (self : EasyBlock) (w : World) files subdirs eula :
  filesystem w !! installdir self = Some (Dir files subdirs) ->
  entry "EULA.txt" files = Some (File eula) ->
  Py.is_ascii eula = true ->
  (forall path filename content,
     file_at (installdir self) (Dir files subdirs) path filename (File content) ->
     ~ whitelisted eula (Py.before_dot filename) ->
     shell_plain path = true
     /\ shell_plain (Py.replace "versions" "host_injections" path) = true) ->
  (forall self' w',
     cuda_postpackage (self, w) = (Ok tt, (self', w')) ->
     exists d',
       filesystem w' !! installdir self = Some d'
       /\ forall path filename content,
            file_at (installdir self) (Dir files subdirs) path filename (File content) ->
            (whitelisted eula (Py.before_dot filename) ->
             file_at (installdir self) d' path filename (File content))
            /\ (~ whitelisted eula (Py.before_dot filename) ->
                file_at (installdir self) d' path filename
                  (Symlink (Py.replace "versions" "host_injections" path))
                /\ forall content', ~ file_at (installdir self) d' path filename (File content')))
  /\ (~ whitelisted eula "nvcc" -> whitelisted eula "libcudart" ->
      (forall cmd, os_system w cmd = 0%Z) ->
      fst (cuda_postpackage (self, w)) = Ok tt).
Proof.
  intros Hfs Heula _ Hplain. split.
  - intros self' w' Hrun.
    destruct (decide ("nvcc" ∈ whitelist_of eula)) as [Hnvcc|Hnvcc].
    { by rewrite (cuda_postpackage_nvcc_listed self w files subdirs eula) in Hrun. }
    destruct (decide ("libcudart" ∈ whitelist_of eula)) as [Hcudart|Hcudart]; cycle 1.
    { by rewrite (cuda_postpackage_libcudart_missing self w files subdirs eula) in Hrun. }
    rewrite (cuda_postpackage_checked self w files subdirs eula) in Hrun by done.
    destruct (walk (os_system w) (whitelist_of eula) (installdir self) (Dir files subdirs))
      as [r d'] eqn:Hwalk.
    cbn [fst snd] in Hrun. injection Hrun as -> _ <-.
    apply walk_ok in Hwalk as ->.
    eexists. split; [apply lookup_insert_eq|].
    intros path filename content Hat.
    destruct (filtered_keeps_or_links (whitelist_of eula) _ _ _ _ _ Hat) as [Hkeep Hlink].
    split.
    + intros Hstem. by apply Hkeep, elem_of_whitelist_of.
    + intros Hstem. split.
      * apply Hlink. by rewrite elem_of_whitelist_of.
      * intros content' Hstill. apply filtered_regular_file in Hstill.
        by apply Hstem, elem_of_whitelist_of.
  - intros Hnvcc Hcudart Hsys.
    rewrite <- elem_of_whitelist_of in Hnvcc, Hcudart.
    rewrite (cuda_postpackage_checked self w files subdirs eula) by done.
    rewrite walk_succeeds; [done|done|].
    intros path filename content Hat Hstem. apply (Hplain path filename content Hat).
    by rewrite <- elem_of_whitelist_of.
Qed.

Lemma cuda_postpackage_filters_install_tree_witness :
  let run := cuda_postpackage (CudaSample.block, CudaSample.world CudaSample.good_eula 0) in
  fst run = Ok tt
  /\ exists d',
       filesystem (snd (snd run)) !! CudaSample.top = Some d'
       /\ file_at CudaSample.top d'
            "/cvmfs/pilot/versions/2021.12/software/CUDA/11.4.1/lib64/libcudart.so.11.4.108"
            "libcudart.so.11.4.108" (File "ELF")
       /\ file_at CudaSample.top d'
            "/cvmfs/pilot/versions/2021.12/software/CUDA/11.4.1/bin/nvcc" "nvcc"
            (Symlink "/cvmfs/pilot/host_injections/2021.12/software/CUDA/11.4.1/bin/nvcc").
Proof.
  intros run.
  destruct (cuda_postpackage_filters_install_tree
              CudaSample.block (CudaSample.world CudaSample.good_eula 0)
              (CudaSample.files CudaSample.good_eula) CudaSample.subdirs
              CudaSample.good_eula eq_refl eq_refl eq_refl) as [Hrun Hreturns].
  { intros path filename content Hat Hstem.
    rewrite <- elem_of_whitelist_of in Hstem.
    refine (walk_ok_plain (fun _ => 0%Z) (whitelist_of CudaSample.good_eula)
              CudaSample.top _
              (snd (walk (fun _ => 0%Z) (whitelist_of CudaSample.good_eula) CudaSample.top
                      (Dir (CudaSample.files CudaSample.good_eula) CudaSample.subdirs)))
              _ path filename content Hat Hstem).
    vm_compute. reflexivity. }
  split.
  { apply Hreturns.
    - rewrite <- elem_of_whitelist_of. compute_done.
    - apply elem_of_whitelist_of. compute_done.
    - reflexivity. }
  destruct (Hrun (fst (snd run)) (snd (snd run))) as (d' & Hd' & Hfiles).
  { vm_compute. reflexivity. }
  exists d'. split; [exact Hd'|]. split.
  - refine (proj1 (Hfiles _ "libcudart.so.11.4.108" "ELF" _) _).
    + apply (file_below CudaSample.top _ _ "lib64" (Dir CudaSample.lib64 [])).
      { apply elem_of_cons. right. apply elem_of_cons. by left. }
      apply (file_here (Py.path_join CudaSample.top ["lib64"]) CudaSample.lib64 []
               "libcudart.so.11.4.108" (File "ELF")).
      apply elem_of_cons. by left.
    + apply elem_of_whitelist_of. compute_done.
  - refine (proj1 (proj2 (Hfiles _ "nvcc" "ELF" _) _)).
    + apply (file_below CudaSample.top _ _ "bin" (Dir CudaSample.bin [])).
      { apply elem_of_cons. by left. }
      apply (file_here (Py.path_join CudaSample.top ["bin"]) CudaSample.bin []
               "nvcc" (File "ELF")).
      apply elem_of_cons. by left.
    + rewrite <- elem_of_whitelist_of. compute_done.
Defined.

(** C3, as stated, fails: [EULA.txt] is a regular file whose stem is not
    among the stems harvested from the EULA text, and after the filter it is
    still a regular file, not a link ([version.json] shows what happens to a
    file outside the whitelist). *)
Lemma cuda_postpackage_keeps_eula_file :
  let run := cuda_postpackage (CudaSample.block, CudaSample.world CudaSample.good_eula 0) in
  fst run = Ok tt
  /\ ~ redistributable CudaSample.good_eula (Py.before_dot "EULA.txt")
  /\ filesystem (snd (snd run)) !! CudaSample.top
     = Some (Dir
          [("EULA.txt", File CudaSample.good_eula);
           ("version.json",
            Symlink "/cvmfs/pilot/host_injections/2021.12/software/CUDA/11.4.1/version.json")]
          [("bin",
            Dir [("nvcc",
                  Symlink "/cvmfs/pilot/host_injections/2021.12/software/CUDA/11.4.1/bin/nvcc");
                 ("nvcc.profile",
                  Symlink "/cvmfs/pilot/host_injections/2021.12/software/CUDA/11.4.1/bin/nvcc.profile")]
                []);
           ("lib64",
            Dir [("libcudart.so.11.4.108", File "ELF");
                 ("libcudart.so", Symlink "libcudart.so.11.4.108");
                 ("libcublas.so.11.5.4",
                  Symlink "/cvmfs/pilot/host_injections/2021.12/software/CUDA/11.4.1/lib64/libcublas.so.11.5.4")]
                [])]).
Proof.
  intros run. split; [vm_compute; reflexivity|]. split.
  { rewrite <- elem_of_harvested_attachment. compute_done. }
  vm_compute. reflexivity.
Qed.

(** When [ln] fails, the file has been removed and the error is raised at
    once; the rest of the tree has not been visited. *)
Example cuda_postpackage_ln_fails :
  let run := cuda_postpackage (CudaSample.block, CudaSample.world CudaSample.good_eula 1) in
  fst run
  = Raise (EasyBuildError
      (Msg "Failed to create symbolic link: %s"
         [AStr ("ln -s /cvmfs/pilot/host_injections/2021.12/software/CUDA/11.4.1/version.json"
                +:+ " /cvmfs/pilot/versions/2021.12/software/CUDA/11.4.1/version.json")]))
  /\ filesystem (snd (snd run)) !! CudaSample.top
     = Some (Dir [("EULA.txt", File CudaSample.good_eula)] CudaSample.subdirs).
Proof. split; vm_compute; reflexivity. Qed.

(** ** The GPU property injector *)

(** One step of the loop over the dependencies. *)
Lemma dependencies_loop_step (i : nat) (cuda_version : version) (ec : EasyConfig) :
  dependencies_loop i cuda_version ec
  = match dependencies ec !! i with
    | Some dep =>
        if Py.contains (dep_name dep) "CUDA"
        then dependencies_loop (S i) (VStr (dep_version dep))
               (move_to_builddependencies dep ec)
        else dependencies_loop (S i) cuda_version ec
    | None => (cuda_version, ec)
    end.
Proof.
  funelim (dependencies_loop i cuda_version ec);
    match goal with H : dependencies _ !! _ = _ |- _ => rewrite H end; reflexivity.
Qed.

(** C4: the code breaks the claim.  With the dependencies UCX-CUDA and
    CUDA 11.4, in this order, the injector takes UCX-CUDA for the CUDA
    dependency (its test is whether the name contains [CUDA]), removes it
    from the list while iterating over it, and so never looks at CUDA: CUDA
    stays a runtime dependency, the build dependencies hold UCX-CUDA and not
    CUDA, and the footer carries the version of UCX-CUDA.  With another
    dependency between CUDA and UCX-CUDA both are moved, and the footer still
    carries the version of UCX-CUDA. *)
Theorem inject_gpu_property_misses_cuda :
  let cuda := Dep "CUDA" "11.4" [] in
  let ucx_cuda := Dep "UCX-CUDA" "1.11.2" ["-CUDA-11.4"] in
  let gdrcopy := Dep "GDRCopy" "2.3" [] in
  let ec1 := Sample.easyconfig "OSU-Micro-Benchmarks" "gompi" [ucx_cuda; cuda] in
  let ec2 := Sample.easyconfig "NCCL" "GCCcore" [cuda; gdrcopy; ucx_cuda] in
  (dependencies (inject_gpu_property ec1) = [cuda]
   /\ builddependencies (inject_gpu_property ec1) = [ucx_cuda]
   /\ modluafooter (inject_gpu_property ec1)
      = Some (nl +:+ arch_gpu_line +:+ nl +:+ cuda_version_line "1.11.2"))
  /\ (dependencies (inject_gpu_property ec2) = [gdrcopy]
      /\ builddependencies (inject_gpu_property ec2) = [cuda; ucx_cuda]
      /\ modluafooter (inject_gpu_property ec2)
         = Some (nl +:+ arch_gpu_line +:+ nl +:+ cuda_version_line "1.11.2")).
Proof. repeat split; vm_compute; reflexivity. Qed.

(** C10: the code breaks the claim.  With a CUDA-enabled toolchain and the
    single dependency UCX-CUDA, no dependency is named CUDA, yet the footer
    carries the version of UCX-CUDA instead of [0], and UCX-CUDA has become
    a build dependency. *)
Theorem inject_gpu_property_version_not_zero :
  let ucx_cuda := Dep "UCX-CUDA" "1.11.2" [] in
  let ec := Sample.easyconfig "OSU-Micro-Benchmarks" "gompic" [ucx_cuda] in
  toolchain_name ec ∈ CUDA_ENABLED_TOOLCHAINS
  /\ ("CUDA" ∉ map dep_name (dependencies ec))
  /\ modluafooter (inject_gpu_property ec)
     = Some (nl +:+ arch_gpu_line +:+ nl +:+ cuda_version_line "1.11.2")
  /\ Py.contains (nl +:+ arch_gpu_line +:+ nl +:+ cuda_version_line "1.11.2")
       (cuda_version_line "0") = false
  /\ dependencies (inject_gpu_property ec) = []
  /\ builddependencies (inject_gpu_property ec) = [ucx_cuda].
Proof.
  intros ucx_cuda ec. split; [compute_done|]. split; [compute_done|].
  repeat split; vm_compute; reflexivity.
Qed.

(** *** Where the injector does what the claims say *)

Section Substrings.

Implicit Types a b h n r : string.

Lemma strip_prefix_Some n h r : Py.strip_prefix n h = Some r <-> h = n +:+ r.
Proof.
  revert h. induction n as [|x n IH]; intros h; simpl.
  - rewrite app_nil_l. split; congruence.
  - destruct h as [|y h]; [by rewrite app_cons|].
    rewrite app_cons. destruct (decide (x = y)) as [->|Hne].
    + rewrite IH. split; congruence.
    + split; congruence.
Qed.

Lemma contains_true h n :
  Py.contains h n = true <-> exists a b, h = a +:+ n +:+ b.
Proof.
  split.
  - induction h as [|x h IH]; simpl.
    + destruct (Py.strip_prefix n "") as [r|] eqn:Hr; [|done].
      intros _. apply strip_prefix_Some in Hr. by exists "", r.
    + destruct (Py.strip_prefix n (String x h)) as [r|] eqn:Hr.
      * intros _. apply strip_prefix_Some in Hr. by exists "", r.
      * intros (a & b & ->)%IH. by exists (String x a), b.
  - intros (a & b & ->). induction a as [|x a IH].
    + rewrite app_nil_l.
      destruct (n +:+ b) eqn:E; simpl; rewrite <- E;
        by rewrite (proj2 (strip_prefix_Some n (n +:+ b) b)).
    + rewrite app_cons. simpl. rewrite IH. by destruct (Py.strip_prefix _ _).
Qed.

Lemma contains_refl n : Py.contains n n = true.
Proof. apply contains_true. exists "", "". by rewrite app_nil_l, app_nil_r. Qed.

Lemma contains_app_r a h n : Py.contains h n = true -> Py.contains (a +:+ h) n = true.
Proof.
  rewrite !contains_true. intros (a' & b & ->). exists (a +:+ a'), b.
  by rewrite app_assoc.
Qed.

Lemma contains_app_l h b n : Py.contains h n = true -> Py.contains (h +:+ b) n = true.
Proof.
  rewrite !contains_true. intros (a & b' & ->). exists a, (b' +:+ b).
  by rewrite !app_assoc.
Qed.

Lemma contains_trans h m n :
  Py.contains h m = true -> Py.contains m n = true -> Py.contains h n = true.
Proof.
  rewrite !contains_true. intros (a & b & ->) (a' & b' & ->).
  exists (a +:+ a'), (b' +:+ b). by rewrite !app_assoc.
Qed.

End Substrings.

Lemma dependencies_loop_plain_rest (n i : nat) (cuda_version : version) (ec : EasyConfig) :
  length (dependencies ec) - i <= n ->
  (forall j dep, i <= j -> dependencies ec !! j = Some dep -> plain dep) ->
  dependencies_loop i cuda_version ec = (cuda_version, ec).
Proof.
  revert i. induction n as [|n IH]; intros i Hlen Hplain;
    rewrite dependencies_loop_step;
    destruct (dependencies ec !! i) as [dep|] eqn:Hdep; try done.
  - apply lookup_lt_Some in Hdep. lia.
  - rewrite (Hplain i dep) by done. apply IH.
    + apply lookup_lt_Some in Hdep. lia.
    + intros j dep' Hj. apply Hplain. lia.
Qed.

Lemma dependencies_loop_plain_prefix (l1 rest : list dependency) (n i : nat)
    (cuda_version : version) (ec : EasyConfig) :
  dependencies ec = (l1 ++ rest)%list ->
  Forall plain l1 ->
  length l1 - i <= n -> i <= length l1 ->
  dependencies_loop i cuda_version ec = dependencies_loop (length l1) cuda_version ec.
Proof.
  intros Hdeps Hplain. revert i. induction n as [|n IH]; intros i Hn Hi.
  - by replace i with (length l1) by lia.
  - destruct (decide (i = length l1)) as [->|Hne]; [done|].
    rewrite dependencies_loop_step, Hdeps.
    destruct (lookup_lt_is_Some_2 l1 i) as [dep Hdep]; [lia|].
    rewrite (lookup_app_l_Some _ _ _ _ Hdep).
    rewrite Forall_forall in Hplain.
    rewrite (Hplain dep) by (by eapply list_elem_of_lookup_2).
    apply IH; lia.
Qed.

Lemma list_remove_middle (x : dependency) (l1 l2 : list dependency) :
  x ∉ l1 -> list_remove x (l1 ++ x :: l2) = (l1 ++ l2)%list.
Proof.
  intros Hx. induction l1 as [|y l1 IH]; simpl.
  - by rewrite decide_True.
  - apply not_elem_of_cons in Hx as [Hne Hx].
    rewrite decide_False by done. by rewrite IH.
Qed.

Lemma move_to_builddependencies_fields (dep : dependency) (ec : EasyConfig) :
  dependencies (move_to_builddependencies dep ec) = list_remove dep (dependencies ec)
  /\ builddependencies (move_to_builddependencies dep ec)
     = (if bool_decide (dep ∈ builddependencies ec)
        then builddependencies ec
        else (builddependencies ec ++ [dep])%list)
  /\ modluafooter (move_to_builddependencies dep ec) = modluafooter ec.
Proof. unfold move_to_builddependencies. simpl. by case_bool_decide. Qed.

(** The module footer that [inject_gpu_property] leaves holds its two lines. *)
Lemma footer_holds_lines (old : option string) (v : string) :
  let value := Py.join nl [arch_gpu_line; cuda_version_line v] in
  let footer :=
    match old with
    | Some f => if negb (Py.contains f value) then Py.join nl [f; value] else f
    | None => value
    end in
  Py.contains footer arch_gpu_line = true
  /\ Py.contains footer (cuda_version_line v) = true.
Proof.
  intros value footer.
  assert (Py.contains value arch_gpu_line = true
          /\ Py.contains value (cuda_version_line v) = true) as [Harch Hver].
  { unfold value. cbn [Py.join]. split.
    - apply contains_app_l, contains_refl.
    - do 2 apply contains_app_r. apply contains_refl. }
  unfold footer. destruct old as [f|]; [|done].
  destruct (Py.contains f value) eqn:Hf; cbn [negb Py.join].
  - split; by eapply contains_trans.
  - split; by do 2 apply contains_app_r.
Qed.

(** With one dependency named CUDA and no other dependency whose name
    contains [CUDA], the injector does what C4 says: that dependency leaves
    the runtime list, is in the build list (appended unless already there),
    and the footer holds the property line and the version of the
    dependency. *)
Lemma inject_gpu_property_single_cuda (ec : EasyConfig) (cuda : dependency)
    (l1 l2 : list dependency) :
  dep_name cuda = "CUDA" ->
  dependencies ec = (l1 ++ cuda :: l2)%list ->
  Forall plain l1 -> Forall plain l2 ->
  let ec' := inject_gpu_property ec in
  dependencies ec' = (l1 ++ l2)%list
  /\ builddependencies ec'
     = (if bool_decide (cuda ∈ builddependencies ec)
        then builddependencies ec
        else (builddependencies ec ++ [cuda])%list)
  /\ exists footer,
       modluafooter ec' = Some footer
       /\ Py.contains footer arch_gpu_line = true
       /\ Py.contains footer (cuda_version_line (dep_version cuda)) = true.
Proof.
  intros Hname Hdeps Hl1 Hl2 ec'.
  assert (cuda ∉ l1) as Hfresh.
  { intros Hin. rewrite Forall_forall in Hl1. specialize (Hl1 _ Hin).
    unfold plain in Hl1. by rewrite Hname in Hl1. }
  set (logged := set_log (log ec ++
      [Msg "[parse hook] Injecting gpu as Lmod arch property and envvar with CUDA version" []])
      ec).
  destruct (move_to_builddependencies_fields cuda logged) as (Hd & Hb & Hm).
  cbn [logged dependencies builddependencies modluafooter set_log] in Hd, Hb, Hm.
  rewrite Hdeps, list_remove_middle in Hd by done.
  assert (dependencies_loop 0 (VInt 0) logged
          = (VStr (dep_version cuda), move_to_builddependencies cuda logged)) as Hloop.
  { rewrite (dependencies_loop_plain_prefix l1 (cuda :: l2) (length l1) 0)
      by (done || lia).
    rewrite dependencies_loop_step. cbn [logged dependencies set_log].
    rewrite Hdeps, list_lookup_middle by done. rewrite Hname.
    change (Py.contains "CUDA" "CUDA") with true. cbv iota.
    apply (dependencies_loop_plain_rest (length (l1 ++ l2))).
    - rewrite Hd. lia.
    - intros j dep Hj Hdep.
      rewrite Hd in Hdep. rewrite lookup_app_r in Hdep by lia.
      rewrite Forall_forall in Hl2. by eapply Hl2, list_elem_of_lookup_2. }
  unfold ec', inject_gpu_property.
  rewrite (bool_decide_eq_true_2 ("CUDA" ∈ map dep_name (dependencies ec))); cycle 1.
  { rewrite Hdeps, map_app. apply elem_of_app. right. simpl. rewrite Hname.
    apply elem_of_cons. by left. }
  cbn [orb]. fold logged. rewrite Hloop.
  pose proof (footer_holds_lines (modluafooter ec) (dep_version cuda)) as Hfooter.
  cbn zeta in Hfooter. cbn [str_of_version].
  fold arch_gpu_line. fold (cuda_version_line (dep_version cuda)).
  destruct (modluafooter ec) as [f|]; [destruct (Py.contains f _)|]; cbn [negb].
  all: split; [exact Hd|]; split; [exact Hb|].
  all: eexists; split; [done|exact Hfooter].
Qed.

(** With a CUDA-enabled toolchain and no dependency whose name contains
    [CUDA], the injector does what C10 says: the dependency lists stay as
    they are and the footer holds the property line and the version [0]. *)
Lemma inject_gpu_property_toolchain_only (ec : EasyConfig) :
  toolchain_name ec ∈ CUDA_ENABLED_TOOLCHAINS ->
  Forall plain (dependencies ec) ->
  let ec' := inject_gpu_property ec in
  dependencies ec' = dependencies ec
  /\ builddependencies ec' = builddependencies ec
  /\ exists footer,
       modluafooter ec' = Some footer
       /\ Py.contains footer arch_gpu_line = true
       /\ Py.contains footer (cuda_version_line "0") = true.
Proof.
  intros Htc Hplain ec'.
  set (logged := set_log (log ec ++
      [Msg "[parse hook] Injecting gpu as Lmod arch property and envvar with CUDA version" []])
      ec).
  assert (dependencies_loop 0 (VInt 0) logged = (VInt 0, logged)) as Hloop.
  { apply (dependencies_loop_plain_rest (length (dependencies logged))); [lia|].
    intros j dep _ Hdep. rewrite Forall_forall in Hplain.
    by eapply Hplain, list_elem_of_lookup_2. }
  unfold ec', inject_gpu_property.
  rewrite (bool_decide_eq_true_2 (toolchain_name ec ∈ CUDA_ENABLED_TOOLCHAINS)) by done.
  rewrite orb_true_r. fold logged. rewrite Hloop.
  pose proof (footer_holds_lines (modluafooter ec) "0") as Hfooter.
  cbn zeta in Hfooter.
  change (str_of_version (VInt 0)) with "0".
  fold arch_gpu_line. fold (cuda_version_line "0").
  destruct (modluafooter ec) as [f|] eqn:Hold; [destruct (Py.contains f _)|]; cbn [negb];
    (split; [reflexivity | split; [reflexivity | eexists; split; [done | exact Hfooter]]]).
Qed.

(** Without a dependency whose name contains [CUDA] the injector leaves both
    dependency lists as they are. *)
Lemma inject_gpu_property_plain (ec : EasyConfig) :
  Forall plain (dependencies ec) ->
  dependencies (inject_gpu_property ec) = dependencies ec
  /\ builddependencies (inject_gpu_property ec) = builddependencies ec.
Proof.
  intros Hplain. unfold inject_gpu_property.
  destruct (_ || _); [|done].
  set (logged := set_log _ ec).
  rewrite (dependencies_loop_plain_rest (length (dependencies logged)) 0 (VInt 0) logged);
    [| lia |].
  - by destruct (modluafooter ec) as [f|]; [destruct (negb _)|].
  - intros j dep _ Hdep. rewrite Forall_forall in Hplain.
    by eapply Hplain, list_elem_of_lookup_2.
Qed.

(** In the situation of [inject_gpu_property_single_cuda], a second run of
    the injector adds nothing to the build dependencies. *)
Lemma inject_gpu_property_twice (ec : EasyConfig) (cuda : dependency)
    (l1 l2 : list dependency) :
  dep_name cuda = "CUDA" ->
  dependencies ec = (l1 ++ cuda :: l2)%list ->
  Forall plain l1 -> Forall plain l2 ->
  builddependencies (inject_gpu_property (inject_gpu_property ec))
  = builddependencies (inject_gpu_property ec).
Proof.
  intros Hname Hdeps Hl1 Hl2.
  destruct (inject_gpu_property_single_cuda ec cuda l1 l2) as (Hd & _); [done..|].
  apply inject_gpu_property_plain. rewrite Hd. by apply Forall_app.
Qed.

Example inject_gpu_property_single_cuda_sample :
  let cuda := Dep "CUDA" "11.4" [] in
  let ec := Sample.easyconfig "NCCL" "GCCcore"
              [Dep "GDRCopy" "2.3" []; cuda; Dep "UCX" "1.11.2" []] in
  dependencies (inject_gpu_property ec) = [Dep "GDRCopy" "2.3" []; Dep "UCX" "1.11.2" []]
  /\ builddependencies (inject_gpu_property ec) = [cuda]
  /\ builddependencies (inject_gpu_property (inject_gpu_property ec)) = [cuda]
  /\ modluafooter (inject_gpu_property ec)
     = Some (nl +:+ arch_gpu_line +:+ nl +:+ cuda_version_line "11.4").
Proof. repeat split; vm_compute; reflexivity. Qed.

(** * Further properties of the hooks *)

(** ** The dispatch tables *)

Lemma PARSE_HOOKS_lookup (n : string) :
  PARSE_HOOKS !! n
  = if decide ("CGAL" = n) then Some cgal_toolchainopts_precise
    else if decide ("fontconfig" = n) then Some fontconfig_add_fonts
    else if decide ("UCX" = n) then Some ucx_eprefix
    else None.
Proof. unfold PARSE_HOOKS. by rewrite !lookup_insert, lookup_empty. Qed.

Lemma PRE_CONFIGURE_HOOKS_lookup (n : string) :
  PRE_CONFIGURE_HOOKS !! n
  = if decide ("libfabric" = n) then Some libfabric_disable_psm3_x86_64_generic
    else if decide ("MetaBAT" = n) then Some metabat_preconfigure
    else if decide ("WRF" = n) then Some wrf_preconfigure
    else None.
Proof. unfold PRE_CONFIGURE_HOOKS. by rewrite !lookup_insert, lookup_empty. Qed.

(** X1.  Without [EPREFIX] in the environment the parse hook raises the
    "not defined" error for every package, whatever its name, dependencies
    and toolchain, and has changed nothing: no patcher has run and the GPU
    property injector has not run either. *)
Theorem parse_hook_requires_eprefix (ec : EasyConfig) (w : World) :
  environ w !! "EPREFIX" = None ->
  parse_hook (ec, w)
  = (Raise (EasyBuildError (Msg "$%s is not defined!" [AStr "EPREFIX"])), (ec, w)).
Proof.
  intros Henv. unfold parse_hook, get_eessi_envvar. unfold_monad. simpl.
  by rewrite Henv.
Qed.

Lemma parse_hook_requires_eprefix_witness :
  let ec := Sample.easyconfig "fontconfig" "fosscuda" [Dep "CUDA" "11.4" []] in
  parse_hook (ec, CudaSample.world "" 0)
  = (Raise (EasyBuildError (Msg "$%s is not defined!" [AStr "EPREFIX"])),
     (ec, CudaSample.world "" 0)).
Proof. intros ec. apply parse_hook_requires_eprefix. reflexivity. Defined.

(** What the parse hook does once [EPREFIX] is known: the patcher of the
    package, if it has one, then the injector. *)
Lemma parse_hook_with_eprefix (ec : EasyConfig) (w : World) (eprefix : string) :
  environ w !! "EPREFIX" = Some eprefix ->
  parse_hook (ec, w)
  = match match PARSE_HOOKS !! name ec with
          | Some hook => hook eprefix (ec, w)
          | None => (Ok tt, (ec, w))
          end with
    | (Ok _, (ec', w')) => (Ok tt, (inject_gpu_property ec', w'))
    | (Raise e, s) => (Raise e, s)
    end.
Proof.
  intros Henv. unfold parse_hook, get_eessi_envvar. unfold_monad. simpl.
  rewrite Henv. simpl.
  destruct (PARSE_HOOKS !! name ec) as [hook|]; [|done].
  by destruct (hook eprefix (ec, w)) as [[[]|e] [ec' w']].
Qed.

(** With [EPREFIX] defined, the patcher that the parse hook picks accepts the
    package, and the hook returns. *)
Lemma parse_hook_returns (ec : EasyConfig) (w : World) :
  is_Some (environ w !! "EPREFIX") ->
  fst (parse_hook (ec, w)) = Ok tt.
Proof.
  intros [eprefix Henv]. rewrite (parse_hook_with_eprefix ec w eprefix Henv).
  rewrite PARSE_HOOKS_lookup.
  destruct (decide ("CGAL" = name ec)) as [Hn|_].
  { unfold cgal_toolchainopts_precise. unfold_monad. simpl.
    rewrite decide_True by done. simpl. by destruct (decide (cpu_architecture w = POWER)). }
  destruct (decide ("fontconfig" = name ec)) as [Hn|_].
  { unfold fontconfig_add_fonts, update. unfold_monad. simpl.
    by rewrite decide_True by done. }
  destruct (decide ("UCX" = name ec)) as [Hn|_]; [|done].
  unfold ucx_eprefix, update. unfold_monad. simpl.
  by rewrite decide_True by done.
Qed.

(** X2.  With [EPREFIX] defined the parse hook raises no [EasyBuildError],
    whatever the package: the keys of [PARSE_HOOKS] agree with the name
    checks of the patchers, so the "hook triggered for non-... easyconfig"
    errors cannot arise through the dispatcher.  The hook succeeds for every
    package other than a CGAL package on POWER; there the patcher writes
    into the toolchain options of the easyconfig, which it needs to find as
    a dictionary. *)
Theorem parse_hook_no_mismatch (ec : EasyConfig) (w : World) :
  is_Some (environ w !! "EPREFIX") ->
  (forall m, fst (parse_hook (ec, w)) <> Raise (EasyBuildError m))
  /\ (~ (name ec = "CGAL" /\ cpu_architecture w = POWER) ->
      fst (parse_hook (ec, w)) = Ok tt).
Proof.
  intros Henv. split.
  - intros m. by rewrite parse_hook_returns.
  - intros _. by apply parse_hook_returns.
Qed.

Lemma parse_hook_no_mismatch_witness :
  fst (parse_hook (Sample.easyconfig "UCX" "GCCcore" [], Sample.world)) = Ok tt
  /\ fst (parse_hook (Sample.easyconfig "CGAL" "gompi" [], Sample.world)) = Ok tt
  /\ fst (parse_hook (Sample.easyconfig "CGAL" "gompi" [], Sample.power_world))
     <> Raise (EasyBuildError
                 (Msg "fontconfig-specific hook triggered for non-fontconfig easyconfig?!" [])).
Proof.
  split; [|split].
  - apply parse_hook_no_mismatch; [by eexists|]. by intros [? _].
  - apply parse_hook_no_mismatch; [by eexists|]. by intros [_ ?].
  - apply parse_hook_no_mismatch. by eexists.
Defined.

(** X3.  The pre-configure hook never raises: for a package in
    [PRE_CONFIGURE_HOOKS] the patcher that runs is the one whose name check
    accepts it, and the other packages are passed over. *)
Theorem pre_configure_hook_succeeds (self : EasyBlock) (w : World) :
  fst (pre_configure_hook (self, w)) = Ok tt.
Proof.
  unfold pre_configure_hook. unfold_monad. simpl. rewrite PRE_CONFIGURE_HOOKS_lookup.
  destruct (decide ("libfabric" = name (cfg self))) as [Hn|_].
  { unfold libfabric_disable_psm3_x86_64_generic, update. unfold_monad. simpl.
    rewrite decide_True by done. simpl.
    destruct (decide (cpu_architecture w = X86_64)); [|done]. simpl.
    by destruct (_ || _). }
  destruct (decide ("MetaBAT" = name (cfg self))) as [Hn|_].
  { unfold metabat_preconfigure. unfold_monad. simpl. by rewrite decide_True by done. }
  destruct (decide ("WRF" = name (cfg self))) as [Hn|_]; [|done].
  unfold wrf_preconfigure, update. unfold_monad. simpl.
  rewrite decide_True by done. simpl.
  by destruct (decide (cpu_architecture w = AARCH64)).
Qed.

(** ** Invariants of the GPU property injector *)

Lemma elem_of_list_remove (x d : dependency) (l : list dependency) :
  d ∈ l -> (x ∈ l <-> x = d \/ x ∈ list_remove d l).
Proof.
  induction l as [|y l IH]; intros Hd; [by apply elem_of_nil in Hd|].
  simpl. destruct (decide (d = y)) as [->|Hne].
  - rewrite elem_of_cons. tauto.
  - apply elem_of_cons in Hd as [->|Hd]; [done|].
    rewrite !elem_of_cons, (IH Hd). tauto.
Qed.

Lemma filter_plain_list_remove (d : dependency) (l : list dependency) :
  ~ plain d -> filter plain (list_remove d l) = filter plain l.
Proof.
  intros Hd. induction l as [|y l IH]; [done|]. simpl.
  destruct (decide (d = y)) as [<-|Hne].
  - by rewrite filter_cons_False.
  - by rewrite !filter_cons, IH.
Qed.

(** A property of the easyconfig that every move of a dependency keeps is
    kept by the loop. *)
Lemma dependencies_loop_invariant (P : EasyConfig -> Prop) :
  (forall dep ec, P ec -> dep ∈ dependencies ec ->
                  Py.contains (dep_name dep) "CUDA" = true ->
                  P (move_to_builddependencies dep ec)) ->
  forall i cuda_version ec, P ec -> P (snd (dependencies_loop i cuda_version ec)).
Proof.
  intros Hmove.
  assert (forall n i cuda_version ec,
            length (dependencies ec) - i <= n -> P ec ->
            P (snd (dependencies_loop i cuda_version ec))) as Hall.
  { induction n as [|n IH]; intros i cuda_version ec Hlen HP;
      rewrite dependencies_loop_step;
      destruct (dependencies ec !! i) as [dep|] eqn:Hdep; try done.
    - apply lookup_lt_Some in Hdep. lia.
    - pose proof (lookup_lt_Some _ _ _ Hdep) as Hlt.
      destruct (Py.contains (dep_name dep) "CUDA") eqn:Hcuda.
      + apply IH.
        * destruct (move_to_builddependencies_fields dep ec) as (-> & _).
          pose proof (list_remove_length dep (dependencies ec)). lia.
        * apply Hmove; [done | by eapply list_elem_of_lookup_2 | done].
      + apply IH; [lia | done]. }
  intros i cuda_version ec. by apply (Hall (length (dependencies ec) - i)).
Qed.

(** The same for the whole injector, given that the property does not depend
    on the log and on the module footer. *)
Lemma inject_gpu_property_invariant (P : EasyConfig -> Prop) (ec : EasyConfig) :
  (forall dep ec, P ec -> dep ∈ dependencies ec ->
                  Py.contains (dep_name dep) "CUDA" = true ->
                  P (move_to_builddependencies dep ec)) ->
  (forall l ec, P ec -> P (set_log l ec)) ->
  (forall f ec, P ec -> P (set_modluafooter f ec)) ->
  P ec -> P (inject_gpu_property ec).
Proof.
  intros Hmove Hlog Hfooter HP. unfold inject_gpu_property.
  destruct (_ || _); [|done].
  match goal with
  | |- context [dependencies_loop 0 (VInt 0) ?logged] =>
      pose proof (dependencies_loop_invariant P Hmove 0 (VInt 0) logged (Hlog _ _ HP))
        as Hloop;
      destruct (dependencies_loop 0 (VInt 0) logged) as [cuda_version ec']
  end.
  simpl in Hloop.
  destruct (modluafooter ec) as [f|]; [destruct (negb _)|]; auto.
Qed.

(** X4.  The injector never loses a dependency and never invents one: an
    entry is in the runtime or in the build dependencies afterwards exactly
    when it was in one of the two lists before.  This holds for every
    easyconfig, also where the loop skips entries. *)
Theorem inject_gpu_property_conserves_dependencies (ec : EasyConfig) (d : dependency) :
  d ∈ dependencies (inject_gpu_property ec) \/ d ∈ builddependencies (inject_gpu_property ec)
  <-> d ∈ dependencies ec \/ d ∈ builddependencies ec.
Proof.
  apply (inject_gpu_property_invariant
           (fun ec' => d ∈ dependencies ec' \/ d ∈ builddependencies ec'
                       <-> d ∈ dependencies ec \/ d ∈ builddependencies ec));
    [| done | done | done].
  intros dep ec' <- Hdep _.
  destruct (move_to_builddependencies_fields dep ec') as (-> & -> & _).
  rewrite (elem_of_list_remove d dep (dependencies ec') Hdep).
  case_bool_decide as Hin; [|rewrite elem_of_app, list_elem_of_singleton].
  - split; [tauto|]. intros [[->|?]|?]; auto.
  - tauto.
Qed.

(** X5.  The injector moves only dependencies whose name contains [CUDA]:
    the other runtime dependencies stay in the runtime list, in their order,
    and the build dependencies are the former ones followed by entries whose
    name contains [CUDA] and that were runtime dependencies. *)
Theorem inject_gpu_property_moves_only_cuda (ec : EasyConfig) :
  filter plain (dependencies (inject_gpu_property ec)) = filter plain (dependencies ec)
  /\ exists moved,
       builddependencies (inject_gpu_property ec) = (builddependencies ec ++ moved)%list
       /\ Forall (fun d => ~ plain d /\ d ∈ dependencies ec) moved.
Proof.
  enough ((filter plain (dependencies (inject_gpu_property ec))
           = filter plain (dependencies ec)
           /\ forall d, d ∈ dependencies (inject_gpu_property ec) -> d ∈ dependencies ec)
          /\ exists moved,
               builddependencies (inject_gpu_property ec)
               = (builddependencies ec ++ moved)%list
               /\ Forall (fun d => ~ plain d /\ d ∈ dependencies ec) moved)
    as [[Hfilter _] Hmoved]; [done|].
  apply (inject_gpu_property_invariant
           (fun ec' =>
              (filter plain (dependencies ec') = filter plain (dependencies ec)
               /\ forall d, d ∈ dependencies ec' -> d ∈ dependencies ec)
              /\ exists moved,
                   builddependencies ec' = (builddependencies ec ++ moved)%list
                   /\ Forall (fun d => ~ plain d /\ d ∈ dependencies ec) moved)).
  - intros dep ec' [[Hfilter Hsub] (moved & Hb & Hmoved)] Hdep Hcuda.
    assert (~ plain dep) as Hnot by (unfold plain; by rewrite Hcuda).
    destruct (move_to_builddependencies_fields dep ec') as (-> & -> & _).
    split; [split|].
    + by rewrite filter_plain_list_remove.
    + intros d Hd. apply Hsub, (elem_of_list_remove d dep _ Hdep). by right.
    + case_bool_decide.
      * by exists moved.
      * exists (moved ++ [dep])%list. rewrite Hb, <- (assoc_L (++)). split; [done|].
        apply Forall_app. split; [done|]. apply Forall_singleton. auto.
  - intros l ec' H. exact H.
  - intros f ec' H. exact H.
  - split; [done|]. exists []. by rewrite List.app_nil_r.
Qed.

Lemma inject_gpu_property_keeps_fields (ec : EasyConfig) :
  name (inject_gpu_property ec) = name ec
  /\ toolchain_name (inject_gpu_property ec) = toolchain_name ec
  /\ toolchainopts (inject_gpu_property ec) = toolchainopts ec
  /\ configopts (inject_gpu_property ec) = configopts ec
  /\ preconfigopts (inject_gpu_property ec) = preconfigopts ec.
Proof.
  apply (inject_gpu_property_invariant
           (fun ec' => name ec' = name ec
                       /\ toolchain_name ec' = toolchain_name ec
                       /\ toolchainopts ec' = toolchainopts ec
                       /\ configopts ec' = configopts ec
                       /\ preconfigopts ec' = preconfigopts ec));
    [| done | done | done].
  intros dep ec' H _ _. unfold move_to_builddependencies. by case_bool_decide.
Qed.

(** X6.  The injector touches nothing but the two dependency lists, the
    module footer and the log: name, toolchain, toolchain options and the
    configure options are as before. *)
Theorem inject_gpu_property_frame (ec : EasyConfig) :
  name (inject_gpu_property ec) = name ec
  /\ toolchain_name (inject_gpu_property ec) = toolchain_name ec
  /\ toolchainopts (inject_gpu_property ec) = toolchainopts ec
  /\ configopts (inject_gpu_property ec) = configopts ec
  /\ preconfigopts (inject_gpu_property ec) = preconfigopts ec.
Proof. apply inject_gpu_property_keeps_fields. Qed.

(** The footer that the injector writes when no dependency has [CUDA] in its
    name and the guard holds. *)
Lemma inject_gpu_property_plain_footer (ec : EasyConfig) :
  Forall plain (dependencies ec) ->
  bool_decide ("CUDA" ∈ map dep_name (dependencies ec))
  || bool_decide (toolchain_name ec ∈ CUDA_ENABLED_TOOLCHAINS) = true ->
  let value := Py.join nl [arch_gpu_line; cuda_version_line "0"] in
  modluafooter (inject_gpu_property ec)
  = Some match modluafooter ec with
         | Some f => if negb (Py.contains f value) then Py.join nl [f; value] else f
         | None => value
         end.
Proof.
  intros Hplain Hguard value. unfold inject_gpu_property. rewrite Hguard.
  set (logged := set_log _ ec).
  rewrite (dependencies_loop_plain_rest (length (dependencies logged)) 0 (VInt 0) logged);
    [| lia |].
  - change (str_of_version (VInt 0)) with "0".
    fold arch_gpu_line. fold (cuda_version_line "0"). fold value.
    destruct (modluafooter ec) as [f|] eqn:Hf; [|done].
    by destruct (negb _).
  - intros j dep _ Hdep. rewrite Forall_forall in Hplain.
    by eapply Hplain, list_elem_of_lookup_2.
Qed.

(** X7.  On an easyconfig without a dependency whose name contains [CUDA], a
    second run of the injector changes neither the module footer nor the
    dependency lists: the test [value in ec_dict[key]] finds the lines that
    the first run wrote. *)
Theorem inject_gpu_property_idempotent (ec : EasyConfig) :
  Forall plain (dependencies ec) ->
  modluafooter (inject_gpu_property (inject_gpu_property ec))
  = modluafooter (inject_gpu_property ec)
  /\ dependencies (inject_gpu_property (inject_gpu_property ec))
     = dependencies (inject_gpu_property ec)
  /\ builddependencies (inject_gpu_property (inject_gpu_property ec))
     = builddependencies (inject_gpu_property ec).
Proof.
  intros Hplain.
  destruct (inject_gpu_property_plain ec Hplain) as [Hd Hb].
  destruct (inject_gpu_property_keeps_fields ec) as (_ & Htc & _).
  assert (Forall plain (dependencies (inject_gpu_property ec))) as Hplain'
    by (by rewrite Hd).
  split; [|by apply inject_gpu_property_plain].
  destruct (bool_decide ("CUDA" ∈ map dep_name (dependencies ec))
            || bool_decide (toolchain_name ec ∈ CUDA_ENABLED_TOOLCHAINS)) eqn:Hguard.
  - rewrite (inject_gpu_property_plain_footer (inject_gpu_property ec) Hplain')
      by (by rewrite Hd, Htc).
    rewrite (inject_gpu_property_plain_footer ec Hplain Hguard).
    f_equal.
    set (value := Py.join nl [arch_gpu_line; cuda_version_line "0"]).
    assert (forall f', Py.contains f' value = true ->
                       (if negb (Py.contains f' value) then Py.join nl [f'; value] else f')
                       = f') as Hsame.
    { intros f' Hc. by rewrite Hc. }
    apply Hsame.
    destruct (modluafooter ec) as [f|]; [|apply contains_refl].
    destruct (Py.contains f value) eqn:Hc; [done|].
    cbn [negb Py.join]. do 2 apply contains_app_r. apply contains_refl.
  - assert (inject_gpu_property ec = ec) as Hid.
    { unfold inject_gpu_property. by rewrite Hguard. }
    by rewrite !Hid.
Qed.

Lemma inject_gpu_property_idempotent_witness :
  let ec := Sample.easyconfig "GROMACS" "fosscuda" [Dep "Python" "3.9.5" []] in
  modluafooter (inject_gpu_property (inject_gpu_property ec))
  = Some (nl +:+ arch_gpu_line +:+ nl +:+ cuda_version_line "0").
Proof.
  intros ec.
  assert (Forall plain (dependencies ec)) as Hplain.
  { apply Forall_cons. split; [reflexivity | by apply Forall_nil]. }
  destruct (inject_gpu_property_idempotent ec Hplain) as (-> & _).
  reflexivity.
Defined.

(** X8.  Through the parse hook, with [EPREFIX] set, a package named
    fontconfig or UCX ends with the configure flags of its patcher, computed
    from the value of [EPREFIX]: the injector, which runs afterwards, leaves
    [configopts] alone. *)
Theorem parse_hook_configopts (ec : EasyConfig) (w : World) (eprefix : string) :
  environ w !! "EPREFIX" = Some eprefix ->
  (name ec = "fontconfig" ->
   configopts (fst (snd (parse_hook (ec, w))))
   = appended (configopts ec)
       ("--with-add-fonts=" +:+ Py.path_join eprefix ["usr"; "share"; "fonts"]))
  /\ (name ec = "UCX" ->
      configopts (fst (snd (parse_hook (ec, w))))
      = appended (appended (configopts ec) ("--with-sysroot=" +:+ eprefix))
          ("--with-rdmacm=" +:+ Py.path_join eprefix ["usr"]))
  /\ (name ec <> "fontconfig" -> name ec <> "UCX" ->
      configopts (fst (snd (parse_hook (ec, w)))) = configopts ec).
Proof.
  intros Henv. rewrite (parse_hook_with_eprefix ec w eprefix Henv), PARSE_HOOKS_lookup.
  split; [|split].
  - intros Hname. rewrite Hname. simpl.
    unfold fontconfig_add_fonts, update. unfold_monad. simpl.
    rewrite decide_True by done. simpl.
    match goal with
    | |- configopts (inject_gpu_property ?e) = _ =>
        by destruct (inject_gpu_property_keeps_fields e) as (_ & _ & _ & -> & _)
    end.
  - intros Hname. rewrite Hname. simpl.
    unfold ucx_eprefix, update. unfold_monad. simpl.
    rewrite decide_True by done. simpl.
    match goal with
    | |- configopts (inject_gpu_property ?e) = _ =>
        by destruct (inject_gpu_property_keeps_fields e) as (_ & _ & _ & -> & _)
    end.
  - intros Hfont Hucx.
    destruct (decide ("CGAL" = name ec)) as [Hn|_].
    + unfold cgal_toolchainopts_precise. unfold_monad. simpl.
      rewrite decide_True by done. simpl.
      destruct (decide (cpu_architecture w = POWER)); simpl;
        match goal with
        | |- configopts (inject_gpu_property ?e) = _ =>
            by destruct (inject_gpu_property_keeps_fields e) as (_ & _ & _ & -> & _)
        end.
    + rewrite decide_False by done. rewrite decide_False by done. simpl.
      by destruct (inject_gpu_property_keeps_fields ec) as (_ & _ & _ & -> & _).
Qed.

Lemma parse_hook_configopts_witness :
  configopts (fst (snd (parse_hook (Sample.easyconfig "fontconfig" "GCCcore" [],
                                    Sample.world))))
  = "--enable-shared --with-add-fonts=/cvmfs/pilot/versions/2021.12/compat/usr/share/fonts ".
Proof.
  destruct (parse_hook_configopts (Sample.easyconfig "fontconfig" "GCCcore" [])
              Sample.world "/cvmfs/pilot/versions/2021.12/compat" eq_refl) as (Hfont & _).
  rewrite Hfont by reflexivity. reflexivity.
Defined.

(** ** The RPATH override helper and the prepare hooks *)

Lemma contains_cons_false (x : ascii) (s n : string) :
  Py.contains (String x s) n = false ->
  Py.strip_prefix n (String x s) = None /\ Py.contains s n = false.
Proof. simpl. by destruct (Py.strip_prefix n (String x s)). Qed.

(** [s.replace(old, new, 1)] when [old] does not occur in [s]. *)
Lemma replace_first_absent (old new s : string) :
  Py.contains s old = false -> Py.replace_first old new s = s.
Proof.
  induction s as [|x s IH]; intros Hc.
  - simpl in *. by destruct (Py.strip_prefix old "").
  - apply contains_cons_false in Hc as [Hp Hc].
    cbn [Py.replace_first]. rewrite Hp. by rewrite IH.
Qed.

(** [s.replace(old, new, 1)] when the first character of [old] does not
    occur before the occurrence. *)
Lemma replace_first_at (c : ascii) (old' new pre post : string) :
  c ∉ list_ascii_of_string pre ->
  Py.replace_first (String c old') new (pre +:+ String c old' +:+ post)
  = pre +:+ new +:+ post.
Proof.
  intros Hpre. induction pre as [|x pre IH].
  - rewrite !app_nil_l. unfold Py.replace_first.
    destruct (String c old' +:+ post) eqn:E; rewrite <- E;
      by rewrite (proj2 (strip_prefix_Some (String c old') _ post)).
  - simpl in Hpre. apply not_elem_of_cons in Hpre as [Hne Hpre].
    rewrite !(app_cons x pre). cbn [Py.replace_first Py.strip_prefix].
    rewrite decide_False by done. by rewrite IH.
Qed.

(** X9.  [get_rpath_override_dirs] asks for [EESSI_SOFTWARE_PATH] first and
    for [EESSI_PILOT_VERSION] second and raises for the first that is not
    defined.  With both defined it returns two directories, [lib] and
    [lib64] under [<base>/rpath_overrides/<software>/system]: when the
    version occurs in the software path and its first character (not a
    slash) does not occur before it, [<base>] is the software path with
    [host_injections/] put before the version; when the version does not
    occur in the software path, [<base>] is the software path itself.  The
    function changes nothing. *)
Theorem get_rpath_override_dirs_result (software_name : string) (w : World) :
  (environ w !! "EESSI_SOFTWARE_PATH" = None ->
   get_rpath_override_dirs software_name w
   = (Raise (EasyBuildError (Msg "$%s is not defined!" [AStr "EESSI_SOFTWARE_PATH"])), w))
  /\ (is_Some (environ w !! "EESSI_SOFTWARE_PATH") ->
      environ w !! "EESSI_PILOT_VERSION" = None ->
      get_rpath_override_dirs software_name w
      = (Raise (EasyBuildError (Msg "$%s is not defined!" [AStr "EESSI_PILOT_VERSION"])), w))
  /\ (forall pre c version' post,
        environ w !! "EESSI_SOFTWARE_PATH" = Some (pre +:+ String c version' +:+ post) ->
        environ w !! "EESSI_PILOT_VERSION" = Some (String c version') ->
        c <> "/"%char -> c ∉ list_ascii_of_string pre ->
        let base := pre +:+ ("host_injections/" +:+ String c version') +:+ post in
        get_rpath_override_dirs software_name w
        = (Ok [Py.path_join base ["rpath_overrides"; software_name; "system"; "lib"];
               Py.path_join base ["rpath_overrides"; software_name; "system"; "lib64"]],
           w))
  /\ (forall path version,
        environ w !! "EESSI_SOFTWARE_PATH" = Some path ->
        environ w !! "EESSI_PILOT_VERSION" = Some version ->
        Py.contains path version = false ->
        get_rpath_override_dirs software_name w
        = (Ok [Py.path_join path ["rpath_overrides"; software_name; "system"; "lib"];
               Py.path_join path ["rpath_overrides"; software_name; "system"; "lib64"]],
           w)).
Proof.
  unfold get_rpath_override_dirs, get_eessi_envvar. unfold_monad.
  split; [|split; [|split]].
  - intros Hsw. simpl. by rewrite Hsw.
  - intros [sw Hsw] Hpv. simpl. rewrite Hsw. simpl. by rewrite Hpv.
  - intros pre c version' post Hsw Hpv Hslash Hpre. simpl.
    rewrite Hsw. simpl. rewrite Hpv. simpl.
    assert (Py.path_join2 "host_injections" (String c version')
            = "host_injections/" +:+ String c version') as ->.
    { unfold Py.path_join2, Py.startswith. cbn [Py.strip_prefix].
      rewrite decide_False by done.
      rewrite bool_decide_eq_false_2 by (by intros [? ?]). reflexivity. }
    by rewrite replace_first_at.
  - intros path version Hsw Hpv Habsent. simpl.
    rewrite Hsw. simpl. rewrite Hpv. simpl.
    by rewrite replace_first_absent.
Qed.

Lemma get_rpath_override_dirs_result_witness :
  get_rpath_override_dirs "OpenMPI" Sample.world
  = (Ok ["/cvmfs/pilot/versions/host_injections/2021.12/software/rpath_overrides/OpenMPI/system/lib";
         "/cvmfs/pilot/versions/host_injections/2021.12/software/rpath_overrides/OpenMPI/system/lib64"],
     Sample.world)
  /\ get_rpath_override_dirs "OpenMPI" (CudaSample.world "" 0)
     = (Raise (EasyBuildError (Msg "$%s is not defined!" [AStr "EESSI_SOFTWARE_PATH"])),
        CudaSample.world "" 0)
  /\ get_rpath_override_dirs "OpenMPI"
       (set_environ (<["EESSI_SOFTWARE_PATH" := "/opt/eessi"]> ∅) Sample.world)
     = (Raise (EasyBuildError (Msg "$%s is not defined!" [AStr "EESSI_PILOT_VERSION"])),
        set_environ (<["EESSI_SOFTWARE_PATH" := "/opt/eessi"]> ∅) Sample.world)
  /\ fst (get_rpath_override_dirs "OpenMPI"
            (set_environ (<["EESSI_SOFTWARE_PATH" := "/opt/eessi"]>
                            (<["EESSI_PILOT_VERSION" := "2021.12"]> ∅)) Sample.world))
     = Ok ["/opt/eessi/rpath_overrides/OpenMPI/system/lib";
           "/opt/eessi/rpath_overrides/OpenMPI/system/lib64"].
Proof.
  split; [|split; [|split]].
  - destruct (get_rpath_override_dirs_result "OpenMPI" Sample.world)
      as (_ & _ & Hat & _).
    rewrite (Hat "/cvmfs/pilot/versions/" "2"%char "021.12" "/software");
      [reflexivity | reflexivity | reflexivity | discriminate | compute_done].
  - destruct (get_rpath_override_dirs_result "OpenMPI" (CudaSample.world "" 0))
      as (Hsw & _).
    apply Hsw. reflexivity.
  - destruct (get_rpath_override_dirs_result "OpenMPI"
                (set_environ (<["EESSI_SOFTWARE_PATH" := "/opt/eessi"]> ∅) Sample.world))
      as (_ & Hpv & _).
    apply Hpv; [by eexists | reflexivity].
  - destruct (get_rpath_override_dirs_result "OpenMPI"
                (set_environ (<["EESSI_SOFTWARE_PATH" := "/opt/eessi"]>
                                (<["EESSI_PILOT_VERSION" := "2021.12"]> ∅)) Sample.world))
      as (_ & _ & _ & Habsent).
    rewrite (Habsent "/opt/eessi" "2021.12"); reflexivity.
Defined.

Lemma get_rpath_override_dirs_pure (software_name : string) (w : World) :
  snd (get_rpath_override_dirs software_name w) = w.
Proof.
  unfold get_rpath_override_dirs, get_eessi_envvar. unfold_monad. simpl.
  destruct (environ w !! "EESSI_SOFTWARE_PATH"); simpl; [|done].
  by destruct (environ w !! "EESSI_PILOT_VERSION").
Qed.

(** The answer of [get_rpath_override_dirs] depends on the environment only. *)
Lemma get_rpath_override_dirs_environ (software_name : string) (w' w : World) :
  environ w' = environ w ->
  fst (get_rpath_override_dirs software_name w')
  = fst (get_rpath_override_dirs software_name w).
Proof.
  intros Henv. unfold get_rpath_override_dirs, get_eessi_envvar. unfold_monad. simpl.
  rewrite Henv.
  destruct (environ w !! "EESSI_SOFTWARE_PATH"); simpl; [|done].
  rewrite Henv. by destruct (environ w !! "EESSI_PILOT_VERSION").
Qed.

(** [pre_prepare_hook] for a toolchain with an MPI family, by the outcome of
    [get_rpath_override_dirs] and the presence of the attribute. *)
Lemma pre_prepare_hook_run (self : EasyBlock) (w : World) (fam : string) :
  mpi_family self = Some fam -> fam <> "" ->
  pre_prepare_hook (self, w)
  = match fst (get_rpath_override_dirs fam w) with
    | Raise e => (Raise e, (self, w))
    | Ok dirs =>
        if bool_decide (is_Some (attrs self !! EESSI_RPATH_OVERRIDE_ATTR)) then
          (Raise (EasyBuildError
                    (Msg "'self' already has attribute %s! Can't use pre_prepare hook."
                         [AStr EESSI_RPATH_OVERRIDE_ATTR])),
           (self, w))
        else
          let old := default None (build_options w !! "rpath_override_dirs") in
          let kept := match old with
                      | Some (String c o) => [String c o]
                      | _ => []
                      end in
          let value := Py.join ":" (kept ++ dirs) in
          (Ok tt,
           (set_attrs (<[EESSI_RPATH_OVERRIDE_ATTR := old]> (attrs self)) self,
            set_stdout
              (stdout w ++
                 [Msg "Updated rpath_override_dirs (to allow overriding MPI family %s): %s"
                      [AStr fam; AStr value]])
              (set_build_options
                 (<["rpath_override_dirs" := Some value]> (build_options w)) w)))
    end.
Proof.
  intros Hfam Hne.
  pose proof (get_rpath_override_dirs_pure fam w) as Hpure.
  unfold pre_prepare_hook. unfold_monad. cbn [fst snd]. rewrite Hfam.
  assert (Py.truthy (Some fam) = true) as -> by (by destruct fam).
  cbn [fst snd].
  destruct (get_rpath_override_dirs fam w) as [[dirs|e] w']; simpl in Hpure; subst w';
    cbn [fst snd]; [|done].
  destruct (bool_decide (is_Some (attrs self !! EESSI_RPATH_OVERRIDE_ATTR))); [done|].
  cbn [fst snd attrs set_attrs]. rewrite lookup_insert_eq. cbn [fst snd].
  by destruct (default None (build_options w !! "rpath_override_dirs")) as [[|c o]|].
Qed.

(** X10.  With an MPI family, the two environment variables defined and no
    attribute on the build step, [pre_prepare_hook] succeeds: it saves the
    current value of the build option [rpath_override_dirs] in the attribute
    [orig_rpath_override_dirs], sets the option to the colon-separated list
    of the former value (when that is a non-empty string) followed by the two
    override directories, and prints one message. *)
Theorem pre_prepare_hook_extends_option (self : EasyBlock) (w : World)
    (fam : string) (dirs : list string) :
  mpi_family self = Some fam -> fam <> "" ->
  get_rpath_override_dirs fam w = (Ok dirs, w) ->
  attrs self !! EESSI_RPATH_OVERRIDE_ATTR = None ->
  let old := default None (build_options w !! "rpath_override_dirs") in
  let kept := match old with
              | Some (String c o) => [String c o]
              | _ => []
              end in
  let value := Py.join ":" (kept ++ dirs) in
  pre_prepare_hook (self, w)
  = (Ok tt,
     (set_attrs (<[EESSI_RPATH_OVERRIDE_ATTR := old]> (attrs self)) self,
      set_stdout
        (stdout w ++
           [Msg "Updated rpath_override_dirs (to allow overriding MPI family %s): %s"
                [AStr fam; AStr value]])
        (set_build_options
           (<["rpath_override_dirs" := Some value]> (build_options w)) w))).
Proof.
  intros Hfam Hne Hdirs Hattr. rewrite (pre_prepare_hook_run self w fam Hfam Hne).
  rewrite Hdirs. cbn [fst]. rewrite Hattr.
  by rewrite bool_decide_eq_false_2 by (by intros [? ?]).
Qed.

Lemma pre_prepare_hook_extends_option_witness :
  let self := Sample.easyblock "OSU-Micro-Benchmarks" (Some "OpenMPI") in
  let after := snd (pre_prepare_hook (self, Sample.world)) in
  attrs (fst after) !! EESSI_RPATH_OVERRIDE_ATTR = Some (Some "/opt/override")
  /\ build_options (snd after) !! "rpath_override_dirs"
     = Some (Some ("/opt/override"
                   +:+ ":/cvmfs/pilot/versions/host_injections/2021.12/software/rpath_overrides/OpenMPI/system/lib"
                   +:+ ":/cvmfs/pilot/versions/host_injections/2021.12/software/rpath_overrides/OpenMPI/system/lib64")).
Proof.
  intros self after. unfold after.
  rewrite (pre_prepare_hook_extends_option self Sample.world "OpenMPI"
             ["/cvmfs/pilot/versions/host_injections/2021.12/software/rpath_overrides/OpenMPI/system/lib";
              "/cvmfs/pilot/versions/host_injections/2021.12/software/rpath_overrides/OpenMPI/system/lib64"]);
    [| reflexivity | discriminate | reflexivity | reflexivity].
  split; reflexivity.
Defined.

(** X11.  When [pre_prepare_hook] raises, it has changed nothing: neither
    the build step nor the build options nor the terminal.  Every error of
    the hook (an undefined environment variable, the attribute already on
    the build step) comes before its first assignment. *)
Theorem pre_prepare_hook_fails_cleanly (self : EasyBlock) (w : World) (e : exn) :
  fst (pre_prepare_hook (self, w)) = Raise e ->
  snd (pre_prepare_hook (self, w)) = (self, w).
Proof.
  destruct (Py.truthy (mpi_family self)) eqn:Htruthy.
  - destruct (mpi_family self) as [fam|] eqn:Hfam; [|done].
    assert (fam <> "") as Hne by (by destruct fam).
    rewrite (pre_prepare_hook_run self w fam Hfam Hne).
    destruct (fst (get_rpath_override_dirs fam w)) as [dirs|e']; [|done].
    by destruct (bool_decide _).
  - by rewrite pre_prepare_hook_falsy.
Qed.

Lemma pre_prepare_hook_fails_cleanly_witness :
  snd (pre_prepare_hook (stale_block (Some "OpenMPI"), Sample.world))
  = (stale_block (Some "OpenMPI"), Sample.world)
  /\ snd (pre_prepare_hook (Sample.easyblock "HPL" (Some "OpenMPI"), CudaSample.world "" 0))
     = (Sample.easyblock "HPL" (Some "OpenMPI"), CudaSample.world "" 0).
Proof.
  split.
  - apply (pre_prepare_hook_fails_cleanly _ _
             (EasyBuildError
                (Msg "'self' already has attribute %s! Can't use pre_prepare hook."
                     [AStr EESSI_RPATH_OVERRIDE_ATTR]))).
    reflexivity.
  - apply (pre_prepare_hook_fails_cleanly _ _
             (EasyBuildError (Msg "$%s is not defined!" [AStr "EESSI_SOFTWARE_PATH"]))).
    reflexivity.
Defined.

(** X12.  [pre_prepare_hook] cannot be run twice in a row for a toolchain
    with an MPI family: after a first successful run, a second run raises
    the "already has attribute" error and leaves the build step and the build
    option as the first run left them. *)
Theorem pre_prepare_hook_twice (self self1 : EasyBlock) (w w1 : World) :
  Py.truthy (mpi_family self) = true ->
  pre_prepare_hook (self, w) = (Ok tt, (self1, w1)) ->
  pre_prepare_hook (self1, w1)
  = (Raise (EasyBuildError
              (Msg "'self' already has attribute %s! Can't use pre_prepare hook."
                   [AStr EESSI_RPATH_OVERRIDE_ATTR])),
     (self1, w1)).
Proof.
  intros Htruthy Hfirst.
  destruct (mpi_family self) as [fam|] eqn:Hfam; [|done].
  assert (fam <> "") as Hne by (by destruct fam).
  rewrite (pre_prepare_hook_run self w fam Hfam Hne) in Hfirst.
  destruct (get_rpath_override_dirs fam w) as [[dirs|e'] w'] eqn:Hdirs;
    cbn [fst] in Hfirst; [|done].
  destruct (bool_decide (is_Some (attrs self !! EESSI_RPATH_OVERRIDE_ATTR))); [done|].
  cbv zeta in Hfirst. injection Hfirst as <- <-.
  rewrite (pre_prepare_hook_run _ _ fam) by done.
  erewrite (get_rpath_override_dirs_environ fam _ w); [|reflexivity].
  rewrite Hdirs. cbn [fst].
  cbn [attrs set_attrs]. rewrite lookup_insert_eq.
  by rewrite bool_decide_eq_true_2 by eauto.
Qed.

Lemma pre_prepare_hook_twice_witness :
  let first := pre_prepare_hook (Sample.easyblock "HPL" (Some "OpenMPI"), Sample.world) in
  pre_prepare_hook (snd first)
  = (Raise (EasyBuildError
              (Msg "'self' already has attribute %s! Can't use pre_prepare hook."
                   [AStr EESSI_RPATH_OVERRIDE_ATTR])),
     snd first).
Proof.
  intros first.
  apply (pre_prepare_hook_twice (Sample.easyblock "HPL" (Some "OpenMPI"))
           (fst (snd first)) Sample.world (snd (snd first))).
  - reflexivity.
  - vm_compute. reflexivity.
Defined.

(** X13.  [post_prepare_hook] always succeeds and leaves the build step
    without the attribute [orig_rpath_override_dirs]; run a second time it
    does nothing. *)
Theorem post_prepare_hook_idempotent (self : EasyBlock) (w : World) :
  fst (post_prepare_hook (self, w)) = Ok tt
  /\ attrs (fst (snd (post_prepare_hook (self, w)))) !! EESSI_RPATH_OVERRIDE_ATTR = None
  /\ post_prepare_hook (snd (post_prepare_hook (self, w)))
     = (Ok tt, snd (post_prepare_hook (self, w))).
Proof.
  destruct (attrs self !! EESSI_RPATH_OVERRIDE_ATTR) as [saved|] eqn:Hattr.
  - assert (post_prepare_hook (self, w)
            = (Ok tt,
               (set_attrs (delete EESSI_RPATH_OVERRIDE_ATTR (attrs self)) self,
                set_stdout
                  (stdout w ++ [Msg "Resetting rpath_override_dirs to original value: %s"
                                    [arg_of_opt saved]])
                  (set_build_options (<["rpath_override_dirs" := saved]> (build_options w))
                     w)))) as ->.
    { unfold post_prepare_hook. unfold_monad. cbn [fst snd]. rewrite Hattr.
      rewrite bool_decide_eq_true_2 by eauto.
      cbn [fst snd]. rewrite Hattr. cbn [fst snd]. rewrite Hattr. cbn [fst snd].
      by rewrite Hattr. }
    cbn [fst snd attrs set_attrs]. rewrite lookup_delete_eq.
    split; [done|]. split; [done|].
    apply post_prepare_hook_without_attribute. cbn [attrs set_attrs].
    apply lookup_delete_eq.
  - rewrite (post_prepare_hook_without_attribute self w Hattr). cbn [fst snd].
    split; [done|]. split; [done|].
    by apply post_prepare_hook_without_attribute.
Qed.

(** ** The pre-configure patchers *)

Lemma set_configopts_same (ec : EasyConfig) : set_configopts (configopts ec) ec = ec.
Proof. by destruct ec. Qed.

Lemma set_cfg_same (self : EasyBlock) : set_cfg (cfg self) self = self.
Proof. by destruct self. Qed.

(** X14.  For a build step named libfabric: on x86_64, when the build option
    [optarch] is [GENERIC] or the CPU has no [avx] feature, the patcher
    appends [--disable-psm3] to [configopts] and prints one message; on
    x86_64 with another [optarch] and with [avx], and on every other
    architecture, it changes nothing.  For another name it raises its
    mismatch error and changes nothing. *)
Theorem libfabric_disable_psm3_cases (self : EasyBlock) (w : World) :
  (name (cfg self) = "libfabric" -> cpu_architecture w = X86_64 ->
   default None (build_options w !! "optarch") = Some OPTARCH_GENERIC
   \/ "avx" ∉ cpu_features w ->
   let opts := appended (configopts (cfg self)) "--disable-psm3" in
   libfabric_disable_psm3_x86_64_generic (self, w)
   = (Ok tt,
      (set_cfg (set_configopts opts (cfg self)) self,
       set_stdout (stdout w ++ [Msg "Using custom configure options for %s: %s"
                                    [AStr "libfabric"; AStr opts]]) w)))
  /\ (name (cfg self) = "libfabric" ->
      cpu_architecture w <> X86_64
      \/ (default None (build_options w !! "optarch") <> Some OPTARCH_GENERIC
          /\ "avx" ∈ cpu_features w) ->
      libfabric_disable_psm3_x86_64_generic (self, w) = (Ok tt, (self, w)))
  /\ (name (cfg self) <> "libfabric" ->
      libfabric_disable_psm3_x86_64_generic (self, w)
      = (Raise (EasyBuildError
                  (Msg "libfabric-specific hook triggered for non-libfabric easyconfig?!" [])),
         (self, w))).
Proof.
  unfold libfabric_disable_psm3_x86_64_generic, update. unfold_monad.
  cbn [fst snd]. split; [|split].
  - intros Hname Harch Hwhy. rewrite decide_True by done. cbn [fst snd].
    rewrite decide_True by done. cbn [fst snd].
    assert (bool_decide (default None (build_options w !! "optarch") = Some OPTARCH_GENERIC)
            || negb (bool_decide ("avx" ∈ cpu_features w)) = true) as ->.
    { destruct Hwhy as [Hgen|Havx].
      - by rewrite (bool_decide_eq_true_2 _ Hgen).
      - rewrite (bool_decide_eq_false_2 _ Havx). apply orb_true_r. }
    simpl. by rewrite Hname.
  - intros Hname Hwhy. rewrite decide_True by done. cbn [fst snd].
    destruct (decide (cpu_architecture w = X86_64)) as [Harch|Harch]; [|done].
    destruct Hwhy as [Hother|[Hgen Havx]]; [done|]. cbn [fst snd].
    by rewrite (bool_decide_eq_false_2 _ Hgen), (bool_decide_eq_true_2 _ Havx).
  - intros Hname. by rewrite decide_False by done.
Qed.

Lemma libfabric_disable_psm3_cases_witness :
  let self := Sample.easyblock "libfabric" None in
  libfabric_disable_psm3_x86_64_generic (self, Sample.world) = (Ok tt, (self, Sample.world))
  /\ configopts
       (cfg (fst (snd (libfabric_disable_psm3_x86_64_generic
                         (self, set_build_options (<["optarch" := Some "GENERIC"]> ∅)
                                  Sample.world)))))
     = "--enable-shared --disable-psm3 "
  /\ fst (libfabric_disable_psm3_x86_64_generic (Sample.easyblock "UCX" None, Sample.world))
     = Raise (EasyBuildError
                (Msg "libfabric-specific hook triggered for non-libfabric easyconfig?!" [])).
Proof.
  intros self. split; [|split].
  - destruct (libfabric_disable_psm3_cases self Sample.world) as (_ & Hsame & _).
    apply Hsame; [reflexivity|]. right. split; [discriminate | compute_done].
  - destruct (libfabric_disable_psm3_cases self
                (set_build_options (<["optarch" := Some "GENERIC"]> ∅) Sample.world))
      as (Happend & _).
    rewrite Happend; [reflexivity | reflexivity | reflexivity | by left].
  - destruct (libfabric_disable_psm3_cases (Sample.easyblock "UCX" None) Sample.world)
      as (_ & _ & Hraise).
    rewrite Hraise; [reflexivity | discriminate].
Defined.

(** X15.  For a build step named WRF: on AArch64 the patcher appends to
    [preconfigopts] the [sed] command that adds [aarch64] to the gfortran
    entry of [arch/configure_new.defaults], and prints one message; on every
    other architecture it changes nothing.  For another name it raises its
    mismatch error and changes nothing. *)
Theorem wrf_preconfigure_cases (self : EasyBlock) (w : World) :
  (name (cfg self) = "WRF" -> cpu_architecture w = AARCH64 ->
   let opts :=
     appended (preconfigopts (cfg self))
       ("sed -i 's/Linux x86_64 ppc64le, gfortran/Linux x86_64 aarch64 ppc64le, gfortran/g'"
        +:+ " arch/configure_new.defaults && ") in
   wrf_preconfigure (self, w)
   = (Ok tt,
      (set_cfg (set_preconfigopts opts (cfg self)) self,
       set_stdout (stdout w ++ [Msg "Using custom preconfigopts for %s: %s"
                                    [AStr "WRF"; AStr opts]]) w)))
  /\ (name (cfg self) = "WRF" -> cpu_architecture w <> AARCH64 ->
      wrf_preconfigure (self, w) = (Ok tt, (self, w)))
  /\ (name (cfg self) <> "WRF" ->
      wrf_preconfigure (self, w)
      = (Raise (EasyBuildError (Msg "WRF-specific hook triggered for non-WRF easyconfig?!" [])),
         (self, w))).
Proof.
  unfold wrf_preconfigure, update. unfold_monad. cbn [fst snd]. split; [|split].
  - intros Hname Harch. rewrite !decide_True by done. simpl. by rewrite Hname.
  - intros Hname Harch. rewrite decide_True by done. cbn [fst snd].
    by rewrite decide_False by done.
  - intros Hname. by rewrite decide_False by done.
Qed.

Lemma wrf_preconfigure_cases_witness :
  let self := Sample.easyblock "WRF" (Some "OpenMPI") in
  let arm := {| environ := ∅; build_options := ∅; cpu_architecture := AARCH64;
                cpu_features := []; filesystem := ∅; os_system := fun _ => 0%Z;
                stdout := [] |} in
  preconfigopts (cfg (fst (snd (wrf_preconfigure (self, arm)))))
  = " sed -i 's/Linux x86_64 ppc64le, gfortran/Linux x86_64 aarch64 ppc64le, gfortran/g' arch/configure_new.defaults &&  "
  /\ wrf_preconfigure (self, Sample.world) = (Ok tt, (self, Sample.world))
  /\ fst (wrf_preconfigure (Sample.easyblock "WPS" None, arm))
     = Raise (EasyBuildError (Msg "WRF-specific hook triggered for non-WRF easyconfig?!" [])).
Proof.
  intros self arm. split; [|split].
  - destruct (wrf_preconfigure_cases self arm) as (Happend & _).
    rewrite Happend; reflexivity.
  - destruct (wrf_preconfigure_cases self Sample.world) as (_ & Hsame & _).
    apply Hsame; [reflexivity | discriminate].
  - destruct (wrf_preconfigure_cases (Sample.easyblock "WPS" None) arm) as (_ & _ & Hraise).
    rewrite Hraise; [reflexivity | discriminate].
Defined.

Section Regex.

Variable repl : string.

Lemma re_match_lit (lit s : string) (rest : list Py.re_atom) :
  Py.re_match (Py.re_lit lit ++ rest) (lit +:+ s) = Py.re_match rest s.
Proof.
  induction lit as [|x lit IH]; [done|].
  rewrite app_cons. cbn [Py.re_lit list_ascii_of_string map app Py.re_match].
  rewrite decide_True by done. exact IH.
Qed.

Lemma re_match_no_prefix (lit s : string) (rest : list Py.re_atom) :
  Py.strip_prefix lit s = None -> Py.re_match (Py.re_lit lit ++ rest) s = None.
Proof.
  revert s. induction lit as [|x lit IH]; intros s Hs; [done|].
  destruct s as [|y s]; [done|].
  cbn [Py.re_lit list_ascii_of_string map app Py.re_match]. simpl in Hs.
  fold (Py.re_lit lit).
  destruct (decide (x = y)) as [->|Hne]; [|done].
  exact (IH s Hs).
Qed.

(** Without an occurrence of the literal start of the pattern, [re.sub]
    returns its argument. *)
Lemma re_sub_absent (lit s : string) (rest : list Py.re_atom) :
  Py.contains s lit = false -> Py.re_sub (Py.re_lit lit ++ rest) repl s = s.
Proof.
  unfold Py.re_sub. induction s as [|x s IH]; intros Hc; [done|].
  apply contains_cons_false in Hc as [Hp Hc].
  cbn [Py.re_sub_scan]. rewrite (re_match_no_prefix _ _ _ Hp). by rewrite IH.
Qed.

(** Characters that differ from the first character of the pattern are
    copied. *)
Lemma re_sub_scan_before (x : ascii) (p : list Py.re_atom) (pre s : string) :
  x ∉ list_ascii_of_string pre ->
  Py.re_sub_scan (Py.Lit x :: p) repl 0 (pre +:+ s)
  = pre +:+ Py.re_sub_scan (Py.Lit x :: p) repl 0 s.
Proof.
  intros Hpre. induction pre as [|y pre IH]; [done|].
  simpl in Hpre. apply not_elem_of_cons in Hpre as [Hne Hpre].
  rewrite !app_cons. cbn [Py.re_sub_scan Py.re_match].
  rewrite decide_False by done. by rewrite IH.
Qed.

(** The bytes of a match that are still to be dropped are dropped. *)
Lemma re_sub_scan_skip (p : list Py.re_atom) (s1 s2 : string) :
  Py.re_sub_scan p repl (String.length s1) (s1 +:+ s2) = Py.re_sub_scan p repl 0 s2.
Proof.
  induction s1 as [|x s1 IH]; [done|].
  rewrite app_cons. cbn [String.length Py.re_sub_scan]. exact IH.
Qed.

Lemma string_length_app (s1 s2 : string) :
  String.length (s1 +:+ s2) = String.length s1 + String.length s2.
Proof. induction s1 as [|x s1 IH]; [done|]. rewrite app_cons. simpl. by rewrite IH. Qed.

(** The continuation bytes of a character end where the next character
    starts. *)
Lemma drop_continuation_app (cont : string) (z : ascii) (post : string) :
  forallb Py.is_continuation (list_ascii_of_string cont) = true ->
  Py.is_continuation z = false ->
  Py.drop_continuation (cont +:+ String z post) = String z post.
Proof.
  intros Hcont Hz. induction cont as [|y cont IH].
  - simpl. by rewrite Hz.
  - simpl in Hcont. apply andb_true_iff in Hcont as [Hy Hcont].
    rewrite app_cons. cbn [Py.drop_continuation]. rewrite Hy. by apply IH.
Qed.

(** [re.sub] at the first match of a pattern made of a literal, one dot and
    one more literal character, when the first character of the literal does
    not occur before the match.  The dot takes the character made of the
    byte [b] and the continuation bytes [cont]. *)
Lemma re_sub_first_match (x b z : ascii) (lit pre cont post : string) :
  x ∉ list_ascii_of_string pre -> b <> "010"%char ->
  forallb Py.is_continuation (list_ascii_of_string cont) = true ->
  Py.is_continuation z = false ->
  Py.re_sub (Py.re_lit (String x lit) ++ [Py.Dot; Py.Lit z]) repl
    (pre +:+ String x lit +:+ String b (cont +:+ String z post))
  = pre +:+ repl +:+ Py.re_sub (Py.re_lit (String x lit) ++ [Py.Dot; Py.Lit z]) repl post.
Proof.
  intros Hpre Hb Hcont Hz. unfold Py.re_sub.
  assert (Py.re_match (Py.re_lit (String x lit) ++ [Py.Dot; Py.Lit z])
            (String x lit +:+ String b (cont +:+ String z post)) = Some post) as Hmatch.
  { rewrite re_match_lit. cbn [Py.re_match].
    rewrite decide_False by done. rewrite drop_continuation_app by done.
    by rewrite decide_True. }
  change (Py.re_lit (String x lit) ++ [Py.Dot; Py.Lit z])%list
    with (Py.Lit x :: (Py.re_lit lit ++ [Py.Dot; Py.Lit z]))%list in *.
  rewrite re_sub_scan_before by done. f_equal.
  rewrite app_cons in *. cbn [Py.re_sub_scan]. rewrite Hmatch. f_equal.
  assert (lit +:+ String b (cont +:+ String z post)
          = (lit +:+ String b (cont +:+ String z "")) +:+ post) as ->.
  { by rewrite !app_assoc, app_cons, app_assoc. }
  rewrite (string_length_app _ post), Nat.add_sub.
  apply re_sub_scan_skip.
Qed.

End Regex.

(** X16.  For a build step named MetaBAT: [configopts] without the text
    [$EBROOTZLIB/lib/libz] are left as they are; in [configopts] where that
    text is followed by any character but a newline and by [a] (the dot of
    the pattern is not escaped), and no dollar sign comes before, this first
    match is replaced by [$EPREFIX/usr/lib64/libz.so] and the substitution
    goes on behind it.  The character that the dot takes is one character of
    the text, in UTF-8 the byte [b] with the continuation bytes [cont]
    behind it (none for an ASCII character).  For another name the patcher
    raises its mismatch error and changes nothing. *)
Theorem metabat_preconfigure_cases (self : EasyBlock) (w : World) :
  let regex := (Py.re_lit "$EBROOTZLIB/lib/libz" ++ [Py.Dot; Py.Lit "a"%char])%list in
  (name (cfg self) = "MetaBAT" ->
   Py.contains (configopts (cfg self)) "$EBROOTZLIB/lib/libz" = false ->
   metabat_preconfigure (self, w) = (Ok tt, (self, w)))
  /\ (forall pre b cont post,
        name (cfg self) = "MetaBAT" ->
        configopts (cfg self)
        = pre +:+ "$EBROOTZLIB/lib/libz" +:+ String b (cont +:+ String "a" post) ->
        "$"%char ∉ list_ascii_of_string pre -> b <> "010"%char ->
        forallb Py.is_continuation (list_ascii_of_string cont) = true ->
        metabat_preconfigure (self, w)
        = (Ok tt,
           (set_cfg
              (set_configopts
                 (pre +:+ "$EPREFIX/usr/lib64/libz.so"
                    +:+ Py.re_sub regex "$EPREFIX/usr/lib64/libz.so" post)
                 (cfg self)) self,
            w)))
  /\ (name (cfg self) <> "MetaBAT" ->
      metabat_preconfigure (self, w)
      = (Raise (EasyBuildError
                  (Msg "MetaBAT-specific hook triggered for non-MetaBAT easyconfig?!" [])),
         (self, w))).
Proof.
  intros regex. unfold metabat_preconfigure. unfold_monad. cbn [fst snd].
  split; [|split].
  - intros Hname Habsent. rewrite decide_True by done. cbn [fst snd].
    rewrite (re_sub_absent _ "$EBROOTZLIB/lib/libz") by done.
    by rewrite set_configopts_same, set_cfg_same.
  - intros pre b cont post Hname Hopts Hpre Hb Hcont. rewrite decide_True by done.
    cbn [fst snd]. rewrite Hopts.
    by rewrite (re_sub_first_match _ "$"%char b "a"%char "EBROOTZLIB/lib/libz").
  - intros Hname. by rewrite decide_False by done.
Qed.

Lemma metabat_preconfigure_cases_witness :
  let self opts :=
    {| cfg := set_configopts opts (Sample.easyconfig "MetaBAT" "gompi" []);
       mpi_family := Some "OpenMPI"; installdir := "/opt/MetaBAT"; attrs := ∅ |} in
  let e_acute := String "195"%char (String "169"%char "") in
  metabat_preconfigure (self "-DCMAKE_BUILD_TYPE=Release", Sample.world)
  = (Ok tt, (self "-DCMAKE_BUILD_TYPE=Release", Sample.world))
  /\ configopts (cfg (fst (snd (metabat_preconfigure
                                  (self "-DZLIB=$EBROOTZLIB/lib/libz.a -DZ2=$EBROOTZLIB/lib/libzxa",
                                   Sample.world)))))
     = "-DZLIB=$EPREFIX/usr/lib64/libz.so -DZ2=$EPREFIX/usr/lib64/libz.so"
  /\ configopts (cfg (fst (snd (metabat_preconfigure
                                  (self ("-DZLIB=$EBROOTZLIB/lib/libz" +:+ e_acute +:+ "a -O2"),
                                   Sample.world)))))
     = "-DZLIB=$EPREFIX/usr/lib64/libz.so -O2"
  /\ fst (metabat_preconfigure (Sample.easyblock "zlib" None, Sample.world))
     = Raise (EasyBuildError
                (Msg "MetaBAT-specific hook triggered for non-MetaBAT easyconfig?!" [])).
Proof.
  intros self e_acute. split; [|split; [|split]].
  - destruct (metabat_preconfigure_cases (self "-DCMAKE_BUILD_TYPE=Release") Sample.world)
      as (Hsame & _).
    apply Hsame; reflexivity.
  - destruct (metabat_preconfigure_cases
                (self "-DZLIB=$EBROOTZLIB/lib/libz.a -DZ2=$EBROOTZLIB/lib/libzxa")
                Sample.world) as (_ & Hsub & _).
    rewrite (Hsub "-DZLIB=" "."%char "" " -DZ2=$EBROOTZLIB/lib/libzxa");
      [reflexivity | reflexivity | reflexivity | compute_done | discriminate | reflexivity].
  - destruct (metabat_preconfigure_cases
                (self ("-DZLIB=$EBROOTZLIB/lib/libz" +:+ e_acute +:+ "a -O2"))
                Sample.world) as (_ & Hsub & _).
    rewrite (Hsub "-DZLIB=" "195"%char (String "169"%char "") " -O2");
      [reflexivity | reflexivity | reflexivity | compute_done | discriminate | reflexivity].
  - destruct (metabat_preconfigure_cases (Sample.easyblock "zlib" None) Sample.world)
      as (_ & _ & Hraise).
    rewrite Hraise; [reflexivity | discriminate].
Defined.

(** ** More on the CUDA redistribution filter *)

(** X17.  When the install directory does not exist, or holds neither a
    file nor a link nor a subdirectory called [EULA.txt],
    [cuda_postpackage] stops with the [FileNotFoundError] of [open]; when
    [EULA.txt] is a subdirectory, it stops with the [IsADirectoryError] of
    [open].  Either way it stops after its first message and before any
    other effect: no file is removed and no link is made. *)
Theorem cuda_postpackage_without_eula (self : EasyBlock) (w : World) :
  let eula_path := Py.path_join (installdir self) ["EULA.txt"] in
  ((filesystem w !! installdir self = None
    \/ exists files subdirs,
         filesystem w !! installdir self = Some (Dir files subdirs)
         /\ entry "EULA.txt" files = None /\ entry "EULA.txt" subdirs = None) ->
   cuda_postpackage (self, w) = (Raise (FileNotFoundError eula_path), (self, announced w)))
  /\ ((exists files subdirs,
         filesystem w !! installdir self = Some (Dir files subdirs)
         /\ entry "EULA.txt" files = None /\ is_Some (entry "EULA.txt" subdirs)) ->
      cuda_postpackage (self, w) = (Raise (IsADirectoryError eula_path), (self, announced w)))
  /\ filesystem (announced w) = filesystem w.
Proof.
  intros eula_path. split; [|split; [|done]].
  - intros Hmissing.
    unfold cuda_postpackage, read_text. unfold_monad. cbn [fst snd].
    cbn [filesystem set_stdout].
    destruct Hmissing as [Hnone|(files & subdirs & Hdir & Hentry & Hsub)].
    + by rewrite Hnone.
    + by rewrite Hdir, Hentry, Hsub.
  - intros (files & subdirs & Hdir & Hentry & [sub Hsub]).
    unfold cuda_postpackage, read_text. unfold_monad. cbn [fst snd].
    cbn [filesystem set_stdout]. by rewrite Hdir, Hentry, Hsub.
Qed.

Lemma cuda_postpackage_without_eula_witness :
  let w := set_filesystem (<[CudaSample.top := Dir [] [("EULA.txt", Dir [] [])]]> ∅)
             Sample.world in
  cuda_postpackage (CudaSample.block, Sample.world)
  = (Raise (FileNotFoundError
              "/cvmfs/pilot/versions/2021.12/software/CUDA/11.4.1/EULA.txt"),
     (CudaSample.block, announced Sample.world))
  /\ cuda_postpackage (CudaSample.block, w)
     = (Raise (IsADirectoryError
                 "/cvmfs/pilot/versions/2021.12/software/CUDA/11.4.1/EULA.txt"),
        (CudaSample.block, announced w)).
Proof.
  intros w. split.
  - destruct (cuda_postpackage_without_eula CudaSample.block Sample.world) as [Hraise _].
    apply Hraise. left. reflexivity.
  - destruct (cuda_postpackage_without_eula CudaSample.block w) as (_ & Hraise & _).
    apply Hraise. exists [], [("EULA.txt", Dir [] [])].
    split; [reflexivity|]. split; [reflexivity|]. by eexists.
Defined.

Lemma attachment_lines_without_marker (infile : list string) :
  Forall (fun line => Py.strip line <> "2.6. Attachment A") infile ->
  attachment_lines false infile = [].
Proof.
  induction 1 as [|line rest Hline _ IH]; [done|].
  simpl. rewrite decide_False by done.
  by destruct (decide (Py.strip line = "2.7. Attachment B")).
Qed.

(** X18.  When no line of the EULA text is the marker [2.6. Attachment A]
    (surrounding blanks apart), nothing is harvested, the whitelist is
    [EULA] alone, and [cuda_postpackage] raises the "Did not find
    'libcudart'" error without touching the install tree: a change of the
    format of the EULA cannot make the filter delete everything. *)
Theorem cuda_postpackage_without_marker (self : EasyBlock) (w : World) files subdirs eula :
  filesystem w !! installdir self = Some (Dir files subdirs) ->
  entry "EULA.txt" files = Some (File eula) ->
  Forall (fun line => Py.strip line <> "2.6. Attachment A") (Py.lines eula) ->
  whitelist_of eula = ["EULA"]
  /\ cuda_postpackage (self, w)
     = (Raise (EasyBuildError
                 (Msg "Did not find 'libcudart' in whitelist: %s" [AList ["EULA"]])),
        (self, announced w))
  /\ filesystem (announced w) = filesystem w.
Proof.
  intros Hfs Heula Hlines.
  assert (whitelist_of eula = ["EULA"]) as Hwl.
  { unfold whitelist_of. by rewrite attachment_lines_without_marker. }
  split; [done|]. split; [|done].
  rewrite (cuda_postpackage_libcudart_missing self w files subdirs eula Hfs Heula);
    rewrite Hwl; [done | compute_done | compute_done].
Qed.

Lemma cuda_postpackage_without_marker_witness :
  let eula := "Attachment A" +:+ nl +:+ "libcudart.so" +:+ nl +:+ "2.7. Attachment B" +:+ nl in
  cuda_postpackage (CudaSample.block, CudaSample.world eula 0)
  = (Raise (EasyBuildError
              (Msg "Did not find 'libcudart' in whitelist: %s" [AList ["EULA"]])),
     (CudaSample.block, announced (CudaSample.world eula 0))).
Proof.
  intros eula.
  destruct (cuda_postpackage_without_marker CudaSample.block (CudaSample.world eula 0)
              (CudaSample.files eula) CudaSample.subdirs eula eq_refl eq_refl)
    as (_ & Hraise & _).
  - repeat (apply Forall_cons; split; [compute_done|]). apply Forall_nil. done.
  - exact Hraise.
Defined.

Section Refilter.

Variable whitelist : list string.

(** An entry that the filter has produced is left alone by the filter. *)
Lemma filtered_entry_fixed (root : string) (e : string * leaf) :
  filtered_entry whitelist root (filtered_entry whitelist root e)
  = filtered_entry whitelist root e.
Proof.
  destruct e as [filename [content|target]]; [|done]. simpl.
  destruct (bool_decide (Py.before_dot filename ∈ whitelist)) eqn:Hstem; simpl;
    by rewrite ?Hstem.
Qed.

(** On a listing that the filter has produced, the walk issues no command. *)
Lemma visit_files_filtered (system : string -> Z) (root : string)
    (files : list (string * leaf)) :
  visit_files system whitelist root (map (filtered_entry whitelist root) files)
  = (Ok tt, map (filtered_entry whitelist root) files).
Proof.
  induction files as [|[filename [content|target]] rest IH]; [done| |].
  - cbn [map filtered_entry].
    destruct (bool_decide (Py.before_dot filename ∈ whitelist)) eqn:Hstem.
    + cbn [visit_files]. by rewrite Hstem, IH.
    + cbn [visit_files]. by rewrite IH.
  - cbn [map filtered_entry visit_files]. by rewrite IH.
Qed.

Lemma walk_filtered (system : string -> Z) (root : string) (d : dir) :
  walk system whitelist root (filtered whitelist root d)
  = (Ok tt, filtered whitelist root d).
Proof.
  revert root. induction d as [files subdirs IH] using dir_tree_ind. intros root.
  cbn [filtered walk]. rewrite visit_files_filtered.
  match goal with
  | |- (let '(_, _) := ?run in _) = _ =>
      assert (run
              = (Ok tt,
                 map (fun e => (fst e, filtered whitelist (Py.path_join root [fst e]) (snd e)))
                     subdirs)) as ->; [|done]
  end.
  induction subdirs as [|[dirname sub] rest IHrest]; [done|].
  apply Forall_cons in IH as [Hhead Htail]. cbn [map each_subdir fst snd] in *.
  rewrite Hhead. by rewrite (IHrest Htail).
Qed.

Lemma entry_filtered (root k content : string) (files : list (string * leaf)) :
  entry k files = Some (File content) ->
  Py.before_dot k ∈ whitelist ->
  entry k (map (filtered_entry whitelist root) files) = Some (File content).
Proof.
  intros Hentry Hstem. induction files as [|[k' l] rest IH]; [done|].
  simpl in Hentry.
  assert (fst (filtered_entry whitelist root (k', l)) = k') as Hname.
  { destruct l; simpl; [by destruct (bool_decide _)|done]. }
  cbn [map]. destruct (filtered_entry whitelist root (k', l)) as [k'' l'] eqn:He.
  simpl in Hname. subst k''. cbn [entry].
  destruct (decide (k = k')) as [<-|Hne]; [|by apply IH].
  injection Hentry as ->. simpl in He.
  rewrite bool_decide_eq_true_2 in He by done. by injection He as <-.
Qed.

(** A link of the tree is still there after filtering. *)
Lemma filtered_keeps_links (root : string) (d : dir) (path filename target : string) :
  file_at root d path filename (Symlink target) ->
  file_at root (filtered whitelist root d) path filename (Symlink target).
Proof.
  intros Hat. remember (Symlink target) as l eqn:Hl.
  induction Hat as [root files subdirs filename l Hin
                   |root files subdirs dirname sub path filename l Hin Hat IH]; subst l.
  - cbn [filtered]. apply file_here.
    by apply (list_elem_of_fmap_2 (filtered_entry whitelist root)) in Hin.
  - cbn [filtered]. eapply file_below; [|by apply IH].
    apply (list_elem_of_fmap_2
             (fun e => (fst e, filtered whitelist (Py.path_join root [fst e]) (snd e)))
             _ (dirname, sub) Hin).
Qed.

End Refilter.

(** [s.replace(old, new)] when [old] does not occur in [s]. *)
Lemma replace_absent (old new s : string) :
  Py.contains s old = false -> Py.replace old new s = s.
Proof.
  destruct old as [|c old].
  { intros Hc. destruct s; simpl in Hc; discriminate. }
  unfold Py.replace. induction s as [|x s IH]; intros Hc; [done|].
  apply contains_cons_false in Hc as [Hp Hc].
  cbn [Py.replace_scan]. rewrite Hp. by rewrite IH.
Qed.

(** What a successful run of [cuda_postpackage] leaves. *)
Lemma cuda_postpackage_ok (self self' : EasyBlock) (w w' : World) files subdirs eula :
  filesystem w !! installdir self = Some (Dir files subdirs) ->
  entry "EULA.txt" files = Some (File eula) ->
  cuda_postpackage (self, w) = (Ok tt, (self', w')) ->
  ("nvcc" ∉ whitelist_of eula) /\ ("libcudart" ∈ whitelist_of eula)
  /\ self' = self
  /\ w' = set_filesystem
            (<[installdir self :=
                 filtered (whitelist_of eula) (installdir self) (Dir files subdirs)]>
               (filesystem w))
            (announced w).
Proof.
  intros Hfs Heula Hrun.
  destruct (decide ("nvcc" ∈ whitelist_of eula)) as [Hnvcc|Hnvcc].
  { by rewrite (cuda_postpackage_nvcc_listed self w files subdirs eula) in Hrun. }
  destruct (decide ("libcudart" ∈ whitelist_of eula)) as [Hcudart|Hcudart]; cycle 1.
  { by rewrite (cuda_postpackage_libcudart_missing self w files subdirs eula) in Hrun. }
  rewrite (cuda_postpackage_checked self w files subdirs eula) in Hrun by done.
  destruct (walk (os_system w) (whitelist_of eula) (installdir self) (Dir files subdirs))
    as [r d'] eqn:Hwalk.
  cbn [fst snd] in Hrun. injection Hrun as -> <- <-.
  by apply walk_ok in Hwalk as ->.
Qed.

(** X19.  After a successful run of [cuda_postpackage], a second run on the
    same install tree succeeds too, whatever the [ln] command would answer,
    and leaves every directory tree as it is: [EULA.txt] is still there to
    be read (the whitelist is seeded with [EULA]) and no regular file is
    left that is not in the whitelist. *)
Theorem cuda_postpackage_second_run
    (self self' : EasyBlock) (w w' w2 : World) files subdirs eula :
  filesystem w !! installdir self = Some (Dir files subdirs) ->
  entry "EULA.txt" files = Some (File eula) ->
  cuda_postpackage (self, w) = (Ok tt, (self', w')) ->
  filesystem w2 = filesystem w' ->
  fst (cuda_postpackage (self', w2)) = Ok tt
  /\ filesystem (snd (snd (cuda_postpackage (self', w2)))) = filesystem w2.
Proof.
  intros Hfs Heula Hrun Hsame.
  destruct (cuda_postpackage_ok self self' w w' files subdirs eula Hfs Heula Hrun)
    as (Hnvcc & Hcudart & -> & ->).
  cbn [filesystem set_filesystem] in Hsame.
  assert ("EULA" ∈ whitelist_of eula) as Hseed.
  { apply elem_of_whitelist_of. by left. }
  rewrite (cuda_postpackage_checked self w2
             (map (filtered_entry (whitelist_of eula) (installdir self)) files)
             (map (fun e => (fst e,
                             filtered (whitelist_of eula)
                               (Py.path_join (installdir self) [fst e]) (snd e))) subdirs)
             eula);
    [| by rewrite Hsame, lookup_insert_eq | by apply entry_filtered | done | done].
  pose proof (walk_filtered (whitelist_of eula) (os_system w2) (installdir self)
                (Dir files subdirs)) as Hwalk.
  cbn [filtered] in Hwalk. rewrite Hwalk. cbn [fst snd filesystem set_filesystem].
  split; [done|]. rewrite Hsame. apply insert_insert_eq.
Qed.

Lemma cuda_postpackage_second_run_witness :
  let first := cuda_postpackage (CudaSample.block, CudaSample.world CudaSample.good_eula 0) in
  let w2 := {| environ := ∅; build_options := ∅; cpu_architecture := X86_64;
               cpu_features := []; filesystem := filesystem (snd (snd first));
               os_system := fun _ => 1%Z; stdout := [] |} in
  fst (cuda_postpackage (CudaSample.block, w2)) = Ok tt
  /\ filesystem (snd (snd (cuda_postpackage (CudaSample.block, w2)))) = filesystem w2.
Proof.
  intros first w2.
  apply (cuda_postpackage_second_run CudaSample.block (fst (snd first))
           (CudaSample.world CudaSample.good_eula 0) (snd (snd first)) w2
           (CudaSample.files CudaSample.good_eula) CudaSample.subdirs CudaSample.good_eula).
  - reflexivity.
  - reflexivity.
  - vm_compute. reflexivity.
  - reflexivity.
Defined.

(** X20.  The EULA text is plain ASCII, and the path and the link target of
    every regular file outside the whitelist are plain words for the shell.
    A run of [cuda_postpackage] that returns leaves every symbolic link of
    the install tree in place, with its target, whatever its name; and a
    regular file outside the whitelist whose path does not contain
    [versions] is replaced by a link that points to its own path. *)
Theorem cuda_postpackage_links
    (self self' : EasyBlock) (w w' : World) files subdirs eula :
  filesystem w !! installdir self = Some (Dir files subdirs) ->
  entry "EULA.txt" files = Some (File eula) ->
  Py.is_ascii eula = true ->
  (forall path filename content,
     file_at (installdir self) (Dir files subdirs) path filename (File content) ->
     ~ whitelisted eula (Py.before_dot filename) ->
     shell_plain path = true
     /\ shell_plain (Py.replace "versions" "host_injections" path) = true) ->
  cuda_postpackage (self, w) = (Ok tt, (self', w')) ->
  exists d',
    filesystem w' !! installdir self = Some d'
    /\ (forall path filename target,
          file_at (installdir self) (Dir files subdirs) path filename (Symlink target) ->
          file_at (installdir self) d' path filename (Symlink target))
    /\ (forall path filename content,
          file_at (installdir self) (Dir files subdirs) path filename (File content) ->
          ~ whitelisted eula (Py.before_dot filename) ->
          Py.contains path "versions" = false ->
          file_at (installdir self) d' path filename (Symlink path)).
Proof.
  intros Hfs Heula _ _ Hrun.
  destruct (cuda_postpackage_ok self self' w w' files subdirs eula Hfs Heula Hrun)
    as (_ & _ & -> & ->).
  eexists. split; [apply lookup_insert_eq|]. split.
  - intros path filename target Hat. by apply filtered_keeps_links.
  - intros path filename content Hat Hstem Hpath.
    destruct (filtered_keeps_or_links (whitelist_of eula) _ _ _ _ _ Hat) as [_ Hlink].
    rewrite (replace_absent "versions" "host_injections" path Hpath) in Hlink.
    apply Hlink. by rewrite elem_of_whitelist_of.
Qed.

Lemma cuda_postpackage_links_witness :
  let tree := Dir [("EULA.txt", File CudaSample.good_eula); ("nvvp", File "#!/bin/sh")] [] in
  let w := {| environ := ∅; build_options := ∅; cpu_architecture := X86_64;
              cpu_features := []; filesystem := <["/opt/cuda" := tree]> ∅;
              os_system := fun _ => 0%Z; stdout := [] |} in
  let self := {| cfg := Sample.easyconfig "CUDA" "system" []; mpi_family := None;
                 installdir := "/opt/cuda"; attrs := ∅ |} in
  exists d',
    filesystem (snd (snd (cuda_postpackage (self, w)))) !! "/opt/cuda" = Some d'
    /\ file_at "/opt/cuda" d' "/opt/cuda/nvvp" "nvvp" (Symlink "/opt/cuda/nvvp").
Proof.
  intros tree w self.
  destruct (cuda_postpackage_links self (fst (snd (cuda_postpackage (self, w)))) w
              (snd (snd (cuda_postpackage (self, w))))
              [("EULA.txt", File CudaSample.good_eula); ("nvvp", File "#!/bin/sh")] []
              CudaSample.good_eula)
    as (d' & Hd' & _ & Hself).
  - reflexivity.
  - reflexivity.
  - reflexivity.
  - intros path filename content Hat Hstem.
    rewrite <- elem_of_whitelist_of in Hstem.
    refine (walk_ok_plain (fun _ => 0%Z) (whitelist_of CudaSample.good_eula) "/opt/cuda" _
              (snd (walk (fun _ => 0%Z) (whitelist_of CudaSample.good_eula) "/opt/cuda" tree))
              _ path filename content Hat Hstem).
    vm_compute. reflexivity.
  - vm_compute. reflexivity.
  - exists d'. split; [exact Hd'|].
    apply (Hself "/opt/cuda/nvvp" "nvvp" "#!/bin/sh").
    + apply (file_here "/opt/cuda" _ [] "nvvp" (File "#!/bin/sh")).
      apply elem_of_cons. right. apply elem_of_cons. by left.
    + rewrite <- elem_of_whitelist_of. compute_done.
    + reflexivity.
Defined.




(** ** What each hook can change *)

Lemma POST_PACKAGE_HOOKS_lookup (n : string) :
  POST_PACKAGE_HOOKS !! n = if decide ("CUDA" = n) then Some cuda_postpackage else None.
Proof. unfold POST_PACKAGE_HOOKS. by rewrite lookup_insert, lookup_empty. Qed.

Lemma parse_hook_world (ec : EasyConfig) (w : World) :
  let w' := snd (snd (parse_hook (ec, w))) in
  environ w' = environ w /\ build_options w' = build_options w
  /\ filesystem w' = filesystem w.
Proof.
  destruct (environ w !! "EPREFIX") as [eprefix|] eqn:Henv.
  - rewrite (parse_hook_with_eprefix ec w eprefix Henv), PARSE_HOOKS_lookup.
    destruct (decide ("CGAL" = name ec)).
    { unfold cgal_toolchainopts_precise. unfold_monad. simpl.
      rewrite decide_True by done. simpl.
      by destruct (decide (cpu_architecture w = POWER)). }
    destruct (decide ("fontconfig" = name ec)).
    { unfold fontconfig_add_fonts, update. unfold_monad. simpl.
      by rewrite decide_True by done. }
    destruct (decide ("UCX" = name ec)); [|done].
    unfold ucx_eprefix, update. unfold_monad. simpl.
    by rewrite decide_True by done.
  - unfold parse_hook, get_eessi_envvar. unfold_monad. simpl. by rewrite Henv.
Qed.

Lemma pre_configure_hook_state (self : EasyBlock) (w : World) :
  let self' := fst (snd (pre_configure_hook (self, w))) in
  let w' := snd (snd (pre_configure_hook (self, w))) in
  (environ w' = environ w /\ build_options w' = build_options w
   /\ filesystem w' = filesystem w)
  /\ attrs self' = attrs self /\ installdir self' = installdir self
  /\ name (cfg self') = name (cfg self)
  /\ dependencies (cfg self') = dependencies (cfg self)
  /\ builddependencies (cfg self') = builddependencies (cfg self).
Proof.
  unfold pre_configure_hook. unfold_monad. simpl. rewrite PRE_CONFIGURE_HOOKS_lookup.
  destruct (decide ("libfabric" = name (cfg self))).
  { unfold libfabric_disable_psm3_x86_64_generic, update. unfold_monad. simpl.
    rewrite decide_True by done. simpl.
    destruct (decide (cpu_architecture w = X86_64)); [|done]. simpl.
    by destruct (_ || _). }
  destruct (decide ("MetaBAT" = name (cfg self))).
  { unfold metabat_preconfigure. unfold_monad. simpl. by rewrite decide_True by done. }
  destruct (decide ("WRF" = name (cfg self))); [|done].
  unfold wrf_preconfigure, update. unfold_monad. simpl.
  rewrite decide_True by done. simpl.
  by destruct (decide (cpu_architecture w = AARCH64)).
Qed.

Lemma pre_prepare_hook_state (self : EasyBlock) (w : World) :
  let self' := fst (snd (pre_prepare_hook (self, w))) in
  let w' := snd (snd (pre_prepare_hook (self, w))) in
  environ w' = environ w /\ filesystem w' = filesystem w /\ cfg self' = cfg self.
Proof.
  destruct (Py.truthy (mpi_family self)) eqn:Htruthy.
  - destruct (mpi_family self) as [fam|] eqn:Hfam; [|done].
    assert (fam <> "") as Hne by (by destruct fam).
    rewrite (pre_prepare_hook_run self w fam Hfam Hne).
    destruct (fst (get_rpath_override_dirs fam w)) as [dirs|e']; [|done].
    by destruct (bool_decide _).
  - by rewrite pre_prepare_hook_falsy.
Qed.

Lemma post_prepare_hook_state (self : EasyBlock) (w : World) :
  let self' := fst (snd (post_prepare_hook (self, w))) in
  let w' := snd (snd (post_prepare_hook (self, w))) in
  environ w' = environ w /\ filesystem w' = filesystem w /\ cfg self' = cfg self.
Proof.
  destruct (attrs self !! EESSI_RPATH_OVERRIDE_ATTR) as [saved|] eqn:Hattr.
  - unfold post_prepare_hook. unfold_monad. cbn [fst snd]. rewrite Hattr.
    rewrite bool_decide_eq_true_2 by eauto.
    cbn [fst snd]. rewrite Hattr. cbn [fst snd]. rewrite Hattr. cbn [fst snd].
    by rewrite Hattr.
  - by rewrite (post_prepare_hook_without_attribute self w Hattr).
Qed.

Lemma cuda_postpackage_state (self : EasyBlock) (w : World) :
  let self' := fst (snd (cuda_postpackage (self, w))) in
  let w' := snd (snd (cuda_postpackage (self, w))) in
  self' = self /\ environ w' = environ w /\ build_options w' = build_options w.
Proof.
  unfold cuda_postpackage, read_text, walk_installdir. unfold_monad. cbn [fst snd].
  cbn [filesystem set_stdout].
  destruct (filesystem w !! installdir self) as [[files subdirs]|] eqn:Hfs; [|done].
  destruct (entry "EULA.txt" files) as [[eula|target]|]; [|done|]; cycle 1.
  { by destruct (entry "EULA.txt" subdirs). }
  cbn [fst snd].
  destruct (bool_decide ("nvcc" ∈ whitelist_of eula)); [done|].
  destruct (bool_decide ("libcudart" ∈ whitelist_of eula)); [|done].
  cbn [negb fst snd filesystem set_stdout os_system]. rewrite Hfs.
  by destruct (walk _ _ _ _).
Qed.

(** X22.  What each hook can change.  The parse hook and the pre-configure
    hook leave the environment, the build options and the directory trees as
    they are; the pre-configure hook also leaves the attributes and the
    install directory of the build step, and the name and the dependency
    lists of its easyconfig.  The two prepare hooks leave the environment,
    the directory trees and the easyconfig of the build step as they are.
    The post-package hook leaves the build step, the environment and the
    build options as they are. *)
Theorem hooks_effects :
  (forall (ec : EasyConfig) (w : World),
     let w' := snd (snd (parse_hook (ec, w))) in
     environ w' = environ w /\ build_options w' = build_options w
     /\ filesystem w' = filesystem w)
  /\ (forall (self : EasyBlock) (w : World),
        let self' := fst (snd (pre_configure_hook (self, w))) in
        let w' := snd (snd (pre_configure_hook (self, w))) in
        (environ w' = environ w /\ build_options w' = build_options w
         /\ filesystem w' = filesystem w)
        /\ attrs self' = attrs self /\ installdir self' = installdir self
        /\ name (cfg self') = name (cfg self)
        /\ dependencies (cfg self') = dependencies (cfg self)
        /\ builddependencies (cfg self') = builddependencies (cfg self))
  /\ (forall (self : EasyBlock) (w : World),
        let self' := fst (snd (pre_prepare_hook (self, w))) in
        let w' := snd (snd (pre_prepare_hook (self, w))) in
        environ w' = environ w /\ filesystem w' = filesystem w /\ cfg self' = cfg self)
  /\ (forall (self : EasyBlock) (w : World),
        let self' := fst (snd (post_prepare_hook (self, w))) in
        let w' := snd (snd (post_prepare_hook (self, w))) in
        environ w' = environ w /\ filesystem w' = filesystem w /\ cfg self' = cfg self)
  /\ (forall (self : EasyBlock) (w : World),
        let self' := fst (snd (post_package_hook (self, w))) in
        let w' := snd (snd (post_package_hook (self, w))) in
        self' = self /\ environ w' = environ w /\ build_options w' = build_options w).
Proof.
  split; [exact parse_hook_world|].
  split; [exact pre_configure_hook_state|].
  split; [exact pre_prepare_hook_state|].
  split; [exact post_prepare_hook_state|].
  intros self w. unfold post_package_hook. unfold_monad. cbn [fst snd].
  rewrite POST_PACKAGE_HOOKS_lookup.
  destruct (decide ("CUDA" = name (cfg self))); [|done].
  apply cuda_postpackage_state.
Qed.

(** ** The prepare hooks over the life of a build step *)

Lemma pre_prepare_hook_family (self : EasyBlock) (w : World) :
  let self' := fst (snd (pre_prepare_hook (self, w))) in
  mpi_family self' = mpi_family self
  /\ (attrs self' = attrs self \/ Py.truthy (mpi_family self) = true).
Proof.
  destruct (Py.truthy (mpi_family self)) eqn:Htruthy.
  - destruct (mpi_family self) as [fam|] eqn:Hfam; [|done].
    assert (fam <> "") as Hne by (by destruct fam).
    rewrite (pre_prepare_hook_run self w fam Hfam Hne).
    destruct (fst (get_rpath_override_dirs fam w)) as [dirs|e']; [|by split; [|right]].
    destruct (bool_decide _); by split; [|right].
  - rewrite pre_prepare_hook_falsy by done. by split; [|left].
Qed.

Lemma post_prepare_hook_family (self : EasyBlock) (w : World) :
  let self' := fst (snd (post_prepare_hook (self, w))) in
  mpi_family self' = mpi_family self
  /\ attrs self' !! EESSI_RPATH_OVERRIDE_ATTR = None.
Proof.
  destruct (attrs self !! EESSI_RPATH_OVERRIDE_ATTR) as [saved|] eqn:Hattr.
  - unfold post_prepare_hook. unfold_monad. cbn [fst snd]. rewrite Hattr.
    rewrite bool_decide_eq_true_2 by eauto.
    cbn [fst snd]. rewrite Hattr. cbn [fst snd]. rewrite Hattr. cbn [fst snd].
    rewrite Hattr. cbn [fst snd]. split; [done|]. apply lookup_delete_eq.
  - by rewrite (post_prepare_hook_without_attribute self w Hattr).
Qed.

Lemma pre_configure_hook_family (self : EasyBlock) (w : World) :
  mpi_family (fst (snd (pre_configure_hook (self, w)))) = mpi_family self.
Proof.
  unfold pre_configure_hook. unfold_monad. simpl. rewrite PRE_CONFIGURE_HOOKS_lookup.
  destruct (decide ("libfabric" = name (cfg self))).
  { unfold libfabric_disable_psm3_x86_64_generic, update. unfold_monad. simpl.
    rewrite decide_True by done. simpl.
    destruct (decide (cpu_architecture w = X86_64)); [|done]. simpl.
    by destruct (_ || _). }
  destruct (decide ("MetaBAT" = name (cfg self))).
  { unfold metabat_preconfigure. unfold_monad. simpl. by rewrite decide_True by done. }
  destruct (decide ("WRF" = name (cfg self))); [|done].
  unfold wrf_preconfigure, update. unfold_monad. simpl.
  rewrite decide_True by done. simpl.
  by destruct (decide (cpu_architecture w = AARCH64)).
Qed.

Lemma post_package_hook_self (self : EasyBlock) (w : World) :
  fst (snd (post_package_hook (self, w))) = self.
Proof.
  unfold post_package_hook. unfold_monad. cbn [fst snd].
  rewrite POST_PACKAGE_HOOKS_lookup.
  destruct (decide ("CUDA" = name (cfg self))); [|done].
  apply cuda_postpackage_state.
Qed.

(** A build step carries the attribute only between the two prepare hooks of
    a toolchain with an MPI family. *)
Lemma reachable_attribute (self : EasyBlock) :
  reachable self ->
  Py.truthy (mpi_family self) = false ->
  attrs self !! EESSI_RPATH_OVERRIDE_ATTR = None.
Proof.
  induction 1 as [self Hattr|self w _ IH|self w _ IH|self w _ IH|self w _ IH
                 |self self' _ IH Hfam Hattrs]; intros Hfalsy.
  - done.
  - destruct (pre_prepare_hook_family self w) as [Hfam [Hsame|Htruthy]].
    + rewrite Hsame. apply IH. by rewrite <- Hfam.
    + rewrite Hfam in Hfalsy. congruence.
  - apply post_prepare_hook_family.
  - destruct (pre_configure_hook_state self w) as (_ & -> & _).
    apply IH. by rewrite <- (pre_configure_hook_family self w).
  - rewrite post_package_hook_self in *. by apply IH.
  - rewrite Hattrs. apply IH. by rewrite <- Hfam.
Qed.

(** No run of the hooks leads to a build step that carries the attribute
    while its toolchain has no MPI family. *)
Example stale_block_unreachable : ~ reachable (stale_block None).
Proof. intros Hreach. by apply reachable_attribute in Hreach. Qed.

(** C9.  Take a build step as runs of the hooks lead to it ([reachable]),
    whose toolchain has no MPI family ([mpi_family()] gives [None] or the
    empty string).  On it [pre_prepare_hook] does nothing at all: the build
    step, the build options and the terminal are as before.  The attribute
    [orig_rpath_override_dirs] is not on such a build step, so the
    [post_prepare_hook] that follows does nothing either, on whatever
    machine it runs. *)
Theorem pre_prepare_hook_without_mpi_family (self : EasyBlock) (w : World) :
  reachable self ->
  Py.truthy (mpi_family self) = false ->
  pre_prepare_hook (self, w) = (Ok tt, (self, w))
  /\ attrs self !! EESSI_RPATH_OVERRIDE_ATTR = None
  /\ forall w', post_prepare_hook (self, w') = (Ok tt, (self, w')).
Proof.
  intros Hreach Hfalsy.
  pose proof (reachable_attribute self Hreach Hfalsy) as Hattr.
  split; [by apply pre_prepare_hook_falsy|]. split; [done|].
  intros w'. by apply post_prepare_hook_without_attribute.
Qed.

Lemma pre_prepare_hook_without_mpi_family_witness :
  let self := fst (snd (pre_configure_hook (Sample.easyblock "WRF" (Some ""), Sample.world))) in
  (pre_prepare_hook (Sample.easyblock "zlib" None, Sample.world)
   = (Ok tt, (Sample.easyblock "zlib" None, Sample.world))
   /\ post_prepare_hook (Sample.easyblock "zlib" None, Sample.power_world)
      = (Ok tt, (Sample.easyblock "zlib" None, Sample.power_world)))
  /\ (pre_prepare_hook (self, Sample.world) = (Ok tt, (self, Sample.world))
      /\ attrs self !! EESSI_RPATH_OVERRIDE_ATTR = None).
Proof.
  intros self. split.
  - destruct (pre_prepare_hook_without_mpi_family
                (Sample.easyblock "zlib" None) Sample.world) as (Hpre & _ & Hpost).
    + apply reachable_new. reflexivity.
    + reflexivity.
    + split; [exact Hpre | apply Hpost].
  - destruct (pre_prepare_hook_without_mpi_family self Sample.world) as (Hpre & Hattr & _).
    + apply reachable_pre_configure, reachable_new. reflexivity.
    + reflexivity.
    + split; [exact Hpre | exact Hattr].
Defined.

(** C5.  Take a build step as runs of the hooks lead to it ([reachable]),
    with or without MPI family, on which [pre_prepare_hook] succeeds.  The
    [post_prepare_hook] that follows succeeds, the build step is then as it
    was before [pre_prepare_hook] and no longer carries the attribute
    [orig_rpath_override_dirs], and the build option [rpath_override_dirs]
    has the value it had before [pre_prepare_hook]. *)
Theorem prepare_hooks_round_trip (self self1 : EasyBlock) (w w1 : World) :
  reachable self ->
  pre_prepare_hook (self, w) = (Ok tt, (self1, w1)) ->
  exists self2 w2,
    post_prepare_hook (self1, w1) = (Ok tt, (self2, w2))
    /\ attrs self2 !! EESSI_RPATH_OVERRIDE_ATTR = None
    /\ self2 = self
    /\ fst (build_option "rpath_override_dirs" w2)
       = fst (build_option "rpath_override_dirs" w).
Proof.
  intros Hreach. apply prepare_hooks_round_trip_from.
  destruct (Py.truthy (mpi_family self)) eqn:Htruthy; [by left|].
  right. by apply reachable_attribute.
Qed.

Lemma prepare_hooks_round_trip_witness :
  let block := Sample.easyblock "OSU-Micro-Benchmarks" (Some "OpenMPI") in
  let after_pre := snd (pre_prepare_hook (block, Sample.world)) in
  exists self2 w2,
    post_prepare_hook after_pre = (Ok tt, (self2, w2))
    /\ attrs self2 !! EESSI_RPATH_OVERRIDE_ATTR = None
    /\ self2 = block
    /\ fst (build_option "rpath_override_dirs" w2)
       = fst (build_option "rpath_override_dirs" Sample.world).
Proof.
  intros block after_pre.
  apply (prepare_hooks_round_trip block (fst after_pre) Sample.world (snd after_pre)).
  - apply reachable_new. reflexivity.
  - vm_compute. reflexivity.
Defined.
